(** * Focus Pomodoro: the session engine and the statistics store

    A shallow embedding of the timer page ([src/app/page.tsx]) and of the
    statistics page ([src/app/category/page.tsx]).

    Conventions of the embedding.
    - JavaScript numbers are integers ([Z]); [NaN] and the infinities are the
      [None] of an [option Z].  Fractions are outside the model.
    - A text kept in [localStorage] under a key that holds JSON is
      represented by what [JSON.parse] makes of it ([item]); what
      [JSON.stringify] writes is read back as the value written.  Writing to
      [localStorage] is taken to succeed.
    - Built-in string functions of the JavaScript host are the fields of the
      class [JsHost], the local calendar behind [Date] is the class [Zone];
      the code of the pages is written against them, and [refHost],
      [fixedZone], [berlin2026] and [cairo2026] are instances to compute
      with.
    - React state is a record.  A handler is a function from the state
      before an event to the state after the event and the effects it
      triggers; an updater function runs once per update, as it does in a
      production build. *)

From Stdlib Require Import ZArith List String Ascii Bool Lia Permutation Sorted.
From Stdlib Require DecimalString DecimalZ.
Import ListNotations.
Open Scope Z_scope.

(** ** JSON values and the JavaScript host *)

#[local] Set Warnings "-register-all".

(** The value [JSON.parse] returns.  [JObj] lists the own properties in
    property order, each key once. *)
Inductive json : Type :=
| JNull
| JBool (b : bool)
| JNum (n : Z)
| JStr (s : string)
| JArr (items : list json)
| JObj (props : list (string * json)).

(** The text found under a key that holds JSON: the empty string, a text
    [JSON.parse] throws on, or a text it parses. *)
Inductive item : Type :=
| Blank
| Malformed
| Json (j : json).

(** Built-ins of the host that the pages call. *)
Class JsHost : Type := {
  (** [s.trim()] *)
  trim : string -> string;
  (** [s.toLocaleLowerCase("tr")] *)
  toLocaleLowerCase_tr : string -> string;
  (** [a.localeCompare(b, "tr")] *)
  localeCompare_tr : string -> string -> Z;
  (** [Number(s)] for a string [s]; [None] when the result is not finite *)
  StringToNumber : string -> option Z;
  (** [Array.prototype.toString] on a parsed array *)
  Array_toString : list json -> string
}.

(** [typeof v === "object"] for a truthy [v]. *)
Definition isObject (j : json) : bool :=
  match j with
  | JArr _ | JObj _ => true
  | _ => false
  end.

(** [Number(v)]; [None] is [NaN]. *)
Definition Number_ `{JsHost} (v : json) : option Z :=
  match v with
  | JNull => Some 0
  | JBool b => Some (if b then 1 else 0)
  | JNum n => Some n
  | JStr s => StringToNumber s
  | JArr l => StringToNumber (Array_toString l)
  | JObj _ => None
  end.

(** [Number(v) || 0] where [v] may be [undefined]. *)
Definition NumberOrZero `{JsHost} (v : option json) : Z :=
  match v with
  | Some j => match Number_ j with Some n => n | None => 0 end
  | None => 0
  end.

(** *** Property keys *)

Definition isDigit (c : ascii) : bool :=
  let n := nat_of_ascii c in (48 <=? n)%nat && (n <=? 57)%nat.

Fixpoint digitsValue (acc : N) (s : string) : option N :=
  match s with
  | EmptyString => Some acc
  | String c r =>
      if isDigit c
      then digitsValue (acc * 10 + N.of_nat (nat_of_ascii c - 48))%N r
      else None
  end.

(** An array index: the canonical decimal text of an integer below
    [2^32 - 1]. *)
Definition arrayIndex (k : string) : option N :=
  match k with
  | EmptyString => None
  | String c r =>
      if (Ascii.eqb c "0" && negb (String.eqb r EmptyString))%bool then None
      else match digitsValue 0%N k with
           | Some n => if (n <? 4294967295)%N then Some n else None
           | None => None
           end
  end.

Fixpoint lookup (k : string) (props : list (string * json)) : option json :=
  match props with
  | [] => None
  | (k', v) :: r => if String.eqb k k' then Some v else lookup k r
  end.

(** [o[k]] read on a parsed value.  Properties inherited from the
    prototypes are functions or objects, which [Number] turns into [NaN] as
    it does [undefined]; they read as [None]. *)
Definition getProp (o : json) (k : string) : option json :=
  match o with
  | JObj props => lookup k props
  | JArr l =>
      if String.eqb k "length" then Some (JNum (Z.of_nat (List.length l)))
      else match arrayIndex k with
           | Some i =>
               if (i <? N.of_nat (List.length l))%N
               then nth_error l (N.to_nat i)
               else None
           | None => None
           end
  | _ => None
  end.

Fixpoint replaceProp (k : string) (v : json) (props : list (string * json))
  : list (string * json) :=
  match props with
  | [] => []
  | (k', v') :: r =>
      if String.eqb k k' then (k', v) :: r else (k', v') :: replaceProp k v r
  end.

(** A new integer key goes before the first larger integer key and before
    every other key. *)
Fixpoint insertIndexProp (i : N) (k : string) (v : json)
  (props : list (string * json)) : list (string * json) :=
  match props with
  | [] => [(k, v)]
  | (k', v') :: r =>
      match arrayIndex k' with
      | Some i' =>
          if (i <? i')%N then (k, v) :: props
          else (k', v') :: insertIndexProp i k v r
      | None => (k, v) :: props
      end
  end.

Definition hasProp (k : string) (props : list (string * json)) : bool :=
  match lookup k props with Some _ => true | None => false end.

(** [o[k] = v] on an ordinary object, as [JSON.stringify] then sees it.  An
    assignment to ["__proto__"] that is not an own property sets nothing. *)
Definition setObjProp (props : list (string * json)) (k : string) (v : json)
  : list (string * json) :=
  if hasProp k props then replaceProp k v props
  else if String.eqb k "__proto__" then props
  else match arrayIndex k with
       | Some i => insertIndexProp i k v props
       | None => props ++ [(k, v)]
       end.

Fixpoint replaceNth (i : nat) (v : json) (l : list json) : list json :=
  match l, i with
  | [], _ => []
  | _ :: r, O => v :: r
  | x :: r, S i' => x :: replaceNth i' v r
  end.

(** The array resized to [n] elements; holes are written as [null]. *)
Definition resize (n : nat) (l : list json) : list json :=
  firstn n l ++ repeat JNull (n - List.length l).

(** [a[k] = v] on an array, as [JSON.stringify] then sees it; [None] when the
    assignment throws (a length that is not a 32-bit count). *)
Definition setArrProp (l : list json) (k : string) (v : Z) : option (list json) :=
  if String.eqb k "length" then
    if (0 <=? v) && (v <? 4294967296) then Some (resize (Z.to_nat v) l) else None
  else match arrayIndex k with
       | Some i =>
           if (i <? N.of_nat (List.length l))%N
           then Some (replaceNth (N.to_nat i) (JNum v) l)
           else Some (resize (N.to_nat i) l ++ [JNum v])
       | None => Some l
       end.

(** ** The timer page: state *)

Inductive TimerMode : Type := focus | short | long.

Definition TimerMode_eqb (a b : TimerMode) : bool :=
  match a, b with
  | focus, focus | short, short | long, long => true
  | _, _ => false
  end.

Module Durations.
(** [type Durations = { focus; short; long }], in minutes.  The fields are
    numbers in the page's state and whatever [JSON.parse] delivered right
    after loading. *)
Record t (A : Type) : Type := Build { focus : A; short : A; long : A }.
Arguments Build {A} _ _ _.
Arguments focus {A} _.
Arguments short {A} _.
Arguments long {A} _.
End Durations.

Definition Durations : Type := Durations.t Z.

Definition DEFAULT_DURATIONS : Durations := Durations.Build 25 5 15.

(** [durations[mode]] *)
Definition dur {A : Type} (d : Durations.t A) (m : TimerMode) : A :=
  match m with
  | focus => Durations.focus d
  | short => Durations.short d
  | long => Durations.long d
  end.

(** The two keys [onFinish] reads and writes. *)
Record Storage : Type := {
  categoryMinutesItem : option item;   (* "fp:category-minutes" *)
  focusEventsItem : option item        (* "fp:focus-events" *)
}.

(** What [onFinish] and [nextMode] read from the render they were created
    in. *)
Record Scope : Type := {
  scopeMode : TimerMode;
  scopeDurations : Durations;
  scopeCompletedFocusCount : Z;
  scopeSelectedCategory : string
}.

(** The state of [Home].  [intervalScope] is the render whose [onFinish] the
    running interval calls: the interval effect depends on [isRunning] only,
    so its callback keeps the functions of the render in which the timer was
    started. *)
Record Home : Type := {
  durations : Durations;
  mode : TimerMode;
  isRunning : bool;
  completedFocusCount : Z;
  totalMinutes : Z;
  remainingSeconds : Z;
  selectedCategory : string;
  intervalScope : Scope;
  localStorage : Storage
}.

Definition render (s : Home) : Scope :=
  {| scopeMode := mode s;
     scopeDurations := durations s;
     scopeCompletedFocusCount := completedFocusCount s;
     scopeSelectedCategory := selectedCategory s |}.

Definition withDurations (d : Durations) (s : Home) : Home :=
  {| durations := d; mode := mode s; isRunning := isRunning s;
     completedFocusCount := completedFocusCount s;
     totalMinutes := totalMinutes s; remainingSeconds := remainingSeconds s;
     selectedCategory := selectedCategory s;
     intervalScope := intervalScope s; localStorage := localStorage s |}.

Definition withMode (m : TimerMode) (s : Home) : Home :=
  {| durations := durations s; mode := m; isRunning := isRunning s;
     completedFocusCount := completedFocusCount s;
     totalMinutes := totalMinutes s; remainingSeconds := remainingSeconds s;
     selectedCategory := selectedCategory s;
     intervalScope := intervalScope s; localStorage := localStorage s |}.

Definition withIsRunning (b : bool) (s : Home) : Home :=
  {| durations := durations s; mode := mode s; isRunning := b;
     completedFocusCount := completedFocusCount s;
     totalMinutes := totalMinutes s; remainingSeconds := remainingSeconds s;
     selectedCategory := selectedCategory s;
     intervalScope := intervalScope s; localStorage := localStorage s |}.

Definition withCompletedFocusCount (c : Z) (s : Home) : Home :=
  {| durations := durations s; mode := mode s; isRunning := isRunning s;
     completedFocusCount := c;
     totalMinutes := totalMinutes s; remainingSeconds := remainingSeconds s;
     selectedCategory := selectedCategory s;
     intervalScope := intervalScope s; localStorage := localStorage s |}.

Definition withTotalMinutes (m : Z) (s : Home) : Home :=
  {| durations := durations s; mode := mode s; isRunning := isRunning s;
     completedFocusCount := completedFocusCount s;
     totalMinutes := m; remainingSeconds := remainingSeconds s;
     selectedCategory := selectedCategory s;
     intervalScope := intervalScope s; localStorage := localStorage s |}.

Definition withRemainingSeconds (r : Z) (s : Home) : Home :=
  {| durations := durations s; mode := mode s; isRunning := isRunning s;
     completedFocusCount := completedFocusCount s;
     totalMinutes := totalMinutes s; remainingSeconds := r;
     selectedCategory := selectedCategory s;
     intervalScope := intervalScope s; localStorage := localStorage s |}.

Definition withSelectedCategory (c : string) (s : Home) : Home :=
  {| durations := durations s; mode := mode s; isRunning := isRunning s;
     completedFocusCount := completedFocusCount s;
     totalMinutes := totalMinutes s; remainingSeconds := remainingSeconds s;
     selectedCategory := c;
     intervalScope := intervalScope s; localStorage := localStorage s |}.

Definition withIntervalScope (c : Scope) (s : Home) : Home :=
  {| durations := durations s; mode := mode s; isRunning := isRunning s;
     completedFocusCount := completedFocusCount s;
     totalMinutes := totalMinutes s; remainingSeconds := remainingSeconds s;
     selectedCategory := selectedCategory s;
     intervalScope := c; localStorage := localStorage s |}.

Definition withLocalStorage (st : Storage) (s : Home) : Home :=
  {| durations := durations s; mode := mode s; isRunning := isRunning s;
     completedFocusCount := completedFocusCount s;
     totalMinutes := totalMinutes s; remainingSeconds := remainingSeconds s;
     selectedCategory := selectedCategory s;
     intervalScope := intervalScope s; localStorage := st |}.

(** ** The timer page: transitions *)

(** [nextMode(current)], with the [completedFocusCount] of its render.  The
    remainder is JavaScript's [%], which truncates ([Z.rem]). *)
Definition nextMode (completedFocusCount : Z) (current : TimerMode) : TimerMode :=
  match current with
  | focus => if Z.rem (completedFocusCount + 1) 4 =? 0 then long else short
  | _ => focus
  end.

(** [useEffect(() => setRemainingSeconds(durations[mode] * 60),
    [durations, mode])] *)
Definition resetEffect (s : Home) : Home :=
  withRemainingSeconds (dur (durations s) (mode s) * 60) s.

(** The effects that follow an update which left [durations] alone: the
    reset effect runs when [mode] changed. *)
Definition afterModeUpdate (before after : Home) : Home :=
  if TimerMode_eqb (mode before) (mode after) then after else resetEffect after.

(** *** The statistics written on a completed focus interval *)

(** [map] as [onFinish] starts with it: the parsed text when it is an
    object, [{}] otherwise. *)
Definition loadMap (it : option item) : json :=
  match it with
  | Some (Json parsed) => if isObject parsed then parsed else JObj []
  | _ => JObj []
  end.

(** [map[label] = v] followed by [JSON.stringify(map)]; [None] when the
    assignment throws. *)
Definition storeLabel (map : json) (label : string) (v : Z) : option json :=
  match map with
  | JObj props => Some (JObj (setObjProp props label (JNum v)))
  | JArr l => option_map JArr (setArrProp l label v)
  | _ => Some map
  end.

(** [events] as [onFinish] starts with it. *)
Definition loadEvents (it : option item) : list json :=
  match it with
  | Some (Json (JArr parsed)) => parsed
  | _ => []
  end.

Definition newEvent (ts : Z) (category : string) (minutes : Z) : json :=
  JObj [("ts"%string, JNum ts); ("category"%string, JStr category);
        ("minutes"%string, JNum minutes)].

(** [events.push(newEvent)] and the upper bound of 1000 entries. *)
Definition pushEvent (events : list json) (e : json) : list json :=
  let events := events ++ [e] in
  if (1000 <? List.length events)%nat
  then skipn (List.length events - 1000) events
  else events.

(** The storage block of [onFinish] (the body of its outer [try]), run when
    the finished mode is focus: [category] is [selectedCategory], [minutes]
    is [durations.focus] and [now] is [Date.now()].  Writing to
    [localStorage] is taken to succeed. *)
Definition recordCompletion `{JsHost} (now : Z) (category : string)
  (minutes : Z) (st : Storage) : Storage :=
  let map := loadMap (categoryMinutesItem st) in
  let label := trim category in
  let current := NumberOrZero (getProp map label) in
  match storeLabel map label (Z.max 0 (current + minutes)) with
  | None => st
  | Some map' =>
      {| categoryMinutesItem := Some (Json map');
         focusEventsItem :=
           Some (Json (JArr (pushEvent (loadEvents (focusEventsItem st))
                                       (newEvent now label minutes)))) |}
  end.

(** [onFinish()], called by the interval: every free variable is read in
    [intervalScope]; the counters are updated by functions of their current
    value. *)
Definition onFinish `{JsHost} (now : Z) (s : Home) : Home :=
  let r := intervalScope s in
  let s1 :=
    match scopeMode r with
    | focus =>
        withLocalStorage
          (recordCompletion now (scopeSelectedCategory r)
             (Durations.focus (scopeDurations r)) (localStorage s))
          (withTotalMinutes (totalMinutes s + Durations.focus (scopeDurations r))
             (withCompletedFocusCount (completedFocusCount s + 1) s))
    | _ => s
    end in
  let nm := nextMode (scopeCompletedFocusCount r) (scopeMode r) in
  withRemainingSeconds (dur (scopeDurations r) nm * 60) (withMode nm s1).

(** The value the interval's updater returns for [prev]. *)
Definition countdown (prev : Z) : Z :=
  if prev <=? 1 then 0 else prev - 1.

(** One firing of the interval, which exists while [isRunning].  When the
    updater returns 0 it has called [onFinish], whose own
    [setRemainingSeconds] and the reset effect of the mode change decide the
    countdown the next render shows. *)
Definition tick `{JsHost} (now : Z) (s : Home) : Home :=
  if isRunning s then
    if remainingSeconds s <=? 1
    then afterModeUpdate s (onFinish now (withIsRunning false s))
    else withRemainingSeconds (countdown (remainingSeconds s)) s
  else s.

(** [handleStartPause()]; when the timer starts, the interval effect runs
    and its callback closes over that render. *)
Definition handleStartPause (s : Home) : Home :=
  let s' := withIsRunning (negb (isRunning s)) s in
  if isRunning s' then withIntervalScope (render s') s' else s'.

(** [handleReset()] *)
Definition handleReset (s : Home) : Home :=
  withRemainingSeconds (dur (durations s) (mode s) * 60) (withIsRunning false s).

(** [handleSkip()] *)
Definition handleSkip (s : Home) : Home :=
  let nm := nextMode (completedFocusCount s) (mode s) in
  afterModeUpdate s
    (withRemainingSeconds (dur (durations s) nm * 60)
       (withMode nm (withIsRunning false s))).

(** [setDurations(d)] with a fresh record [d], and the reset effect that
    follows every new [durations] object. *)
Definition setDurations (d : Durations) (s : Home) : Home :=
  resetEffect (withDurations d s).

(** [e.target.value] of an [<input type="number">]: the empty string, also
    for text that is not a number, or a number (a whole number, by the
    conventions of the embedding). *)
Inductive InputValue : Type :=
| NoNumber
| Typed (n : Z).

(** [Number(e.target.value || 0)] *)
Definition NumberOfInput (v : InputValue) : Z :=
  match v with
  | NoNumber => 0
  | Typed n => n
  end.

(** [Math.max(1, Math.min(180, n))] *)
Definition clampMinutes (n : Z) : Z := Z.max 1 (Z.min 180 n).

(** The [onChange] handlers of the three settings inputs. *)
Definition onChangeFocus (v : InputValue) (s : Home) : Home :=
  setDurations
    (Durations.Build (clampMinutes (NumberOfInput v))
       (Durations.short (durations s)) (Durations.long (durations s))) s.

Definition onChangeShort (v : InputValue) (s : Home) : Home :=
  setDurations
    (Durations.Build (Durations.focus (durations s))
       (clampMinutes (NumberOfInput v)) (Durations.long (durations s))) s.

Definition onChangeLong (v : InputValue) (s : Home) : Home :=
  setDurations
    (Durations.Build (Durations.focus (durations s))
       (Durations.short (durations s)) (clampMinutes (NumberOfInput v))) s.

(** [onChange] of the category select *)
Definition selectCategory (v : string) (s : Home) : Home :=
  withSelectedCategory v s.

(** ** The timer page: loading persisted values *)

(** One field of [{ ...prev, ...parsed }]. *)
Definition spreadField (prev : json) (k : string) (parsed : json) : json :=
  match parsed with
  | JObj props => match lookup k props with Some v => v | None => prev end
  | _ => prev
  end.

(** The durations load effect: what [durations] holds after it, as the
    values [JSON.parse] delivered. *)
Definition loadDurations (it : option item) : Durations.t json :=
  let prev := Durations.Build (JNum 25) (JNum 5) (JNum 15) in
  match it with
  | Some (Json parsed) =>
      if isObject parsed
      then Durations.Build
             (spreadField (Durations.focus prev) "focus" parsed)
             (spreadField (Durations.short prev) "short" parsed)
             (spreadField (Durations.long prev) "long" parsed)
      else prev
  | _ => prev
  end.

(** [durations[mode] * 60], the countdown the page computes, on the
    durations the load effect delivered: the operand is converted as
    [Number] converts it; [None] is [NaN]. *)
Definition secondsOf `{JsHost} (d : Durations.t json) (m : TimerMode)
  : option Z :=
  option_map (fun n => n * 60) (Number_ (dur d m)).

(** The load effect of [useLocalStorageNumber(key, initialValue)]; [raw] is
    the text under the key. *)
Definition loadNumber `{JsHost} (raw : option string) (initialValue : Z) : Z :=
  match raw with
  | Some text =>
      if String.eqb text "" then initialValue
      else match StringToNumber text with
           | Some parsed => parsed
           | None => initialValue
           end
  | None => initialValue
  end.

Definition DEFAULT_CATEGORIES : list string :=
  ["Genel"; "Çalışma"; "Yazılım"; "Okuma"]%string.

Fixpoint onlyStrings (parsed : list json) : list string :=
  match parsed with
  | [] => []
  | JStr s :: r => s :: onlyStrings r
  | _ :: r => onlyStrings r
  end.

(** The filter with the [seen] set of the categories load effect. *)
Fixpoint uniqueLabels `{JsHost} (seen : list string) (labels : list string)
  : list string :=
  match labels with
  | [] => []
  | label :: r =>
      let key := toLocaleLowerCase_tr (trim label) in
      if existsb (String.eqb key) seen then uniqueLabels seen r
      else label :: uniqueLabels (key :: seen) r
  end.

(** The categories load effect. *)
Definition loadCategories `{JsHost} (it : option item) : list string :=
  match it with
  | Some (Json (JArr parsed)) =>
      uniqueLabels [] (DEFAULT_CATEGORIES ++ onlyStrings parsed)
  | _ => DEFAULT_CATEGORIES
  end.

(** The state of [Home] when it mounts. *)
Definition mount (st : Storage) : Home :=
  {| durations := DEFAULT_DURATIONS; mode := focus; isRunning := false;
     completedFocusCount := 0; totalMinutes := 0;
     remainingSeconds := dur DEFAULT_DURATIONS focus * 60;
     selectedCategory := "Genel";
     intervalScope :=
       {| scopeMode := focus; scopeDurations := DEFAULT_DURATIONS;
          scopeCompletedFocusCount := 0; scopeSelectedCategory := "Genel" |};
     localStorage := st |}.

(** *** Runs of the timer page *)

(** What can happen to the mounted page: the interval fires, or the user
    acts. *)
Inductive Event : Type :=
| Tick (now : Z)
| StartPause
| Reset
| Skip
| ChangeFocus (v : InputValue)
| ChangeShort (v : InputValue)
| ChangeLong (v : InputValue)
| SelectCategory (v : string).

Definition step `{JsHost} (e : Event) (s : Home) : Home :=
  match e with
  | Tick now => tick now s
  | StartPause => handleStartPause s
  | Reset => handleReset s
  | Skip => handleSkip s
  | ChangeFocus v => onChangeFocus v s
  | ChangeShort v => onChangeShort v s
  | ChangeLong v => onChangeLong v s
  | SelectCategory v => selectCategory v s
  end.

(** The events of [es] applied from left to right. *)
Definition run `{JsHost} (es : list Event) (s : Home) : Home :=
  fold_left (fun acc e => step e acc) es s.

(** [n] firings of the interval. *)
Definition ticks `{JsHost} (now : Z) (n : nat) (s : Home) : Home :=
  Nat.iter n (tick now) s.

(** Start the paused timer and let the interval fire once per second of the
    countdown. *)
Definition runOut `{JsHost} (now : Z) (s : Home) : Home :=
  ticks now (Z.to_nat (remainingSeconds s)) (handleStartPause s).

(** A break is left by skipping it or by letting it run out. *)
Definition leaveBreak `{JsHost} (now : Z) (skip : bool) (s : Home) : Home :=
  if skip then handleSkip s else runOut now s.

(** The state right after the focus interval number [k + 1] has run out,
    every break in between being left as [skips] says. *)
Fixpoint afterFocus `{JsHost} (now : Z) (skips : nat -> bool) (k : nat)
  (s : Home) : Home :=
  match k with
  | O => runOut now s
  | S k' => runOut now (leaveBreak now (skips k') (afterFocus now skips k' s))
  end.

(** The interval's scope agrees with the state on what cannot change while
    the timer runs. *)
Definition scopeInSync (s : Home) : Prop :=
  isRunning s = true ->
  scopeMode (intervalScope s) = mode s /\
  scopeCompletedFocusCount (intervalScope s) = completedFocusCount s.

(** Every configured duration is at least one minute. *)
Definition positiveDurations (d : Durations) : Prop :=
  1 <= Durations.focus d /\ 1 <= Durations.short d /\ 1 <= Durations.long d.

(** The loaded durations as the numbers the page computes with, when all
    three are numbers. *)
Definition asNumbers (d : Durations.t json) : option Durations :=
  match Durations.focus d, Durations.short d, Durations.long d with
  | JNum f, JNum s, JNum l => Some (Durations.Build f s l)
  | _, _, _ => None
  end.

(** Every duration lies between 1 and 180 minutes. *)
Definition withinLimits (d : Durations) : Prop :=
  1 <= Durations.focus d <= 180 /\
  1 <= Durations.short d <= 180 /\
  1 <= Durations.long d <= 180.

(** Stored durations with the right shape and a focus length of 500
    minutes. *)
Definition longFocusItem : option item :=
  Some (Json (JObj [("focus"%string, JNum 500); ("short"%string, JNum 5);
                    ("long"%string, JNum 15)])).

(** Stored durations whose focus length is a text. *)
Definition textFocusItem : option item :=
  Some (Json (JObj [("focus"%string, JStr "abc")])).

(** ** A reference host

    The host functions on ASCII text, to run the pages on concrete data:
    white space is the six ASCII white-space characters, comparison is by
    character code, and a numeric text is an optionally signed row of
    decimal digits. *)

Definition isSpace (c : ascii) : bool :=
  let n := nat_of_ascii c in
  ((n =? 32) || ((9 <=? n) && (n <=? 13)))%nat.

Fixpoint trimStart (s : string) : string :=
  match s with
  | EmptyString => EmptyString
  | String c r => if isSpace c then trimStart r else s
  end.

Fixpoint reverse (acc s : string) : string :=
  match s with
  | EmptyString => acc
  | String c r => reverse (String c acc) r
  end.

Definition asciiTrim (s : string) : string :=
  reverse EmptyString (trimStart (reverse EmptyString (trimStart s))).

Definition lowerChar (c : ascii) : ascii :=
  let n := nat_of_ascii c in
  if ((65 <=? n) && (n <=? 90))%nat then ascii_of_nat (n + 32) else c.

Fixpoint asciiLower (s : string) : string :=
  match s with
  | EmptyString => EmptyString
  | String c r => String (lowerChar c) (asciiLower r)
  end.

Definition codeCompare (a b : string) : Z :=
  match String.compare a b with
  | Lt => -1
  | Eq => 0
  | Gt => 1
  end.

Definition decimalToNumber (s : string) : option Z :=
  match asciiTrim s with
  | EmptyString => Some 0
  | String "-" (String c r) =>
      option_map (fun n => - Z.of_N n) (digitsValue 0%N (String c r))
  | String "+" (String c r) =>
      option_map Z.of_N (digitsValue 0%N (String c r))
  | t => option_map Z.of_N (digitsValue 0%N t)
  end.

Fixpoint joinWith (sep : string) (l : list string) : string :=
  match l with
  | [] => EmptyString
  | [x] => x
  | x :: r => (x ++ sep ++ joinWith sep r)%string
  end.

Fixpoint toText (j : json) : string :=
  match j with
  | JNull => EmptyString
  | JBool true => "true"
  | JBool false => "false"
  | JNum n => DecimalString.NilZero.string_of_int (Z.to_int n)
  | JStr s => s
  | JArr l => joinWith "," (map toText l)
  | JObj _ => "[object Object]"
  end.

Definition refHost : JsHost := {|
  trim := asciiTrim;
  toLocaleLowerCase_tr := asciiLower;
  localeCompare_tr := codeCompare;
  StringToNumber := decimalToNumber;
  Array_toString := fun l => joinWith "," (map toText l)
|}.

(** ** The statistics store: cache and log *)

Definition emptyStorage : Storage :=
  {| categoryMinutesItem := None; focusEventsItem := None |}.

(** One completed focus interval as [onFinish] records it: the time, the
    selected category and [durations.focus]. *)
Record Completion : Type := {
  completedAt : Z;
  completedCategory : string;
  completedMinutes : Z
}.

(** The event [recordCompletion] appends for a completion. *)
Definition eventOf `{JsHost} (c : Completion) : json :=
  newEvent (completedAt c) (trim (completedCategory c)) (completedMinutes c).

(** The storage after the completions [cs], oldest first. *)
Definition recordAll `{JsHost} (cs : list Completion) (st : Storage) : Storage :=
  fold_left
    (fun acc c =>
       recordCompletion (completedAt c) (completedCategory c)
         (completedMinutes c) acc)
    cs st.

(** The cached minutes of a category, read as [onFinish] reads them:
    [Number(map[label]) || 0]. *)
Definition cacheMinutes `{JsHost} (st : Storage) (label : string) : Z :=
  NumberOrZero (getProp (loadMap (categoryMinutesItem st)) label).

(** The stored log. *)
Definition eventLog (st : Storage) : list json :=
  loadEvents (focusEventsItem st).

(** [ev.category === label] *)
Definition hasCategory (label : string) (ev : json) : bool :=
  match getProp ev "category" with
  | Some (JStr c) => String.eqb c label
  | _ => false
  end.

(** [Number(ev.minutes) || 0], as both views of the statistics page read the
    minutes of an event. *)
Definition eventMinutes `{JsHost} (ev : json) : Z :=
  NumberOrZero (getProp ev "minutes").

(** After the words of the spec (replaying the event log): the minutes of a
    category summed over the events of a log. *)
Definition replay `{JsHost} (events : list json) (label : string) : Z :=
  fold_right
    (fun ev acc => if hasCategory label ev then eventMinutes ev + acc else acc)
    0 events.

(** [l.slice(l.length - n)] for [n <= l.length], and [l] itself otherwise. *)
Definition keepLast {A : Type} (n : nat) (l : list A) : list A :=
  skipn (List.length l - n) l.

(** A completed focus interval in the category "__proto__", and one with a
    focus length below 0. *)
Definition protoCompletion : Completion :=
  {| completedAt := 0; completedCategory := "__proto__";
     completedMinutes := 25 |}.

Definition negativeCompletion : Completion :=
  {| completedAt := 0; completedCategory := "Genel";
     completedMinutes := -5 |}.

(** A store after 1001 completed focus intervals of 25 minutes in the
    default category. *)
Definition after1001 : Storage :=
  @recordAll refHost
    (repeat {| completedAt := 0; completedCategory := "Genel";
               completedMinutes := 25 |} 1001)
    emptyStorage.

(** ** The statistics page *)

(** [Map<string, A>]: the entries in insertion order. *)
Fixpoint mapGet {A : Type} (k : string) (m : list (string * A)) : option A :=
  match m with
  | [] => None
  | (k', v) :: r => if String.eqb k k' then Some v else mapGet k r
  end.

Fixpoint mapSet {A : Type} (k : string) (v : A) (m : list (string * A))
  : list (string * A) :=
  match m with
  | [] => [(k, v)]
  | (k', v') :: r =>
      if String.eqb k k' then (k', v) :: r else (k', v') :: mapSet k v r
  end.

(** [set.add(x)] on a [Set<string>] listed in insertion order. *)
Definition setAdd (x : string) (set : list string) : list string :=
  if existsb (String.eqb x) set then set else set ++ [x].

(** [l.sort(cmp)]: the stable order, built by insertion. *)
Fixpoint insertSorted {A : Type} (cmp : A -> A -> Z) (x : A) (l : list A)
  : list A :=
  match l with
  | [] => [x]
  | y :: r => if 0 <? cmp x y then y :: insertSorted cmp x r else x :: l
  end.

Definition sortBy {A : Type} (cmp : A -> A -> Z) (l : list A) : list A :=
  fold_right (insertSorted cmp) [] l.

(** [type FocusEvent], the type the page casts the parsed log to. *)
Record FocusEvent : Type := {
  ts : Z;
  category : string;
  minutes : Z
}.

(** A stored event that has the declared type. *)
Definition asFocusEvent (j : json) : option FocusEvent :=
  match getProp j "ts", getProp j "category", getProp j "minutes" with
  | Some (JNum t), Some (JStr c), Some (JNum m) =>
      Some {| ts := t; category := c; minutes := m |}
  | _, _, _ => None
  end.

(** [useCategoryMinutes()]: the data after its load effect. *)
Definition useCategoryMinutes (it : option item) : json :=
  match it with
  | Some (Json parsed) => if isObject parsed then parsed else JObj []
  | _ => JObj []
  end.

(** [Object.keys(o)] of a parsed value. *)
Definition Object_keys (o : json) : list string :=
  match o with
  | JObj props => map fst props
  | JArr l =>
      map (fun i => DecimalString.NilZero.string_of_uint (Nat.to_uint i))
        (seq 0 (List.length l))
  | _ => []
  end.

(** The [Set] of [allCategories] before it is filtered and sorted: the keys
    of the cache, then the categories of the events, each label where it was
    first added. *)
Definition seenCategories (minutesByCategory : json) (events : list FocusEvent)
  : list string :=
  fold_left (fun set ev => setAdd (category ev) set) events
    (fold_left (fun set k => setAdd k set) (Object_keys minutesByCategory) []).

(** [allCategories] *)
Definition allCategories `{JsHost} (minutesByCategory : json)
  (events : list FocusEvent) : list string :=
  sortBy localeCompare_tr
    (filter (fun x => negb (String.eqb (trim x) ""))
       (seenCategories minutesByCategory events)).

Definition palette : list string :=
  ["var(--chart-1)"; "var(--chart-2)"; "var(--chart-3)"; "var(--chart-4)";
   "var(--chart-5)"]%string.

(** [allCategories.forEach((label, idx) => map.set(label, palette[idx %
    palette.length]))], from index [idx] on. *)
Fixpoint colorEach (labels : list string) (idx : nat)
  (map : list (string * string)) : list (string * string) :=
  match labels with
  | [] => map
  | label :: r =>
      colorEach r (S idx)
        (mapSet label (nth (idx mod List.length palette) palette ""%string) map)
  end.

(** [categoryColor(label)] *)
Definition categoryColor `{JsHost} (minutesByCategory : json)
  (events : list FocusEvent) (label : string) : string :=
  match mapGet label (colorEach (allCategories minutesByCategory events) 0 []) with
  | Some color => color
  | None => nth 0 palette ""%string
  end.

(** *** Days and weeks *)

(** The local calendar of the host: [dayOf t] numbers the local calendar day
    of the instant [t] (milliseconds since the epoch), counted from 1 January
    1970, and [dayStart d] is the instant at which the local day [d]
    begins.  [LocalTime] and [UTC] are the two conversions of ECMA-262
    behind every [Date] method: the local time value of an instant, and the
    instant of a local time value (for a local time that the clock skips or
    repeats, the one read with the offset before the change). *)
Class Zone : Type := {
  dayOf : Z -> Z;
  dayStart : Z -> Z;
  LocalTime : Z -> Z;
  UTC : Z -> Z
}.

(** [new Date(t).getDay()]: 0 is Sunday; 1 January 1970 was a Thursday. *)
Definition getDay `{Zone} (t : Z) : Z := (dayOf t + 4) mod 7.

(** [d.setDate(d.getDate() + k); d.setHours(0, 0, 0, 0)]: local midnight,
    [k] calendar days from the day of [t]. *)
Definition midnight `{Zone} (t : Z) (k : Z) : Z := dayStart (dayOf t + k).

Definition MS_PER_DAY : Z := 24 * 60 * 60 * 1000.

(** [d.setDate(d.getDate() + k)] alone, on a [Date] at the instant [t]: the
    date moves by [k] days and the local time of day stays, so the result is
    the instant of the local time of [t] plus [k] days. *)
Definition setDate `{Zone} (t : Z) (k : Z) : Z :=
  UTC (LocalTime t + k * MS_PER_DAY).

(** [Number(ev.minutes) || 0] on a number. *)
Definition minutesOrZero (m : Z) : Z := if m =? 0 then 0 else m.

(** [m.set(label, (m.get(label) ?? 0) + minutes)] *)
Definition addMinutes (label : string) (n : Z) (m : list (string * Z))
  : list (string * Z) :=
  mapSet label (match mapGet label m with Some v => v | None => 0 end + n) m.

(** The daily aggregate of the selected day: [start] is the local midnight
    of that day, [end] is [start] moved by one day with [setDate], without a
    second [setHours]. *)
Definition dailyTotalsByCategory `{Zone} (now : Z) (dayOffset : Z)
  (events : list FocusEvent) : list (string * Z) :=
  let start := midnight now dayOffset in
  let end_ := setDate start 1 in
  fold_left
    (fun totalsByCat ev =>
       if (start <=? ts ev) && (ts ev <? end_)
       then addMinutes (category ev) (minutesOrZero (minutes ev)) totalsByCat
       else totalsByCat)
    events [].

(** One entry of [weekDays]; its [key] only names the column for React. *)
Record DayRow : Type := {
  date : Z;
  total : Z;
  breakdown : list (string * Z)
}.

(** Monday of the current week at local midnight. *)
Definition weekStartOf `{Zone} (now : Z) : Z :=
  let day := getDay now in
  let diffToMonday := (day + 6) mod 7 in
  midnight now (- diffToMonday).

(** The seven rows before the events are counted. *)
Definition emptyWeek `{Zone} (weekStart : Z) : list DayRow :=
  map (fun i => {| date := midnight weekStart (Z.of_nat i); total := 0;
                   breakdown := [] |})
    (seq 0 7).

(** The update of [dayRow] for one event. *)
Definition countInRow (label : string) (n : Z) (row : DayRow) : DayRow :=
  {| date := date row;
     total := total row + n;
     breakdown := addMinutes label n (breakdown row) |}.

Fixpoint updateNth {A : Type} (i : nat) (f : A -> A) (l : list A) : list A :=
  match l, i with
  | [], _ => []
  | x :: r, O => f x :: r
  | x :: r, S i' => x :: updateNth i' f r
  end.

(** The body of the loop over the events of the weekly aggregate. *)
Definition countEvent (startMs endMs : Z)
  (acc : list DayRow * list (string * Z)) (ev : FocusEvent)
  : list DayRow * list (string * Z) :=
  let (days, totalsByCat) := acc in
  if (startMs <=? ts ev) && (ts ev <? endMs) then
    let idx := Z.to_nat ((ts ev - startMs) / MS_PER_DAY) in
    match nth_error days idx with
    | None => acc
    | Some _ =>
        let n := minutesOrZero (minutes ev) in
        (updateNth idx (countInRow (category ev) n) days,
         addMinutes (category ev) n totalsByCat)
    end
  else acc.

(** [d.breakdown.sort((a, b) => b.minutes - a.minutes)] *)
Definition sortBreakdown (row : DayRow) : DayRow :=
  {| date := date row; total := total row;
     breakdown := sortBy (fun a b => snd b - snd a) (breakdown row) |}.

(** The weekly aggregate: [weekDays] and [weeklyTotalsByCategory]. *)
Definition weeklyTotals `{Zone} (now : Z) (events : list FocusEvent)
  : list DayRow * list (string * Z) :=
  let weekStart := weekStartOf now in
  let startMs := weekStart in
  let endMs := weekStart + 7 * 24 * 60 * 60 * 1000 in
  let (days, totalsByCat) :=
    fold_left (countEvent startMs endMs) events (emptyWeek weekStart, []) in
  (map sortBreakdown days, totalsByCat).

(** *** What the weekly view is meant to show *)

(** The calendar is consistent: an instant lies on day [d] exactly when it
    lies between the start of [d] and the start of the next day. *)
Definition lawfulZone `{Zone} : Prop :=
  forall t d, dayOf t = d <-> dayStart d <= t < dayStart (d + 1).

(** The number of the Monday of the week of [now]. *)
Definition mondayOf `{Zone} (now : Z) : Z :=
  dayOf now - (getDay now + 6) mod 7.

(** Every day of the week of [now] has 24 hours: no clock change falls into
    the week. *)
Definition wholeDays `{Zone} (now : Z) : Prop :=
  forall i, 0 <= i <= 7 ->
    dayStart (mondayOf now + i) = dayStart (mondayOf now) + i * MS_PER_DAY.

(** The minutes of the events that satisfy [p]. *)
Definition sumIf (p : FocusEvent -> bool) (events : list FocusEvent) : Z :=
  fold_right
    (fun ev acc => if p ev then minutesOrZero (minutes ev) + acc else acc)
    0 events.

(** After the words of the spec: the minutes of the events on the local
    calendar day [d], in all and for one category, and the minutes of a
    category over the seven days from day [monday]. *)
Definition minutesOn `{Zone} (events : list FocusEvent) (d : Z) : Z :=
  sumIf (fun ev => dayOf (ts ev) =? d) events.

Definition minutesOnFor `{Zone} (events : list FocusEvent) (d : Z)
  (label : string) : Z :=
  sumIf (fun ev => (dayOf (ts ev) =? d) && String.eqb (category ev) label)
    events.

Definition minutesInWeekFor `{Zone} (events : list FocusEvent) (monday : Z)
  (label : string) : Z :=
  sumIf (fun ev => (monday <=? dayOf (ts ev)) && (dayOf (ts ev) <? monday + 7)
                   && String.eqb (category ev) label)
    events.

(** The minutes of a category among the events from the instant [from] up
    to, and without, the instant [upto]. *)
Definition minutesBetweenFor (events : list FocusEvent) (from upto : Z)
  (label : string) : Z :=
  sumIf (fun ev => (from <=? ts ev) && (ts ev <? upto)
                   && String.eqb (category ev) label)
    events.

(** [dayOf] and [dayStart] are what ECMA-262 computes them from: the day of
    the local time value, and the instant of the local time value at which
    the day begins. *)
Definition datesByLocalTime `{Zone} : Prop :=
  (forall t, dayOf t = LocalTime t / MS_PER_DAY) /\
  (forall d, dayStart d = UTC (d * MS_PER_DAY)).

(** [m.get(label) ?? 0] *)
Definition minutesIn (label : string) (m : list (string * Z)) : Z :=
  match mapGet label m with Some v => v | None => 0 end.

(** The rows and the weekly totals hold what the events [done] amount to,
    row [i] standing for day [monday + i]. *)
Definition weekCounted `{Zone} (monday : Z) (days : list DayRow)
  (totals : list (string * Z)) (done : list FocusEvent) : Prop :=
  List.length days = 7%nat /\
  (forall i row, nth_error days i = Some row ->
     date row = dayStart (monday + Z.of_nat i) /\
     total row = minutesOn done (monday + Z.of_nat i) /\
     NoDup (map fst (breakdown row)) /\
     forall label,
       minutesIn label (breakdown row)
       = minutesOnFor done (monday + Z.of_nat i) label) /\
  (forall label, minutesIn label totals = minutesInWeekFor done monday label).

(** *** Concrete calendars *)

(** A zone without clock changes, [offset] milliseconds ahead of UTC. *)
Definition fixedZone (offset : Z) : Zone := {|
  dayOf := fun t => (t + offset) / MS_PER_DAY;
  dayStart := fun d => d * MS_PER_DAY - offset;
  LocalTime := fun t => t + offset;
  UTC := fun t => t - offset
|}.

(** Central European time around the end of summer time on Sunday
    25 October 2026, 01:00 UTC: two hours ahead of UTC before, one hour
    after. *)
Definition summerTimeEnds : Z := 1792890000000.

Definition berlin2026 : Zone := {|
  dayOf := fun t =>
    (t + (if t <? summerTimeEnds then 7200000 else 3600000)) / MS_PER_DAY;
  dayStart := fun d =>
    if d * MS_PER_DAY - 7200000 <? summerTimeEnds
    then d * MS_PER_DAY - 7200000
    else d * MS_PER_DAY - 3600000;
  LocalTime := fun t =>
    t + (if t <? summerTimeEnds then 7200000 else 3600000);
  UTC := fun t =>
    if t - 7200000 <? summerTimeEnds then t - 7200000 else t - 3600000
|}.

(** Egyptian time around the start of summer time on Friday 24 April 2026
    at local midnight (Thursday 22:00 UTC): two hours ahead of UTC before,
    three hours after, so that the Friday begins at 01:00 on the local
    clock.  A local time of the skipped hour is read with the offset before
    the change. *)
Definition summerTimeBegins : Z := 1776981600000.

Definition cairo2026 : Zone := {|
  dayOf := fun t =>
    (t + (if t <? summerTimeBegins then 7200000 else 10800000)) / MS_PER_DAY;
  dayStart := fun d =>
    if d * MS_PER_DAY - 10800000 <? summerTimeBegins
    then d * MS_PER_DAY - 7200000
    else d * MS_PER_DAY - 10800000;
  LocalTime := fun t =>
    t + (if t <? summerTimeBegins then 7200000 else 10800000);
  UTC := fun t =>
    if t - 10800000 <? summerTimeBegins then t - 7200000 else t - 10800000
|}.

(** Saturday 25 April 2026, 00:30 and 12:00 Egyptian summer time. *)
Definition saturdayEarly : FocusEvent :=
  {| ts := 1777066200000; category := "Genel"; minutes := 25 |}.

Definition saturdayNoon : Z := 1777107600000.

(** Sunday 25 October 2026, 23:30 and 23:45 Central European time. *)
Definition sundayNight : FocusEvent :=
  {| ts := 1792967400000; category := "Genel"; minutes := 25 |}.

Definition sundayLater : Z := 1792968300000.

(** A cache whose first key is not the first in the alphabet. *)
Definition yazilimFirst : json :=
  JObj [("Yazilim"%string, JNum 25); ("Genel"%string, JNum 50)].

(** ** Further properties of the timer page: what they are stated with *)

(** The countdown is positive and at most the full length of the current
    mode. *)
Definition countdownInRange (s : Home) : Prop :=
  0 < remainingSeconds s <= dur (durations s) (mode s) * 60.

(** An event with which the user edits the settings or the category. *)
Definition isEdit (e : Event) : Prop :=
  match e with
  | ChangeFocus _ | ChangeShort _ | ChangeLong _ | SelectCategory _ => True
  | _ => False
  end.

(** An event other than a firing of the interval. *)
Definition isUserEvent (e : Event) : Prop :=
  match e with
  | Tick _ => False
  | _ => True
  end.

(** ** The category list of the timer page *)

(** [label.trim().toLocaleLowerCase("tr")], the key two labels are compared
    by. *)
Definition labelKey `{JsHost} (label : string) : string :=
  toLocaleLowerCase_tr (trim label).

(** [categories.some((c) => c.trim().toLocaleLowerCase("tr") === key)] *)
Definition hasKey `{JsHost} (key : string) (categories : list string) : bool :=
  existsb (fun c => String.eqb (labelKey c) key) categories.

(** [handleCreateCategory(newLabel)]: the updater it passes to
    [setCategories], applied to [prev]. *)
Definition handleCreateCategory `{JsHost} (newLabel : string)
  (prev : list string) : list string :=
  let trimmed := trim newLabel in
  if String.eqb trimmed "" then prev
  else
    let keyNew := toLocaleLowerCase_tr trimmed in
    if hasKey keyNew prev then prev else prev ++ [trimmed].

(** The effect on [selectedCategory] that keeps the selected category in
    the list. *)
Definition ensureSelected `{JsHost} (selectedCategory : string)
  (categories : list string) : list string :=
  if String.eqb selectedCategory "" then categories
  else
    let keySel := labelKey selectedCategory in
    if hasKey keySel categories then categories
    else categories ++ [selectedCategory].

Module Picker.
(** The two pieces of state of [Home] behind the category select. *)
Record t : Type := Build {
  categories : list string;
  selectedCategory : string
}.
End Picker.

(** [handleSelectChange(nextValue)] of the category select as [Home] uses
    it, with its options the categories, [onCreateOption] bound to
    [handleCreateCategory] and [onChange] to [setSelectedCategory]; then the
    effect on [selectedCategory], which runs when the selection changed. *)
Definition handleSelectChange `{JsHost} (nextValue : string) (p : Picker.t)
  : Picker.t :=
  let exists_ := existsb (String.eqb nextValue) (Picker.categories p) in
  let created :=
    if exists_ then Picker.categories p
    else handleCreateCategory nextValue (Picker.categories p) in
  Picker.Build
    (if String.eqb nextValue (Picker.selectedCategory p) then created
     else ensureSelected nextValue created)
    nextValue.

(** The category state once the page has mounted and its load effect has
    run on the texts stored under ["fp:categories"] and ["fp:category"]. *)
Definition mountPicker `{JsHost} (categoriesItem : option item)
  (stored : option string) : Picker.t :=
  let loaded := loadCategories categoriesItem in
  match stored with
  | Some text =>
      if String.eqb text "" then Picker.Build loaded "Genel"
      else
        Picker.Build
          (if String.eqb text "Genel" then loaded
           else ensureSelected text loaded)
          text
  | None => Picker.Build loaded "Genel"
  end.

(** The selected category is in the list, by its key. *)
Definition selectedListed `{JsHost} (p : Picker.t) : Prop :=
  hasKey (labelKey (Picker.selectedCategory p)) (Picker.categories p) = true.

(** ** The category select *)

(** [s.includes(q)] *)
Fixpoint includes (s q : string) : bool :=
  if String.prefix q s then true
  else match s with
       | EmptyString => false
       | String _ r => includes r q
       end.

(** [filtered]: the options the open select lists for the text typed into
    its search box; the options are the labels [Home] passes. *)
Definition filtered `{JsHost} (query : string) (options : list string)
  : list string :=
  let q := toLocaleLowerCase_tr (trim query) in
  if String.eqb q "" then options
  else filter (fun o => includes (toLocaleLowerCase_tr o) q) options.

(** [hasExactMatch] *)
Definition hasExactMatch `{JsHost} (query : string) (options : list string)
  : bool :=
  existsb
    (fun o => String.eqb (toLocaleLowerCase_tr o)
                (toLocaleLowerCase_tr (trim query)))
    options.

(** [shouldShowCreate]: whether the item that adds the typed label is
    shown. *)
Definition shouldShowCreate `{JsHost} (query : string) (options : list string)
  : bool :=
  negb (String.eqb (trim query) "") && negb (hasExactMatch query options).

(** ** The clock text *)

(** [n.toString()] for an integer [n]. *)
Definition toDecimal (n : Z) : string :=
  DecimalString.NilZero.string_of_int (Z.to_int n).

(** [s.padStart(2, "0")] *)
Definition padStart2 (s : string) : string :=
  match s with
  | EmptyString => "00"
  | String c EmptyString => String "0" s
  | _ => s
  end.

(** [secondsToClock(totalSeconds)] *)
Definition secondsToClock (totalSeconds : Z) : string :=
  let minutes := padStart2 (toDecimal (totalSeconds / 60)) in
  let seconds := padStart2 (toDecimal (Z.rem totalSeconds 60)) in
  (minutes ++ ":" ++ seconds)%string.

(** Reading a clock text: the digits before and after the first colon, as
    minutes and seconds. *)
Fixpoint splitAtColon (s : string) : option (string * string) :=
  match s with
  | EmptyString => None
  | String c r =>
      if Ascii.eqb c ":" then Some (EmptyString, r)
      else match splitAtColon r with
           | Some (a, b) => Some (String c a, b)
           | None => None
           end
  end.

Definition readDigits (s : string) : option Z :=
  option_map Z.of_uint (DecimalString.NilEmpty.uint_of_string s).

Definition readClock (s : string) : option Z :=
  match splitAtColon s with
  | Some (m, sec) =>
      match readDigits m, readDigits sec with
      | Some a, Some b => Some (a * 60 + b)
      | _, _ => None
      end
  | None => None
  end.

(** ** Moving between days on the statistics page *)

(** The updaters of the two buttons of the daily view. *)
Definition previousDay (d : Z) : Z := d - 1.

Definition nextDay (d : Z) : Z := Z.min 0 (d + 1).

Inductive DayButton : Type := Previous | Next.

Definition pressDay (b : DayButton) (d : Z) : Z :=
  match b with
  | Previous => previousDay d
  | Next => nextDay d
  end.

(** The entries of a breakdown come with their minutes in descending
    order. *)
Definition descending (l : list (string * Z)) : Prop :=
  StronglySorted (fun a b => snd b <= snd a) l.


(** ** Reloading the page *)

(** The effect that persists the categories: the value [JSON.parse] reads
    from the text [JSON.stringify(categories)] stored under
    ["fp:categories"]. *)
Definition storedCategories (categories : list string) : option item :=
  Some (Json (JArr (map JStr categories))).

(** The category list starts with the default categories and holds no two
    labels with the same key. *)
Definition startsWithDefaults `{JsHost} (categories : list string) : Prop :=
  NoDup (map labelKey categories) /\
  exists rest, categories = DEFAULT_CATEGORIES ++ rest.

(** The event of a completion at the type the statistics page reads the
    log at. *)
Definition focusEventOf `{JsHost} (c : Completion) : FocusEvent :=
  {| ts := completedAt c; category := trim (completedCategory c);
     minutes := completedMinutes c |}.
(** ** Facts about the timer page *)

Lemma rem4_mod4 (x : Z) : (Z.rem x 4 =? 0) = (x mod 4 =? 0).
Proof.
  destruct (Z.eqb_spec (Z.rem x 4) 0) as [Hr | Hr];
    destruct (Z.eqb_spec (x mod 4) 0) as [Hm | Hm]; try reflexivity.
  - exfalso. apply Hm. apply Z.mod_divide; [lia |].
    apply Z.rem_divide; [lia | exact Hr].
  - exfalso. apply Hr. apply Z.rem_divide; [lia |].
    apply Z.mod_divide; [lia | exact Hm].
Qed.

Lemma nextMode_changes (c : Z) (m : TimerMode) : nextMode c m <> m.
Proof.
  destruct m; simpl; try discriminate.
  destruct (Z.rem (c + 1) 4 =? 0); discriminate.
Qed.

Lemma TimerMode_eqb_neq (a b : TimerMode) : a <> b -> TimerMode_eqb a b = false.
Proof. destruct a, b; simpl; congruence. Qed.

Lemma TimerMode_eqb_refl (a : TimerMode) : TimerMode_eqb a a = true.
Proof. destruct a; reflexivity. Qed.

Lemma withRemainingSeconds_same (s : Home) :
  withRemainingSeconds (remainingSeconds s) s = s.
Proof. destruct s; reflexivity. Qed.

Lemma handleSkip_eq (s : Home) :
  handleSkip s =
  withRemainingSeconds
    (dur (durations s) (nextMode (completedFocusCount s) (mode s)) * 60)
    (withMode (nextMode (completedFocusCount s) (mode s))
       (withIsRunning false s)).
Proof.
  unfold handleSkip, afterModeUpdate. simpl.
  rewrite TimerMode_eqb_neq; [reflexivity |].
  intro E. symmetry in E. exact (nextMode_changes _ _ E).
Qed.

Section TimerFacts.
Context `{JsHost}.

(** A firing that does not end the countdown only decrements it. *)
Lemma tick_decrements (now : Z) (s : Home) :
  isRunning s = true -> 1 < remainingSeconds s ->
  tick now s = withRemainingSeconds (remainingSeconds s - 1) s.
Proof.
  intros Hr Hp. unfold tick, countdown. rewrite Hr.
  destruct (Z.leb_spec (remainingSeconds s) 1); [lia | reflexivity].
Qed.

Lemma ticks_succ (now : Z) (k : nat) (s : Home) :
  ticks now (S k) s = tick now (ticks now k s).
Proof. reflexivity. Qed.

(** Fewer firings than seconds left: the countdown went down by as many and
    nothing else happened. *)
Lemma ticks_before_zero (now : Z) (k : nat) (s : Home) :
  isRunning s = true -> Z.of_nat k < remainingSeconds s ->
  ticks now k s = withRemainingSeconds (remainingSeconds s - Z.of_nat k) s.
Proof.
  intros Hr. induction k as [| k IH]; intros Hk.
  - simpl. rewrite Z.sub_0_r. symmetry. apply withRemainingSeconds_same.
  - rewrite ticks_succ, IH by lia.
    rewrite tick_decrements; [| exact Hr | simpl; lia].
    unfold withRemainingSeconds. simpl. f_equal. lia.
Qed.

(** The firing that ends the countdown, for an interval whose scope is the
    current mode. *)
Lemma tick_finishes (now : Z) (s : Home) :
  isRunning s = true -> remainingSeconds s <= 1 ->
  scopeMode (intervalScope s) = mode s ->
  tick now s =
  resetEffect (onFinish now (withIsRunning false s)).
Proof.
  intros Hr Hp Hm. unfold tick. rewrite Hr.
  destruct (Z.leb_spec (remainingSeconds s) 1); [| lia].
  unfold afterModeUpdate.
  rewrite TimerMode_eqb_neq; [reflexivity |].
  unfold onFinish. simpl. rewrite Hm.
  intro E. symmetry in E. exact (nextMode_changes _ _ E).
Qed.

(** What letting a paused countdown run out leaves behind. *)
Lemma runOut_fields (now : Z) (s : Home) :
  isRunning s = false -> 1 <= remainingSeconds s ->
  let f := runOut now s in
  mode f = nextMode (completedFocusCount s) (mode s) /\
  isRunning f = false /\
  durations f = durations s /\
  selectedCategory f = selectedCategory s /\
  remainingSeconds f = dur (durations s) (mode f) * 60 /\
  completedFocusCount f =
    (match mode s with
     | focus => completedFocusCount s + 1
     | _ => completedFocusCount s
     end) /\
  totalMinutes f =
    (match mode s with
     | focus => totalMinutes s + Durations.focus (durations s)
     | _ => totalMinutes s
     end) /\
  localStorage f =
    (match mode s with
     | focus =>
         recordCompletion now (selectedCategory s)
           (Durations.focus (durations s)) (localStorage s)
     | _ => localStorage s
     end).
Proof.
  intros Hp Hr f. subst f. unfold runOut.
  assert (Hs : isRunning (handleStartPause s) = true).
  { unfold handleStartPause. simpl. rewrite Hp. reflexivity. }
  assert (Hrem : remainingSeconds (handleStartPause s) = remainingSeconds s).
  { unfold handleStartPause. simpl. rewrite Hp. reflexivity. }
  replace (Z.to_nat (remainingSeconds s))
    with (S (Z.to_nat (remainingSeconds s - 1))) by lia.
  rewrite ticks_succ, ticks_before_zero; [| exact Hs | rewrite Hrem; lia].
  rewrite tick_finishes.
  - unfold handleStartPause. simpl. rewrite Hp. simpl.
    unfold resetEffect, onFinish. simpl.
    destruct (mode s); simpl; repeat split; reflexivity.
  - exact Hs.
  - simpl. rewrite Hrem. lia.
  - unfold handleStartPause. simpl. rewrite Hp. reflexivity.
Qed.

Lemma onFinish_isRunning (now : Z) (s : Home) :
  isRunning (onFinish now s) = isRunning s.
Proof. unfold onFinish. destruct (scopeMode (intervalScope s)); reflexivity. Qed.

Lemma afterModeUpdate_isRunning (before after : Home) :
  isRunning (afterModeUpdate before after) = isRunning after.
Proof. unfold afterModeUpdate. destruct (TimerMode_eqb _ _); reflexivity. Qed.

Lemma step_keeps_sync (e : Event) (s : Home) :
  scopeInSync s -> scopeInSync (step e s).
Proof.
  unfold scopeInSync. intros Hs.
  destruct e; simpl.
  - unfold tick. destruct (isRunning s) eqn:Hr; [| intros E; congruence].
    destruct (remainingSeconds s <=? 1).
    + rewrite afterModeUpdate_isRunning, onFinish_isRunning. discriminate.
    + simpl. intros _. apply Hs. reflexivity.
  - unfold handleStartPause. simpl.
    destruct (isRunning s); simpl; [discriminate |].
    intros _. split; reflexivity.
  - simpl. discriminate.
  - rewrite handleSkip_eq. simpl. discriminate.
  - simpl. exact Hs.
  - simpl. exact Hs.
  - simpl. exact Hs.
  - simpl. exact Hs.
Qed.

Lemma run_keeps_sync (es : list Event) (s : Home) :
  scopeInSync s -> scopeInSync (run es s).
Proof.
  unfold run. revert s.
  induction es as [| e es IH]; intros s Hs; simpl; [exact Hs |].
  apply IH. apply step_keeps_sync. exact Hs.
Qed.

(** A firing changes the mode only by the break rule. *)
Lemma tick_mode (now : Z) (s : Home) :
  scopeInSync s ->
  mode (tick now s) = mode s \/
  mode (tick now s) = nextMode (completedFocusCount s) (mode s).
Proof.
  intros Hs. unfold tick.
  destruct (isRunning s) eqn:Hr; [| left; reflexivity].
  destruct (Hs Hr) as [Hm Hc].
  destruct (remainingSeconds s <=? 1); [| left; reflexivity].
  right. unfold afterModeUpdate.
  destruct (TimerMode_eqb _ _); unfold onFinish; simpl; rewrite Hm, Hc;
    reflexivity.
Qed.

(** The state after each focus interval of a row of them. *)
Lemma afterFocus_fields (now : Z) (skips : nat -> bool) (s : Home) (k : nat) :
  mode s = focus -> isRunning s = false -> 1 <= remainingSeconds s ->
  positiveDurations (durations s) ->
  let f := afterFocus now skips k s in
  mode f = nextMode (completedFocusCount s + Z.of_nat k) focus /\
  completedFocusCount f = completedFocusCount s + Z.of_nat k + 1 /\
  isRunning f = false /\
  durations f = durations s /\
  remainingSeconds f = dur (durations s) (mode f) * 60.
Proof.
  intros Hm Hp Hr Hd.
  assert (Hpos : forall m, 1 <= dur (durations s) m * 60).
  { destruct Hd as (? & ? & ?). intros []; simpl; lia. }
  cbv zeta. induction k as [| k IH]; cbn [afterFocus].
  - destruct (runOut_fields now s Hp Hr) as (M & R & D & _ & S & C & _).
    rewrite Hm in M, C. change (Z.of_nat 0) with 0. rewrite Z.add_0_r.
    repeat split; assumption.
  - replace (Z.of_nat (S k)) with (Z.of_nat k + 1) by lia.
    destruct IH as (M & C & R & D & S).
    set (b := afterFocus now skips k s) in *.
    assert (Hb : mode b <> focus).
    { rewrite M. apply nextMode_changes. }
    assert (L : mode (leaveBreak now (skips k) b) = focus /\
                completedFocusCount (leaveBreak now (skips k) b)
                  = completedFocusCount b /\
                isRunning (leaveBreak now (skips k) b) = false /\
                durations (leaveBreak now (skips k) b) = durations b /\
                remainingSeconds (leaveBreak now (skips k) b)
                  = Durations.focus (durations b) * 60).
    { unfold leaveBreak. destruct (skips k).
      - rewrite handleSkip_eq. simpl.
        destruct (mode b); [congruence | |]; simpl; repeat split; reflexivity.
      - assert (Hrb : 1 <= remainingSeconds b) by (rewrite S; apply Hpos).
        destruct (runOut_fields now b R Hrb) as (M' & R' & D' & _ & S' & C' & _).
        destruct (mode b) eqn:Eb; [congruence | |]; simpl in *;
          rewrite M' in S'; simpl in S'; repeat split; assumption. }
    destruct L as (LM & LC & LR & LD & LS).
    set (a := leaveBreak now (skips k) b) in *.
    assert (Hra : 1 <= remainingSeconds a).
    { rewrite LS, D. apply (Hpos focus). }
    destruct (runOut_fields now a LR Hra) as (M' & R' & D' & _ & S' & C' & _).
    rewrite LM in M', C'. rewrite LC, C in M', C'.
    rewrite LD, D in D', S'.
    repeat split; try assumption.
    + rewrite M'. f_equal. lia.
    + rewrite C'. lia.
Qed.

End TimerFacts.

(** ** The claims about the session engine *)

Section SessionEngine.
Context `{JsHost}.

(** C1.  Leaving focus mode, by skip or by a countdown that reaches zero,
    leads to the long break exactly when [(completedFocusCount + 1) mod 4]
    is 0 and to the short break otherwise; leaving a break leads to focus.
    For the countdown this holds in every state the page can reach from a
    paused one.  Counted from a fresh counter, the break after the [n]-th
    focus interval in a row that ran out is long exactly when [n mod 4] is 0,
    however the breaks in between were left. *)
Theorem C1_break_rule :
  (forall s, mode s = focus ->
     mode (handleSkip s)
     = if (completedFocusCount s + 1) mod 4 =? 0 then long else short) /\
  (forall s, mode s <> focus -> mode (handleSkip s) = focus) /\
  (forall s0 es now,
     isRunning s0 = false ->
     let s := run es s0 in
     mode (tick now s) <> mode s ->
     mode (tick now s)
     = match mode s with
       | focus => if (completedFocusCount s + 1) mod 4 =? 0 then long else short
       | _ => focus
       end) /\
  (forall now skips s0 (n : nat),
     mode s0 = focus -> isRunning s0 = false ->
     completedFocusCount s0 = 0 ->
     positiveDurations (durations s0) ->
     remainingSeconds s0 = Durations.focus (durations s0) * 60 ->
     (1 <= n)%nat ->
     mode (afterFocus now skips (n - 1) s0)
     = if Z.of_nat n mod 4 =? 0 then long else short).
Proof.
  split; [| split; [| split]].
  - intros s Hm. rewrite handleSkip_eq. simpl. rewrite Hm. simpl.
    rewrite rem4_mod4. reflexivity.
  - intros s Hm. rewrite handleSkip_eq. simpl.
    destruct (mode s); [congruence | reflexivity | reflexivity].
  - intros s0 es now Hp s Hne.
    assert (Hs : scopeInSync s).
    { apply run_keeps_sync. intro E. congruence. }
    destruct (tick_mode now s Hs) as [E | E]; [congruence |].
    rewrite E. destruct (mode s); simpl; try reflexivity.
    rewrite rem4_mod4. reflexivity.
  - intros now skips s0 n Hm Hp Hc Hd Hr Hn.
    assert (H1 : 1 <= remainingSeconds s0).
    { rewrite Hr. destruct Hd as (? & _). lia. }
    destruct (afterFocus_fields now skips s0 (n - 1) Hm Hp H1 Hd) as (M & _).
    rewrite M, Hc. unfold nextMode. rewrite rem4_mod4.
    replace (0 + Z.of_nat (n - 1) + 1) with (Z.of_nat n) by lia.
    reflexivity.
Qed.

(** C2.  After a fresh reset in any mode the countdown is
    [durations[mode] * 60] and the timer is paused.  Once started, fewer
    firings than that leave everything but the countdown alone, the updater
    returns 0 at exactly firing number [durations[mode] * 60], and that
    firing stops the timer and moves to the next mode with its fresh
    countdown.  If the mode that ended was focus, the counter goes up by 1,
    the total by [durations.focus] and the statistics block runs once: the
    log after it is the log before it with the one event
    [{ts: now, category: label, minutes: durations.focus}] appended at its
    end, cut to its last 1000 entries (unless the cache is a JSON array and
    the category is "length", the one assignment that can throw); otherwise
    counters and storage stay. *)
Theorem C2_countdown_runs_out (now : Z) (s : Home) :
  positiveDurations (durations s) ->
  let fresh := handleReset s in
  let total := dur (durations s) (mode s) * 60 in
  let started := handleStartPause fresh in
  let final := ticks now (Z.to_nat total) started in
  (remainingSeconds fresh = total /\ isRunning fresh = false) /\
  (forall k : nat, Z.of_nat k < total ->
     ticks now k started
     = withRemainingSeconds (total - Z.of_nat k) started /\
     countdown (remainingSeconds (ticks now k started)) = total - Z.of_nat k - 1) /\
  (forall k : nat,
     countdown (remainingSeconds (ticks now k started)) = 0 ->
     Z.of_nat k < total -> Z.of_nat k = total - 1) /\
  (isRunning final = false /\
   mode final = nextMode (completedFocusCount s) (mode s) /\
   mode final <> mode s /\
   remainingSeconds final = dur (durations s) (mode final) * 60 /\
   durations final = durations s) /\
  (mode s = focus ->
   completedFocusCount final = completedFocusCount s + 1 /\
   totalMinutes final = totalMinutes s + Durations.focus (durations s) /\
   localStorage final
   = recordCompletion now (selectedCategory s)
       (Durations.focus (durations s)) (localStorage s) /\
   ((forall l, loadMap (categoryMinutesItem (localStorage s)) = JArr l ->
               trim (selectedCategory s) <> "length"%string) ->
    let before := loadEvents (focusEventsItem (localStorage s)) in
    let after := loadEvents (focusEventsItem (localStorage final)) in
    let event :=
      JObj [("ts"%string, JNum now);
            ("category"%string, JStr (trim (selectedCategory s)));
            ("minutes"%string, JNum (Durations.focus (durations s)))] in
    after
    = pushEvent before
        (newEvent now (trim (selectedCategory s))
           (Durations.focus (durations s))) /\
    after = skipn (List.length before + 1 - 1000) (before ++ [event]) /\
    List.length after = Nat.min 1000 (List.length before + 1) /\
    (exists dropped kept,
       before = dropped ++ kept /\ after = kept ++ [event] /\
       List.length dropped = (List.length before + 1 - 1000)%nat) /\
    ((List.length before < 1000)%nat -> after = before ++ [event]) /\
    asFocusEvent event
    = Some {| ts := now; category := trim (selectedCategory s);
              minutes := Durations.focus (durations s) |})) /\
  (mode s <> focus ->
   completedFocusCount final = completedFocusCount s /\
   totalMinutes final = totalMinutes s /\
   localStorage final = localStorage s).
Proof.
  intros Hd fresh total started final.
  assert (Ht : 60 <= total).
  { subst total. destruct Hd as (? & ? & ?). destruct (mode s); simpl; lia. }
  assert (Hs : isRunning started = true) by reflexivity.
  assert (Hr : remainingSeconds started = total) by reflexivity.
  assert (Hbefore : forall k : nat, Z.of_nat k < total ->
            ticks now k started
            = withRemainingSeconds (total - Z.of_nat k) started).
  { intros k Hk. rewrite ticks_before_zero; [reflexivity | exact Hs |].
    rewrite Hr. exact Hk. }
  split; [split; reflexivity |].
  split.
  { intros k Hk. split; [apply Hbefore; exact Hk |].
    rewrite Hbefore by exact Hk. simpl. unfold countdown.
    destruct (Z.leb_spec (total - Z.of_nat k) 1); lia. }
  split.
  { intros k Hz Hk. rewrite Hbefore in Hz by exact Hk. simpl in Hz.
    unfold countdown in Hz.
    destruct (Z.leb_spec (total - Z.of_nat k) 1); lia. }
  assert (Hfresh : isRunning fresh = false) by reflexivity.
  assert (Hfr : 1 <= remainingSeconds fresh).
  { change (remainingSeconds fresh) with total. lia. }
  destruct (runOut_fields now fresh Hfresh Hfr) as (M & R & D & SC & S & C & T & L).
  change (runOut now fresh) with final in *.
  change (mode fresh) with (mode s) in *.
  change (completedFocusCount fresh) with (completedFocusCount s) in *.
  change (totalMinutes fresh) with (totalMinutes s) in *.
  change (durations fresh) with (durations s) in *.
  change (localStorage fresh) with (localStorage s) in *.
  change (selectedCategory fresh) with (selectedCategory s) in *.
  split.
  { repeat split; try assumption. rewrite M. apply nextMode_changes. }
  split.
  - intros Hm. rewrite Hm in C, T, L.
    split; [exact C |]. split; [exact T |]. split; [exact L |].
    intros Hobj before after event.
    assert (Hafter : after
                     = pushEvent before
                         (newEvent now (trim (selectedCategory s))
                            (Durations.focus (durations s)))).
    { subst after before. rewrite L. unfold recordCompletion.
      destruct (loadMap (categoryMinutesItem (localStorage s))) eqn:E;
        simpl; try reflexivity.
      unfold setArrProp.
      destruct (String.eqb_spec (trim (selectedCategory s)) "length")
        as [El | _]; [exfalso; exact (Hobj _ eq_refl El) |].
      destruct (arrayIndex (trim (selectedCategory s))) as [i |];
        [destruct (i <? N.of_nat (List.length items))%N |]; reflexivity. }
    assert (Hcut : after
                   = skipn (List.length before + 1 - 1000) (before ++ [event])).
    { rewrite Hafter. unfold pushEvent.
      change (newEvent now (trim (selectedCategory s))
                (Durations.focus (durations s))) with event.
      cbv zeta. rewrite length_app. cbn [List.length].
      destruct (Nat.ltb_spec 1000 (List.length before + 1)) as [Hl | Hl];
        [reflexivity |].
      replace (List.length before + 1 - 1000)%nat with 0%nat by lia.
      reflexivity. }
    assert (Hk : (List.length before + 1 - 1000 <= List.length before)%nat)
      by lia.
    assert (Hkept : after
                    = skipn (List.length before + 1 - 1000) before ++ [event]).
    { rewrite Hcut, skipn_app.
      replace (List.length before + 1 - 1000 - List.length before)%nat
        with 0%nat by lia.
      reflexivity. }
    split; [exact Hafter |]. split; [exact Hcut |]. split.
    { rewrite Hkept, length_app, length_skipn. cbn [List.length]. lia. }
    split.
    { exists (firstn (List.length before + 1 - 1000) before),
        (skipn (List.length before + 1 - 1000) before).
      split; [symmetry; apply firstn_skipn |]. split; [exact Hkept |].
      rewrite length_firstn. lia. }
    split; [| reflexivity].
    intros Hlt. rewrite Hkept.
    replace (List.length before + 1 - 1000)%nat with 0%nat by lia.
    reflexivity.
  - intros Hm. destruct (mode s); [congruence | |]; repeat split; assumption.
Qed.

(** C3.  Skipping, in every mode, leaves the counter of completed focus
    intervals, the total of minutes and the stored statistics (the category
    minutes and the event log) as they were, as it does the durations and
    the selected category; it stops the timer and moves to the next mode
    with that mode's fresh countdown. *)
Theorem C3_skip_frame (s : Home) :
  let s' := handleSkip s in
  completedFocusCount s' = completedFocusCount s /\
  totalMinutes s' = totalMinutes s /\
  categoryMinutesItem (localStorage s') = categoryMinutesItem (localStorage s) /\
  focusEventsItem (localStorage s') = focusEventsItem (localStorage s) /\
  durations s' = durations s /\
  selectedCategory s' = selectedCategory s /\
  intervalScope s' = intervalScope s /\
  isRunning s' = false /\
  mode s' = nextMode (completedFocusCount s) (mode s) /\
  remainingSeconds s' = dur (durations s) (mode s') * 60.
Proof.
  cbv zeta. rewrite handleSkip_eq. simpl. repeat split; reflexivity.
Qed.

(** C10.  Every new durations record, whichever field it changes, resets
    the countdown to [durations[mode] * 60] of the current mode and leaves
    the mode and the running flag as they were; editing the duration of
    another mode restarts the countdown of the current one at its unchanged
    length. *)
Theorem C10_duration_edit_restarts_countdown :
  (forall d s,
     let s' := setDurations d s in
     durations s' = d /\
     remainingSeconds s' = dur d (mode s) * 60 /\
     mode s' = mode s /\ isRunning s' = isRunning s) /\
  (forall edit, In edit [onChangeFocus; onChangeShort; onChangeLong] ->
     forall v s,
       let s' := edit v s in
       remainingSeconds s' = dur (durations s') (mode s) * 60 /\
       mode s' = mode s /\ isRunning s' = isRunning s) /\
  (forall v s, mode s <> focus ->
     remainingSeconds (onChangeFocus v s) = dur (durations s) (mode s) * 60) /\
  (forall v s, mode s <> short ->
     remainingSeconds (onChangeShort v s) = dur (durations s) (mode s) * 60) /\
  (forall v s, mode s <> long ->
     remainingSeconds (onChangeLong v s) = dur (durations s) (mode s) * 60).
Proof.
  split; [| split; [| split; [| split]]].
  - intros d s. simpl. repeat split; reflexivity.
  - intros edit [E | [E | [E | []]]] v s; subst edit; simpl;
      repeat split; reflexivity.
  - intros v s Hm. simpl. destruct (mode s); [congruence | |]; reflexivity.
  - intros v s Hm. simpl. destruct (mode s); [| congruence |]; reflexivity.
  - intros v s Hm. simpl. destruct (mode s); [| | congruence]; reflexivity.
Qed.

End SessionEngine.

(** ** Facts about the statistics store *)

Lemma keepLast_length {A : Type} (n : nat) (l : list A) :
  List.length (keepLast n l) = Nat.min n (List.length l).
Proof. unfold keepLast. rewrite length_skipn. lia. Qed.

Lemma keepLast_all {A : Type} (n : nat) (l : list A) :
  (List.length l <= n)%nat -> keepLast n l = l.
Proof.
  intros Hl. unfold keepLast.
  replace (List.length l - n)%nat with 0%nat by lia. reflexivity.
Qed.

(** What is kept is the end of the list. *)
Lemma keepLast_suffix {A : Type} (n : nat) (l : list A) :
  l = firstn (List.length l - n) l ++ keepLast n l.
Proof. unfold keepLast. symmetry. apply firstn_skipn. Qed.

Lemma keepLast_snoc {A : Type} (n : nat) (l : list A) (x : A) :
  keepLast n (keepLast n l ++ [x]) = keepLast n (l ++ [x]).
Proof.
  unfold keepLast.
  rewrite !length_app, length_skipn. simpl.
  rewrite !skipn_app, length_skipn, skipn_skipn.
  destruct (Nat.le_gt_cases (List.length l) n) as [Hle | Hgt].
  - replace (List.length l - n)%nat with 0%nat by lia.
    rewrite !Nat.sub_0_r, Nat.add_0_r. reflexivity.
  - replace (List.length l - (List.length l - n) + 1 - n)%nat
      with 1%nat by lia.
    replace (1 + (List.length l - n))%nat
      with (List.length l + 1 - n)%nat by lia.
    replace (1 - (List.length l - (List.length l - n)))%nat
      with (List.length l + 1 - n - List.length l)%nat by lia.
    reflexivity.
Qed.

Lemma pushEvent_keepLast (events : list json) (e : json) :
  pushEvent events e = keepLast 1000 (events ++ [e]).
Proof.
  unfold pushEvent.
  destruct (Nat.ltb_spec 1000 (List.length (events ++ [e]))) as [Hl | Hl].
  - reflexivity.
  - symmetry. apply keepLast_all. exact Hl.
Qed.

Lemma lookup_replaceProp (c k : string) (v : json) (props : list (string * json)) :
  lookup c (replaceProp k v props)
  = if String.eqb c k
    then match lookup k props with Some _ => Some v | None => None end
    else lookup c props.
Proof.
  induction props as [| [k' v'] r IH]; simpl.
  - destruct (String.eqb c k); reflexivity.
  - destruct (String.eqb_spec k k') as [Ek | Ek]; simpl.
    + subst k'. destruct (String.eqb_spec c k); reflexivity.
    + rewrite IH. destruct (String.eqb_spec c k') as [Ec | Ec];
        destruct (String.eqb_spec c k) as [Ec' | Ec']; try reflexivity.
      congruence.
Qed.

Lemma lookup_insertIndexProp (c : string) (i : N) (k : string) (v : json)
  (props : list (string * json)) :
  lookup k props = None ->
  lookup c (insertIndexProp i k v props)
  = if String.eqb c k then Some v else lookup c props.
Proof.
  induction props as [| [k' v'] r IH]; simpl; intros Hk.
  - reflexivity.
  - destruct (String.eqb_spec k k') as [Ek | Ek]; [discriminate |].
    destruct (arrayIndex k') as [i' |]; [destruct (i <? i')%N |]; simpl;
      try reflexivity.
    rewrite (IH Hk).
    destruct (String.eqb_spec c k') as [Ec | Ec];
      destruct (String.eqb_spec c k) as [Ec' | Ec']; try reflexivity.
    congruence.
Qed.

Lemma lookup_append (c k : string) (v : json) (props : list (string * json)) :
  lookup k props = None ->
  lookup c (props ++ [(k, v)])
  = if String.eqb c k then Some v else lookup c props.
Proof.
  induction props as [| [k' v'] r IH]; simpl; intros Hk.
  - reflexivity.
  - destruct (String.eqb_spec k k') as [Ek | Ek]; [discriminate |].
    rewrite (IH Hk).
    destruct (String.eqb_spec c k') as [Ec | Ec];
      destruct (String.eqb_spec c k) as [Ec' | Ec']; try reflexivity.
    congruence.
Qed.

(** An assignment to a key other than ["__proto__"] is read back, and
    touches no other key. *)
Lemma lookup_setObjProp (c k : string) (v : json) (props : list (string * json)) :
  k <> "__proto__"%string ->
  lookup c (setObjProp props k v)
  = if String.eqb c k then Some v else lookup c props.
Proof.
  intros Hk. unfold setObjProp, hasProp.
  destruct (lookup k props) as [old |] eqn:El.
  - rewrite lookup_replaceProp, El. reflexivity.
  - destruct (String.eqb_spec k "__proto__") as [E | _]; [contradiction |].
    destruct (arrayIndex k).
    + apply lookup_insertIndexProp. exact El.
    + apply lookup_append. exact El.
Qed.

Lemma setObjProp_proto (v : json) (props : list (string * json)) :
  lookup "__proto__" props = None ->
  setObjProp props "__proto__" v = props.
Proof. intros Hl. unfold setObjProp, hasProp. rewrite Hl. reflexivity. Qed.

Section StoreFacts.
Context `{JsHost}.

Lemma replay_app (a b : list json) (c : string) :
  replay (a ++ b) c = replay a c + replay b c.
Proof.
  unfold replay. induction a as [| e a IH]; simpl; [reflexivity |].
  rewrite IH. destruct (hasCategory c e); lia.
Qed.

Lemma eventMinutes_eventOf (c : Completion) :
  eventMinutes (eventOf c) = completedMinutes c.
Proof. reflexivity. Qed.

Lemma hasCategory_eventOf (label : string) (c : Completion) :
  hasCategory label (eventOf c) = String.eqb (trim (completedCategory c)) label.
Proof. reflexivity. Qed.

Lemma replay_one (c : Completion) (label : string) :
  replay [eventOf c] label
  = if String.eqb (trim (completedCategory c)) label
    then completedMinutes c else 0.
Proof.
  unfold replay. simpl fold_right.
  rewrite hasCategory_eventOf, eventMinutes_eventOf.
  destruct (String.eqb _ _); lia.
Qed.

Lemma replay_nonneg (cs : list Completion) (label : string) :
  Forall (fun c => 0 <= completedMinutes c) cs ->
  0 <= replay (map eventOf cs) label.
Proof.
  induction 1 as [| c cs Hc _ IH]; [unfold replay; simpl; lia |].
  change (map eventOf (c :: cs)) with ([eventOf c] ++ map eventOf cs).
  rewrite replay_app, replay_one.
  destruct (String.eqb _ _); lia.
Qed.

Lemma recordAll_snoc (cs : list Completion) (c : Completion) (st : Storage) :
  recordAll (cs ++ [c]) st
  = recordCompletion (completedAt c) (completedCategory c)
      (completedMinutes c) (recordAll cs st).
Proof. unfold recordAll. rewrite fold_left_app. reflexivity. Qed.

(** From an empty store: the cache is an object holding, for every category,
    the minutes of all completions so far, and the log holds the last 1000
    events. *)
Lemma recordAll_invariant (cs : list Completion) :
  Forall (fun c => 0 <= completedMinutes c) cs ->
  exists props,
    loadMap (categoryMinutesItem (recordAll cs emptyStorage)) = JObj props /\
    lookup "__proto__" props = None /\
    (forall label, label <> "__proto__"%string ->
       NumberOrZero (lookup label props) = replay (map eventOf cs) label) /\
    eventLog (recordAll cs emptyStorage) = keepLast 1000 (map eventOf cs).
Proof.
  induction cs as [| c cs IH] using rev_ind; intros Hall.
  - exists []. repeat split; reflexivity.
  - apply Forall_app in Hall. destruct Hall as [Hcs Hc].
    apply Forall_inv in Hc.
    destruct (IH Hcs) as (props & Hmap & Hproto & Hcache & Hlog).
    rewrite recordAll_snoc, map_app. simpl map.
    unfold recordCompletion. rewrite Hmap. simpl getProp. simpl storeLabel.
    cbv iota beta. unfold eventLog in *. simpl.
    exists (setObjProp props (trim (completedCategory c))
              (JNum (Z.max 0 (NumberOrZero (lookup (trim (completedCategory c)) props)
                              + completedMinutes c)))).
    split; [reflexivity |].
    destruct (String.eqb_spec (trim (completedCategory c)) "__proto__") as [Ep | Ep].
    + rewrite Ep, setObjProp_proto by exact Hproto.
      split; [exact Hproto |]. split.
      * intros label Hl. rewrite replay_app, replay_one, Ep.
        destruct (String.eqb_spec "__proto__" label) as [E | _];
          [congruence |].
        rewrite Hcache by exact Hl. lia.
      * rewrite Hlog, pushEvent_keepLast. unfold eventOf. rewrite Ep.
        apply keepLast_snoc.
    + split; [| split].
      * rewrite lookup_setObjProp by exact Ep.
        destruct (String.eqb_spec "__proto__" (trim (completedCategory c)));
          [congruence | exact Hproto].
      * intros label Hl. rewrite replay_app, replay_one.
        rewrite lookup_setObjProp by exact Ep.
        rewrite (String.eqb_sym (trim (completedCategory c)) label).
        destruct (String.eqb_spec label (trim (completedCategory c))) as [E | E].
        -- subst label. rewrite Hcache by exact Hl. simpl.
           pose proof (replay_nonneg cs (trim (completedCategory c)) Hcs).
           lia.
        -- rewrite Hcache by exact Hl. lia.
      * rewrite Hlog, pushEvent_keepLast. apply keepLast_snoc.
Qed.

End StoreFacts.

(** ** The claims about the statistics store *)

Section StatisticsStore.
Context `{JsHost}.

(** C4.  Appending an event keeps the log in insertion order and keeps its
    last 1000 entries: the stored log is the end of the old log followed by
    the new event, it never holds more than 1000 events, and appending to a
    log of 1000 events drops exactly the oldest one and leaves the other
    999 and the new event in their order.  The block that records a
    completed focus interval stores the log appended this way. *)
Theorem C4_event_log_cap :
  (forall events e, pushEvent events e = keepLast 1000 (events ++ [e])) /\
  (forall events e,
     exists evicted, events ++ [e] = evicted ++ pushEvent events e) /\
  (forall events e,
     List.length (pushEvent events e)
     = Nat.min 1000 (List.length events + 1)) /\
  (forall oldest rest e,
     List.length (oldest :: rest) = 1000%nat ->
     pushEvent (oldest :: rest) e = rest ++ [e] /\
     List.length (pushEvent (oldest :: rest) e) = 1000%nat) /\
  (forall now category minutes st,
     (forall l, loadMap (categoryMinutesItem st) <> JArr l) ->
     eventLog (recordCompletion now category minutes st)
     = pushEvent (eventLog st) (newEvent now (trim category) minutes)).
Proof.
  split; [| split; [| split; [| split]]].
  - apply pushEvent_keepLast.
  - intros events e. rewrite pushEvent_keepLast.
    eexists. apply keepLast_suffix.
  - intros events e. rewrite pushEvent_keepLast, keepLast_length, length_app.
    reflexivity.
  - intros oldest rest e Hl.
    assert (E : pushEvent (oldest :: rest) e = rest ++ [e]).
    { rewrite pushEvent_keepLast. unfold keepLast.
      rewrite length_app, Hl. reflexivity. }
    split; [exact E |]. rewrite E, length_app. simpl in *. lia.
  - intros now category minutes st Hobj. unfold recordCompletion, eventLog.
    destruct (loadMap (categoryMinutesItem st)) eqn:E; simpl; try reflexivity.
    exfalso. exact (Hobj _ eq_refl).
Qed.

(** C5, as amended.  From an empty store, after any completions with
    minutes that are not negative: the log is the last 1000 events of the
    history, the cache holds for every category the minutes of the whole
    history, and so the cache is the replay of the log plus the minutes of
    the evicted events.  While no more than 1000 intervals have been
    completed, replaying the log gives the cache; afterwards the replay can
    only be smaller.  (The key ["__proto__"] is never stored by an
    assignment and is left out.) *)
Theorem C5_cache_and_log (cs : list Completion) :
  Forall (fun c => 0 <= completedMinutes c) cs ->
  let st := recordAll cs emptyStorage in
  let history := map eventOf cs in
  let evicted := firstn (List.length history - 1000) history in
  eventLog st = keepLast 1000 history /\
  (forall label, label <> "__proto__"%string ->
     cacheMinutes st label = replay history label /\
     cacheMinutes st label = replay evicted label + replay (eventLog st) label /\
     replay (eventLog st) label <= cacheMinutes st label) /\
  ((List.length cs <= 1000)%nat ->
   forall label, label <> "__proto__"%string ->
     cacheMinutes st label = replay (eventLog st) label).
Proof.
  intros Hall st history evicted.
  destruct (recordAll_invariant cs Hall) as (props & Hmap & _ & Hcache & Hlog).
  fold st in Hmap, Hlog. fold history in Hcache, Hlog.
  assert (Hc : forall label, label <> "__proto__"%string ->
            cacheMinutes st label = replay history label).
  { intros label Hl. unfold cacheMinutes. rewrite Hmap. simpl.
    apply Hcache. exact Hl. }
  assert (Hsplit : forall label,
            replay history label
            = replay evicted label + replay (eventLog st) label).
  { intros label. rewrite <- replay_app, Hlog. f_equal.
    apply keepLast_suffix. }
  split; [exact Hlog |]. split.
  - intros label Hl. split; [apply Hc; exact Hl |].
    rewrite (Hc label Hl). split; [apply Hsplit |].
    rewrite Hsplit.
    assert (0 <= replay evicted label); [| lia].
    subst evicted history. rewrite length_map, firstn_map.
    apply replay_nonneg.
    pose proof Hall as Hall'.
    rewrite <- (firstn_skipn (List.length cs - 1000) cs) in Hall'.
    apply Forall_app in Hall'. exact (proj1 Hall').
  - intros Hlen label Hl. rewrite (Hc label Hl), Hlog.
    rewrite keepLast_all; [reflexivity |].
    subst history. rewrite length_map. exact Hlen.
Qed.

End StatisticsStore.

(** C5, as the claim states it, fails: after 1001 completed focus intervals
    of 25 minutes in one category the cache holds 25025 minutes and the
    replay of the log 25000.  It fails as well for the one label an
    assignment cannot store, and for a focus length below 0, which the cache
    clamps and the log keeps. *)
Lemma C5_cache_outgrows_log :
  @cacheMinutes refHost after1001 "Genel"
  <> @replay refHost (eventLog after1001) "Genel" /\
  @cacheMinutes refHost (@recordAll refHost [protoCompletion] emptyStorage)
    "__proto__"
  <> @replay refHost
       (eventLog (@recordAll refHost [protoCompletion] emptyStorage))
       "__proto__" /\
  @cacheMinutes refHost (@recordAll refHost [negativeCompletion] emptyStorage)
    "Genel"
  <> @replay refHost
       (eventLog (@recordAll refHost [negativeCompletion] emptyStorage))
       "Genel".
Proof. split; [| split]; vm_compute; discriminate. Qed.

(** ** The claims about configuration and persisted values *)

Lemma clampMinutes_range (n : Z) : 1 <= clampMinutes n <= 180.
Proof. unfold clampMinutes. lia. Qed.

Section Configuration.
Context `{JsHost}.

Lemma tick_durations (now : Z) (s : Home) : durations (tick now s) = durations s.
Proof.
  unfold tick. destruct (isRunning s); [| reflexivity].
  destruct (remainingSeconds s <=? 1); [| reflexivity].
  unfold afterModeUpdate, onFinish. simpl.
  destruct (TimerMode_eqb _ _); destruct (scopeMode (intervalScope s));
    reflexivity.
Qed.

(** C6.  The settings inputs clamp what they are given to [1, 180], and
    every event of the mounted page keeps durations that are within the
    limits within them.  The load effect does not: stored durations with a
    focus length of 500 minutes are merged as they are, and the countdown
    of the focus mode then starts at 30000 seconds. *)
Theorem C6_load_does_not_clamp :
  (forall v, 1 <= clampMinutes (NumberOfInput v) <= 180) /\
  (forall e s,
     withinLimits (durations s) -> withinLimits (durations (step e s))) /\
  asNumbers (loadDurations longFocusItem) = Some (Durations.Build 500 5 15) /\
  ~ withinLimits (Durations.Build 500 5 15) /\
  remainingSeconds
    (setDurations (Durations.Build 500 5 15) (mount emptyStorage))
  = 30000.
Proof.
  split; [| split; [| split]].
  - intros v. apply clampMinutes_range.
  - intros e s Hw. destruct e; simpl.
    + rewrite tick_durations. exact Hw.
    + unfold handleStartPause. simpl.
      destruct (negb (isRunning s)); exact Hw.
    + exact Hw.
    + rewrite handleSkip_eq. exact Hw.
    + destruct Hw as (Hf & Hs & Hl). unfold withinLimits. simpl.
      pose proof (clampMinutes_range (NumberOfInput v)). lia.
    + destruct Hw as (Hf & Hs & Hl). unfold withinLimits. simpl.
      pose proof (clampMinutes_range (NumberOfInput v)). lia.
    + destruct Hw as (Hf & Hs & Hl). unfold withinLimits. simpl.
      pose proof (clampMinutes_range (NumberOfInput v)). lia.
    + exact Hw.
  - reflexivity.
  - split; [| reflexivity]. unfold withinLimits. simpl. lia.
Qed.

Lemma onlyStrings_In (parsed : list json) (x : string) :
  In x (onlyStrings parsed) -> In (JStr x) parsed.
Proof.
  induction parsed as [| j r IH]; simpl; [intros [] |].
  destruct j; try (intros Hi; right; exact (IH Hi)).
  intros [E | Hi]; [left; rewrite E; reflexivity | right; exact (IH Hi)].
Qed.

(** C7.  Under every key that holds JSON or a number, a text that is empty,
    that does not parse, or that parses to a value which fails the type
    check of its loader is treated as an absent one: the durations and the
    category minutes when the value is [null] or not of type object, the
    categories and the focus events when it is not an array, a counter when
    the text is not a finite number.  The settings inputs and the
    categories loader go on to check what they take: an input is converted
    to a number and clamped, and only the strings of a stored array become
    categories.  The durations load effect does not: a stored object of the
    wrong shape, whose focus length is the text "abc", is not treated as
    absent but merged as it is, so the focus length of the page is that
    text, the durations are not three numbers, and the countdown of the
    focus mode, [durations.focus * 60], is not a number. *)
Theorem C7_wrong_shape_is_merged :
  (loadDurations None
   = Durations.Build (JNum 25) (JNum 5) (JNum 15) /\
   loadDurations (Some Blank) = loadDurations None /\
   loadDurations (Some Malformed) = loadDurations None /\
   loadDurations (Some (Json JNull)) = loadDurations None /\
   (forall b, loadDurations (Some (Json (JBool b))) = loadDurations None) /\
   (forall n, loadDurations (Some (Json (JNum n))) = loadDurations None) /\
   (forall t, loadDurations (Some (Json (JStr t))) = loadDurations None) /\
   (forall l, loadDurations (Some (Json (JArr l))) = loadDurations None)) /\
  (forall initialValue,
     loadNumber None initialValue = initialValue /\
     loadNumber (Some ""%string) initialValue = initialValue /\
     (forall text, StringToNumber text = None ->
        loadNumber (Some text) initialValue = initialValue)) /\
  (loadCategories None = DEFAULT_CATEGORIES /\
   loadCategories (Some Blank) = loadCategories None /\
   loadCategories (Some Malformed) = loadCategories None /\
   (forall j, (forall l, j <> JArr l) ->
      loadCategories (Some (Json j)) = loadCategories None)) /\
  (loadMap None = JObj [] /\
   loadMap (Some Blank) = loadMap None /\
   loadMap (Some Malformed) = loadMap None /\
   (forall j, isObject j = false -> loadMap (Some (Json j)) = loadMap None) /\
   (forall it, useCategoryMinutes it = loadMap it)) /\
  (loadEvents None = [] /\
   loadEvents (Some Blank) = loadEvents None /\
   loadEvents (Some Malformed) = loadEvents None /\
   (forall j, (forall l, j <> JArr l) ->
      loadEvents (Some (Json j)) = loadEvents None)) /\
  ((forall v, 1 <= clampMinutes (NumberOfInput v) <= 180) /\
   (forall parsed x, In x (onlyStrings parsed) -> In (JStr x) parsed)) /\
  (loadDurations textFocusItem <> loadDurations None /\
   Durations.focus (loadDurations textFocusItem) = JStr "abc" /\
   asNumbers (loadDurations textFocusItem) = None /\
   (StringToNumber "abc" = None ->
    secondsOf (loadDurations textFocusItem) focus = None)).
Proof.
  split; [| split; [| split; [| split; [| split; [| split]]]]].
  - repeat split; reflexivity.
  - intros initialValue. split; [reflexivity |]. split; [reflexivity |].
    intros text Hn. unfold loadNumber. rewrite Hn.
    destruct (String.eqb text ""); reflexivity.
  - split; [reflexivity |]. split; [reflexivity |]. split; [reflexivity |].
    intros j Hj. destruct j; try reflexivity. exfalso. exact (Hj _ eq_refl).
  - split; [reflexivity |]. split; [reflexivity |]. split; [reflexivity |].
    split; [| reflexivity].
    intros j Hj. unfold loadMap. rewrite Hj. reflexivity.
  - split; [reflexivity |]. split; [reflexivity |]. split; [reflexivity |].
    intros j Hj. destruct j; try reflexivity. exfalso. exact (Hj _ eq_refl).
  - split; [intros v; apply clampMinutes_range | exact onlyStrings_In].
  - split; [discriminate |]. split; [reflexivity |]. split; [reflexivity |].
    intros Hn. unfold secondsOf. simpl. rewrite Hn. reflexivity.
Qed.

End Configuration.

(** ** Facts about the statistics page *)

Lemma mapGet_mapSet {A : Type} (k k' : string) (v : A) (m : list (string * A)) :
  mapGet k (mapSet k' v m) = if String.eqb k k' then Some v else mapGet k m.
Proof.
  induction m as [| [k0 v0] r IH]; simpl.
  - reflexivity.
  - destruct (String.eqb_spec k' k0) as [E0 | E0]; simpl.
    + subst k0. destruct (String.eqb k k'); reflexivity.
    + rewrite IH. destruct (String.eqb_spec k k0) as [E1 | E1];
        destruct (String.eqb_spec k k') as [E2 | E2]; try reflexivity.
      congruence.
Qed.

Lemma colorEach_other (label : string) (labels : list string) :
  ~ In label labels ->
  forall idx map, mapGet label (colorEach labels idx map) = mapGet label map.
Proof.
  induction labels as [| x r IH]; intros Hn idx map; simpl; [reflexivity |].
  rewrite IH by (intro Hi; apply Hn; right; exact Hi).
  rewrite mapGet_mapSet.
  destruct (String.eqb_spec label x) as [E | _]; [| reflexivity].
  exfalso. apply Hn. left. symmetry. exact E.
Qed.

Lemma colorEach_nth (labels : list string) :
  NoDup labels ->
  forall i label idx map,
    nth_error labels i = Some label ->
    mapGet label (colorEach labels idx map)
    = Some (nth ((idx + i) mod List.length palette) palette ""%string).
Proof.
  induction 1 as [| x r Hx Hr IH]; intros i label idx map Hi.
  - destruct i; discriminate.
  - destruct i as [| i]; simpl in Hi |- *.
    + injection Hi as ->. rewrite colorEach_other by exact Hx.
      rewrite mapGet_mapSet, String.eqb_refl, Nat.add_0_r. reflexivity.
    + rewrite (IH i label (S idx) _ Hi).
      replace (S idx + i)%nat with (idx + S i)%nat by lia. reflexivity.
Qed.

Lemma setAdd_NoDup (x : string) (set : list string) :
  NoDup set -> NoDup (setAdd x set).
Proof.
  intros Hs. unfold setAdd.
  destruct (existsb (String.eqb x) set) eqn:E; [exact Hs |].
  apply NoDup_rev in Hs. rewrite <- (rev_involutive (set ++ [x])).
  apply NoDup_rev. rewrite rev_app_distr. simpl.
  constructor; [| exact Hs].
  intros Hin. apply in_rev in Hin.
  assert (Ht : existsb (String.eqb x) set = true).
  { apply existsb_exists. exists x. split; [exact Hin |].
    apply String.eqb_refl. }
  congruence.
Qed.

Lemma fold_setAdd_NoDup {A : Type} (f : A -> string) (l : list A)
  (set : list string) :
  NoDup set -> NoDup (fold_left (fun acc a => setAdd (f a) acc) l set).
Proof.
  revert set. induction l as [| a l IH]; intros set Hs; simpl; [exact Hs |].
  apply IH. apply setAdd_NoDup. exact Hs.
Qed.

Lemma seenCategories_NoDup (minutesByCategory : json) (events : list FocusEvent) :
  NoDup (seenCategories minutesByCategory events).
Proof.
  unfold seenCategories.
  apply (fold_setAdd_NoDup category).
  apply (fold_setAdd_NoDup (fun k => k)). constructor.
Qed.

Lemma insertSorted_perm {A : Type} (cmp : A -> A -> Z) (x : A) (l : list A) :
  Permutation (insertSorted cmp x l) (x :: l).
Proof.
  induction l as [| y r IH]; simpl; [reflexivity |].
  destruct (0 <? cmp x y); [| reflexivity].
  rewrite IH. apply perm_swap.
Qed.

Lemma sortBy_perm {A : Type} (cmp : A -> A -> Z) (l : list A) :
  Permutation (sortBy cmp l) l.
Proof.
  unfold sortBy. induction l as [| x r IH]; simpl; [reflexivity |].
  rewrite insertSorted_perm. constructor. exact IH.
Qed.

(** The events the timer page writes have the type the statistics page
    reads them at. *)
Lemma asFocusEvent_newEvent (t : Z) (c : string) (m : Z) :
  asFocusEvent (newEvent t c m)
  = Some {| ts := t; category := c; minutes := m |}.
Proof. reflexivity. Qed.

Lemma sumIf_app (p : FocusEvent -> bool) (a b : list FocusEvent) :
  sumIf p (a ++ b) = sumIf p a + sumIf p b.
Proof.
  unfold sumIf. induction a as [| e a IH]; simpl; [reflexivity |].
  rewrite IH. destruct (p e); lia.
Qed.

Lemma sumIf_one (p : FocusEvent -> bool) (ev : FocusEvent) :
  sumIf p [ev] = if p ev then minutesOrZero (minutes ev) else 0.
Proof. unfold sumIf. simpl. destruct (p ev); lia. Qed.

Lemma updateNth_length {A : Type} (i : nat) (f : A -> A) (l : list A) :
  List.length (updateNth i f l) = List.length l.
Proof.
  revert i. induction l as [| x r IH]; intros [| i]; simpl;
    try reflexivity.
  rewrite IH. reflexivity.
Qed.

Lemma nth_error_updateNth {A : Type} (i : nat) (f : A -> A) (l : list A)
  (j : nat) :
  nth_error (updateNth i f l) j
  = if (j =? i)%nat then option_map f (nth_error l j) else nth_error l j.
Proof.
  revert i j. induction l as [| x r IH]; intros i j.
  - destruct i, j; simpl; try reflexivity.
    destruct (j =? i)%nat; reflexivity.
  - destruct i, j; simpl; try reflexivity. apply IH.
Qed.

Lemma mapGet_None_keys {A : Type} (k : string) (m : list (string * A)) :
  mapGet k m = None -> ~ In k (map fst m).
Proof.
  induction m as [| [k' v] r IH]; simpl; intros Hg; [tauto |].
  destruct (String.eqb_spec k k') as [E | E]; [discriminate |].
  intros [Hk | Hk]; [congruence | exact (IH Hg Hk)].
Qed.

Lemma mapSet_keys {A : Type} (k : string) (v : A) (m : list (string * A)) :
  map fst (mapSet k v m)
  = match mapGet k m with
    | Some _ => map fst m
    | None => map fst m ++ [k]
    end.
Proof.
  induction m as [| [k' v'] r IH]; simpl; [reflexivity |].
  destruct (String.eqb_spec k k') as [E | E]; simpl; [reflexivity |].
  rewrite IH. destruct (mapGet k r); reflexivity.
Qed.

Lemma mapSet_keys_NoDup {A : Type} (k : string) (v : A) (m : list (string * A)) :
  NoDup (map fst m) -> NoDup (map fst (mapSet k v m)).
Proof.
  intros Hn. rewrite mapSet_keys.
  destruct (mapGet k m) eqn:E; [exact Hn |].
  apply NoDup_rev in Hn. rewrite <- (rev_involutive (map fst m ++ [k])).
  apply NoDup_rev. rewrite rev_app_distr. simpl.
  constructor; [| exact Hn].
  intros Hin. apply in_rev in Hin. exact (mapGet_None_keys k m E Hin).
Qed.

Lemma minutesIn_addMinutes (label' label : string) (n : Z)
  (m : list (string * Z)) :
  minutesIn label' (addMinutes label n m)
  = minutesIn label' m + (if String.eqb label' label then n else 0).
Proof.
  unfold minutesIn, addMinutes. rewrite mapGet_mapSet.
  destruct (String.eqb_spec label' label) as [E | E]; [subst; lia | lia].
Qed.

(** Reordering the entries of a map does not change what a key holds. *)
Lemma mapGet_perm {A : Type} (k : string) (m m' : list (string * A)) :
  Permutation m m' -> NoDup (map fst m) -> mapGet k m = mapGet k m'.
Proof.
  induction 1 as [| [k0 v0] m m' Hp IH | [k0 v0] [k1 v1] m | m m1 m' Hp1 IH1 Hp2 IH2];
    intros Hn; simpl.
  - reflexivity.
  - inversion Hn; subst. rewrite IH by assumption. reflexivity.
  - inversion Hn as [| ? ? Hnotin _]; subst.
    destruct (String.eqb_spec k k0) as [E0 | E0];
      destruct (String.eqb_spec k k1) as [E1 | E1]; try reflexivity.
    exfalso. apply Hnotin. left. congruence.
  - rewrite IH1 by exact Hn. apply IH2.
    apply (Permutation_NoDup (Permutation_map fst Hp1)). exact Hn.
Qed.

Lemma minutesOn_snoc `{Zone} (done : list FocusEvent) (ev : FocusEvent) (d : Z) :
  minutesOn (done ++ [ev]) d
  = minutesOn done d
    + (if dayOf (ts ev) =? d then minutesOrZero (minutes ev) else 0).
Proof. unfold minutesOn. rewrite sumIf_app, sumIf_one. reflexivity. Qed.

Lemma minutesOnFor_snoc `{Zone} (done : list FocusEvent) (ev : FocusEvent)
  (d : Z) (label : string) :
  minutesOnFor (done ++ [ev]) d label
  = minutesOnFor done d label
    + (if (dayOf (ts ev) =? d) && String.eqb (category ev) label
       then minutesOrZero (minutes ev) else 0).
Proof. unfold minutesOnFor. rewrite sumIf_app, sumIf_one. reflexivity. Qed.

Lemma minutesInWeekFor_snoc `{Zone} (done : list FocusEvent) (ev : FocusEvent)
  (monday : Z) (label : string) :
  minutesInWeekFor (done ++ [ev]) monday label
  = minutesInWeekFor done monday label
    + (if (monday <=? dayOf (ts ev)) && (dayOf (ts ev) <? monday + 7)
          && String.eqb (category ev) label
       then minutesOrZero (minutes ev) else 0).
Proof. unfold minutesInWeekFor. rewrite sumIf_app, sumIf_one. reflexivity. Qed.

(** An event on none of the seven days changes no sum. *)
Lemma weekCounted_skip `{Zone} (monday : Z) (days : list DayRow)
  (totals : list (string * Z)) (done : list FocusEvent) (ev : FocusEvent) :
  ~ (monday <= dayOf (ts ev) < monday + 7) ->
  weekCounted monday days totals done ->
  weekCounted monday days totals (done ++ [ev]).
Proof.
  intros Hout (Hlen & Hrows & Htot). unfold weekCounted.
  split; [exact Hlen |]. split.
  - intros i row Hi.
    assert (Hlt : (i < 7)%nat).
    { rewrite <- Hlen. apply nth_error_Some. rewrite Hi. discriminate. }
    destruct (Hrows i row Hi) as (Hd & Ht & Hn & Hb).
    assert (Hne : (dayOf (ts ev) =? monday + Z.of_nat i) = false).
    { apply Z.eqb_neq. lia. }
    split; [exact Hd |]. split; [| split; [exact Hn |]].
    + rewrite minutesOn_snoc, Hne, Ht. lia.
    + intros label. rewrite minutesOnFor_snoc, Hne, Hb. cbn [andb]. lia.
  - intros label. rewrite Htot, minutesInWeekFor_snoc.
    destruct (Z.leb_spec monday (dayOf (ts ev)));
      destruct (Z.ltb_spec (dayOf (ts ev)) (monday + 7)); cbn [andb];
      lia.
Qed.

Section WeeklyView.
Context `{Zone}.
Variable now : Z.
Hypothesis lawful : lawfulZone.
Hypothesis whole : wholeDays now.

Lemma dayOf_dayStart (i : Z) :
  0 <= i <= 6 -> dayOf (dayStart (mondayOf now + i)) = mondayOf now + i.
Proof.
  intros Hi. apply lawful.
  replace (mondayOf now + i + 1) with (mondayOf now + (i + 1)) by lia.
  rewrite (whole i), (whole (i + 1)) by lia.
  unfold MS_PER_DAY. lia.
Qed.

(** An instant within 168 hours of Monday's midnight lies on the day its
    24-hour slot stands for. *)
Lemma slot_day (t : Z) :
  dayStart (mondayOf now) <= t
  < dayStart (mondayOf now) + 7 * 24 * 60 * 60 * 1000 ->
  0 <= (t - dayStart (mondayOf now)) / MS_PER_DAY < 7 /\
  dayOf t = mondayOf now + (t - dayStart (mondayOf now)) / MS_PER_DAY.
Proof.
  intros Ht.
  set (start := dayStart (mondayOf now)) in *.
  set (i := (t - start) / MS_PER_DAY).
  assert (Hms : MS_PER_DAY = 86400000) by reflexivity.
  assert (Hi : 0 <= i < 7).
  { subst i. rewrite Hms. split.
    - apply Z.div_pos; lia.
    - apply Z.div_lt_upper_bound; lia. }
  assert (Hlo : MS_PER_DAY * i <= t - start).
  { subst i. apply Z.mul_div_le. rewrite Hms. lia. }
  assert (Hhi : t - start < MS_PER_DAY * Z.succ i).
  { subst i. apply Z.mul_succ_div_gt. rewrite Hms. lia. }
  split; [exact Hi |].
  apply lawful.
  replace (mondayOf now + i + 1) with (mondayOf now + (i + 1)) by lia.
  rewrite (whole i), (whole (i + 1)) by lia.
  fold start. rewrite Hms in *. lia.
Qed.

(** An instant on one of the seven days lies within the 168 hours. *)
Lemma day_slot (t : Z) :
  mondayOf now <= dayOf t < mondayOf now + 7 ->
  dayStart (mondayOf now) <= t
  < dayStart (mondayOf now) + 7 * 24 * 60 * 60 * 1000.
Proof.
  intros Hd.
  pose proof (proj1 (lawful t (dayOf t)) eq_refl) as Ht.
  replace (dayOf t) with (mondayOf now + (dayOf t - mondayOf now)) in Ht by lia.
  replace (mondayOf now + (dayOf t - mondayOf now) + 1)
    with (mondayOf now + (dayOf t - mondayOf now + 1)) in Ht by lia.
  rewrite (whole (dayOf t - mondayOf now)) in Ht by lia.
  rewrite (whole (dayOf t - mondayOf now + 1)) in Ht by lia.
  unfold MS_PER_DAY in Ht. lia.
Qed.

Lemma weekStartOf_monday : weekStartOf now = dayStart (mondayOf now).
Proof. reflexivity. Qed.

Lemma emptyWeek_counted :
  weekCounted (mondayOf now) (emptyWeek (weekStartOf now)) [] [].
Proof.
  unfold weekCounted. split; [reflexivity |]. split; [| reflexivity].
  intros i row Hi.
  assert (Hlt : (i < 7)%nat).
  { change 7%nat with (List.length (emptyWeek (weekStartOf now))).
    apply nth_error_Some. rewrite Hi. discriminate. }
  unfold emptyWeek in Hi. rewrite nth_error_map in Hi.
  rewrite nth_error_seq in Hi.
  destruct (Nat.ltb_spec i 7) as [_ | Hge]; [| lia].
  simpl in Hi. injection Hi as <-. simpl.
  split; [| split; [reflexivity | split; [constructor | reflexivity]]].
  unfold midnight. rewrite weekStartOf_monday.
  rewrite <- (Z.add_0_r (mondayOf now)) at 1.
  rewrite dayOf_dayStart by lia. rewrite Z.add_0_r. reflexivity.
Qed.

(** One turn of the loop keeps the rows and totals right. *)
Lemma countEvent_counted (days : list DayRow) (totals : list (string * Z))
  (done : list FocusEvent) (ev : FocusEvent) :
  weekCounted (mondayOf now) days totals done ->
  weekCounted (mondayOf now)
    (fst (countEvent (weekStartOf now)
            (weekStartOf now + 7 * 24 * 60 * 60 * 1000) (days, totals) ev))
    (snd (countEvent (weekStartOf now)
            (weekStartOf now + 7 * 24 * 60 * 60 * 1000) (days, totals) ev))
    (done ++ [ev]).
Proof.
  intros (Hlen & Hrows & Htot).
  rewrite weekStartOf_monday. unfold countEvent.
  set (start := dayStart (mondayOf now)).
  destruct (Z.leb_spec start (ts ev)) as [Hlo | Hlo];
    [destruct (Z.ltb_spec (ts ev) (start + 7 * 24 * 60 * 60 * 1000))
       as [Hhi | Hhi] |]; simpl andb; cbv iota.
  - (* the event is counted *)
    destruct (slot_day (ts ev) (conj Hlo Hhi)) as (Hi & Hday).
    fold start in Hi, Hday.
    set (iz := (ts ev - start) / MS_PER_DAY) in *.
    set (idx := Z.to_nat iz).
    assert (Hidx : Z.of_nat idx = iz) by (subst idx; lia).
    destruct (nth_error days idx) as [hit |] eqn:Ehit.
    2:{ exfalso. apply nth_error_None in Ehit. lia. }
    simpl fst. simpl snd. unfold weekCounted.
    split; [rewrite updateNth_length; exact Hlen |]. split.
    + intros j row Hj. rewrite nth_error_updateNth in Hj.
      destruct (Nat.eqb_spec j idx) as [E | E].
      * subst j. rewrite Ehit in Hj. simpl in Hj. injection Hj as <-.
        destruct (Hrows idx hit Ehit) as (Hd & Ht & Hn & Hb).
        simpl. rewrite Hidx in *.
        split; [exact Hd |]. split; [| split].
        -- rewrite minutesOn_snoc, Hday, Z.eqb_refl, Ht. reflexivity.
        -- apply mapSet_keys_NoDup. exact Hn.
        -- intros label. rewrite minutesIn_addMinutes, Hb.
           rewrite minutesOnFor_snoc, Hday, Z.eqb_refl. simpl andb.
           rewrite (String.eqb_sym label). reflexivity.
      * destruct (Hrows j row Hj) as (Hd & Ht & Hn & Hb).
        assert (Hne : (dayOf (ts ev) =? mondayOf now + Z.of_nat j) = false).
        { apply Z.eqb_neq. rewrite Hday. lia. }
        split; [exact Hd |]. split; [| split; [exact Hn |]].
        -- rewrite minutesOn_snoc, Hne, Ht. lia.
        -- intros label. rewrite minutesOnFor_snoc, Hne, Hb.
           cbn [andb]. lia.
    + intros label. rewrite minutesIn_addMinutes, Htot.
      rewrite minutesInWeekFor_snoc.
      destruct (Z.leb_spec (mondayOf now) (dayOf (ts ev))); [| lia].
      destruct (Z.ltb_spec (dayOf (ts ev)) (mondayOf now + 7)); [| lia].
      simpl andb. rewrite (String.eqb_sym label). reflexivity.
  - (* the event is past the end of the week *)
    apply (weekCounted_skip (mondayOf now) days totals done ev); [| exact (conj Hlen (conj Hrows Htot))].
    intros Hd. apply day_slot in Hd. fold start in Hd. lia.
  - (* the event is before the week *)
    apply (weekCounted_skip (mondayOf now) days totals done ev); [| exact (conj Hlen (conj Hrows Htot))].
    intros Hd. apply day_slot in Hd. fold start in Hd. lia.
Qed.

Lemma fold_countEvent_counted (events done : list FocusEvent)
  (days : list DayRow) (totals : list (string * Z)) :
  weekCounted (mondayOf now) days totals done ->
  weekCounted (mondayOf now)
    (fst (fold_left
            (countEvent (weekStartOf now)
               (weekStartOf now + 7 * 24 * 60 * 60 * 1000))
            events (days, totals)))
    (snd (fold_left
            (countEvent (weekStartOf now)
               (weekStartOf now + 7 * 24 * 60 * 60 * 1000))
            events (days, totals)))
    (done ++ events).
Proof.
  revert done days totals.
  induction events as [| ev events IH]; intros done days totals Hc.
  - rewrite app_nil_r. exact Hc.
  - cbn [fold_left].
    pose proof (countEvent_counted days totals done ev Hc) as Hstep.
    destruct (countEvent (weekStartOf now)
                (weekStartOf now + 7 * 24 * 60 * 60 * 1000) (days, totals) ev)
      as [days' totals'].
    replace (done ++ ev :: events) with ((done ++ [ev]) ++ events)
      by (rewrite <- app_assoc; reflexivity).
    apply IH. exact Hstep.
Qed.

Lemma monday_is_monday (i : Z) :
  (mondayOf now + i + 4) mod 7 = (1 + i) mod 7.
Proof.
  unfold mondayOf, getDay. Z.div_mod_to_equations. lia.
Qed.

(** The weekly aggregate of a week of whole days. *)
Lemma weekly_rows_counted (events : list FocusEvent) :
  let monday := mondayOf now in
  let rows := fst (weeklyTotals now events) in
  let totals := snd (weeklyTotals now events) in
  monday <= dayOf now <= monday + 6 /\
  List.length rows = 7%nat /\
  (forall i row, nth_error rows i = Some row ->
     date row = dayStart (monday + Z.of_nat i) /\
     getDay (date row) = (1 + Z.of_nat i) mod 7 /\
     total row = minutesOn events (monday + Z.of_nat i) /\
     forall label,
       minutesIn label (breakdown row)
       = minutesOnFor events (monday + Z.of_nat i) label) /\
  (forall label, minutesIn label totals = minutesInWeekFor events monday label).
Proof.
  intros monday rows totals.
  pose proof (fold_countEvent_counted events [] _ _ emptyWeek_counted) as Hc.
  simpl app in Hc.
  subst rows totals. unfold weeklyTotals.
  destruct (fold_left _ events _) as [days totalsByCat].
  simpl fst in *. simpl snd in *.
  destruct Hc as (Hlen & Hrows & Htot).
  split.
  { subst monday. unfold mondayOf.
    pose proof (Z.mod_pos_bound (getDay now + 6) 7). lia. }
  split; [rewrite length_map; exact Hlen |]. split; [| exact Htot].
  intros i row Hi. rewrite nth_error_map in Hi.
  destruct (nth_error days i) as [row0 |] eqn:E; [| discriminate].
  injection Hi as <-.
  assert (Hlt : (i < 7)%nat).
  { rewrite <- Hlen. apply nth_error_Some. rewrite E. discriminate. }
  destruct (Hrows i row0 E) as (Hd & Ht & Hn & Hb). simpl.
  split; [exact Hd |]. split; [| split; [exact Ht |]].
  - unfold getDay. rewrite Hd. subst monday.
    rewrite dayOf_dayStart by lia. apply monday_is_monday.
  - intros label. rewrite <- Hb. unfold minutesIn.
    rewrite (mapGet_perm label _ (breakdown row0)); [reflexivity | |].
    + apply sortBy_perm.
    + apply (Permutation_NoDup
               (Permutation_map fst
                  (Permutation_sym (sortBy_perm _ (breakdown row0))))).
      exact Hn.
Qed.

(** X18.  In a week without a clock change the weekly view has seven rows,
    Monday to Sunday, each with the minutes of its local calendar day in all
    and by category, and the totals by category of the events of the week; the
    events of other weeks count nowhere. *)
Theorem weekly_view_with_whole_days (events : list FocusEvent) :
  let monday := mondayOf now in
  let rows := fst (weeklyTotals now events) in
  let totals := snd (weeklyTotals now events) in
  monday <= dayOf now <= monday + 6 /\
  List.length rows = 7%nat /\
  (forall i row, nth_error rows i = Some row ->
     date row = dayStart (monday + Z.of_nat i) /\
     getDay (date row) = (1 + Z.of_nat i) mod 7 /\
     total row = minutesOn events (monday + Z.of_nat i) /\
     forall label,
       minutesIn label (breakdown row)
       = minutesOnFor events (monday + Z.of_nat i) label) /\
  (forall label, minutesIn label totals = minutesInWeekFor events monday label).
Proof. exact (weekly_rows_counted events). Qed.

End WeeklyView.

Lemma fixedZone_lawful (offset : Z) : @lawfulZone (fixedZone offset).
Proof.
  unfold lawfulZone, fixedZone, MS_PER_DAY. simpl. intros t d.
  split; intros Hd; Z.div_mod_to_equations; lia.
Qed.

Lemma fixedZone_wholeDays (offset now : Z) : @wholeDays (fixedZone offset) now.
Proof.
  unfold wholeDays, fixedZone, MS_PER_DAY. simpl. intros i Hi. lia.
Qed.

Lemma fixedZone_dates (offset : Z) : @datesByLocalTime (fixedZone offset).
Proof. split; reflexivity. Qed.

Lemma berlin2026_dates : @datesByLocalTime berlin2026.
Proof. split; reflexivity. Qed.

(** When a day begins at midnight on the local clock, [setDate] moves its
    start to the start of the next day. *)
Lemma setDate_from_midnight `{Zone} (d : Z) :
  datesByLocalTime ->
  LocalTime (dayStart d) = d * MS_PER_DAY ->
  setDate (dayStart d) 1 = dayStart (d + 1).
Proof.
  intros (_ & Hstart) Hlocal. unfold setDate.
  rewrite Hlocal, Hstart. f_equal. lia.
Qed.

Lemma cairo2026_dates : @datesByLocalTime cairo2026.
Proof.
  split; [reflexivity |]. intros d.
  unfold cairo2026, MS_PER_DAY, summerTimeBegins. simpl. reflexivity.
Qed.

Lemma cairo2026_lawful : @lawfulZone cairo2026.
Proof.
  unfold lawfulZone, cairo2026, MS_PER_DAY, summerTimeBegins. simpl.
  intros t d.
  destruct (Z.ltb_spec t 1776981600000);
    destruct (Z.ltb_spec (d * 86400000 - 10800000) 1776981600000);
    destruct (Z.ltb_spec ((d + 1) * 86400000 - 10800000) 1776981600000);
    split; intros Hd; Z.div_mod_to_equations; lia.
Qed.

Lemma berlin2026_lawful : @lawfulZone berlin2026.
Proof.
  unfold lawfulZone, berlin2026, MS_PER_DAY, summerTimeEnds. simpl.
  intros t d.
  destruct (Z.ltb_spec t 1792890000000);
    destruct (Z.ltb_spec (d * 86400000 - 7200000) 1792890000000);
    destruct (Z.ltb_spec ((d + 1) * 86400000 - 7200000) 1792890000000);
    split; intros Hd; Z.div_mod_to_equations; lia.
Qed.

(** ** The claims about the statistics page *)

Section StatisticsPage.
Context `{JsHost}.

(** C9, as amended.  The labels that get a colour of their own are the
    labels seen as a key of the cache or as the category of an event whose
    trimmed text is not empty, each once; they are put in the order of
    their Turkish-locale comparison, and the label at position [i] of that
    order gets colour [i mod 5] of the palette of five.  Every other label
    gets the first colour.  The colour depends on nothing but the cache and
    the events the page loaded. *)
Theorem C9_color_by_sorted_position (minutesByCategory : json)
  (events : list FocusEvent) :
  let labels := allCategories minutesByCategory events in
  NoDup labels /\
  Permutation labels
    (filter (fun x => negb (String.eqb (trim x) ""))
       (seenCategories minutesByCategory events)) /\
  labels
  = sortBy localeCompare_tr
      (filter (fun x => negb (String.eqb (trim x) ""))
         (seenCategories minutesByCategory events)) /\
  (forall i label,
     nth_error labels i = Some label ->
     categoryColor minutesByCategory events label
     = nth (i mod 5) palette ""%string) /\
  (forall label,
     ~ In label labels ->
     categoryColor minutesByCategory events label = "var(--chart-1)"%string).
Proof.
  intros labels.
  assert (Hp : Permutation labels
                 (filter (fun x => negb (String.eqb (trim x) ""))
                    (seenCategories minutesByCategory events))).
  { apply sortBy_perm. }
  assert (Hn : NoDup labels).
  { apply (Permutation_NoDup (Permutation_sym Hp)).
    apply NoDup_filter. apply seenCategories_NoDup. }
  split; [exact Hn |]. split; [exact Hp |]. split; [reflexivity |]. split.
  - intros i label Hi. unfold categoryColor. fold labels.
    rewrite (colorEach_nth labels Hn i label 0 [] Hi). reflexivity.
  - intros label Hl. unfold categoryColor. fold labels.
    rewrite colorEach_other by exact Hl. reflexivity.
Qed.

End StatisticsPage.

(** C9, as the claim states it, fails: in a cache whose first key is
    "Yazilim" and whose second is "Genel", the label seen first gets the
    second colour of the palette, not the first. *)
Lemma C9_first_seen_gets_second_color :
  nth_error (seenCategories yazilimFirst []) 0 = Some "Yazilim"%string /\
  @categoryColor refHost yazilimFirst [] "Yazilim"
  = nth 1 palette ""%string /\
  @categoryColor refHost yazilimFirst [] "Yazilim"
  <> nth 0 palette ""%string.
Proof. repeat split. vm_compute. discriminate. Qed.

(** C8.  The calendar of Central Europe in autumn 2026 is consistent, but
    the Sunday on which summer time ends has 25 hours.  A focus interval
    completed on that Sunday at 23:30 local time lies on the local day of
    the seventh row of the current week, and the daily view of that day
    counts its 25 minutes; the weekly view counts it in no row and in no
    weekly total, because its week ends 168 hours after Monday's midnight,
    one hour before the Sunday does. *)
Theorem C8_sunday_night_left_out :
  @lawfulZone berlin2026 /\
  @getDay berlin2026 sundayLater = 0 /\
  @dayOf berlin2026 (ts sundayNight) = @dayOf berlin2026 sundayLater /\
  @dayStart berlin2026 (@mondayOf berlin2026 sundayLater + 7)
  = @dayStart berlin2026 (@mondayOf berlin2026 sundayLater)
    + 7 * MS_PER_DAY + 3600000 /\
  @dailyTotalsByCategory berlin2026 sundayLater 0 [sundayNight]
  = [("Genel"%string, 25)] /\
  nth_error (fst (@weeklyTotals berlin2026 sundayLater [sundayNight])) 6
  = Some {| date := @dayStart berlin2026 (@dayOf berlin2026 sundayLater);
            total := 0; breakdown := [] |} /\
  Forall (fun row => total row = 0)
    (fst (@weeklyTotals berlin2026 sundayLater [sundayNight])) /\
  snd (@weeklyTotals berlin2026 sundayLater [sundayNight]) = [].
Proof.
  split; [exact berlin2026_lawful |].
  split; [reflexivity |]. split; [reflexivity |]. split; [reflexivity |].
  split; [reflexivity |]. split; [reflexivity |]. split; [| reflexivity].
  vm_compute. repeat constructor.
Qed.

(** ** The statements at concrete inputs *)

(** C1 on the freshly mounted page: the fourth focus interval in a row is
    followed by the long break. *)
Lemma C1_fourth_break_is_long :
  positiveDurations (durations (mount emptyStorage)) /\
  mode (@afterFocus refHost 0 (fun _ => true) (4 - 1) (mount emptyStorage))
  = long.
Proof.
  assert (Hd : positiveDurations (durations (mount emptyStorage))).
  { unfold positiveDurations. simpl. lia. }
  split; [exact Hd |].
  destruct (@C1_break_rule refHost) as (_ & _ & _ & Hrow).
  apply (Hrow 0 (fun _ => true) (mount emptyStorage) 4%nat);
    try reflexivity; [exact Hd | lia].
Defined.

(** C2 on the freshly mounted page: the focus countdown of 1500 seconds. *)
Lemma C2_first_focus_interval :
  let final :=
    @ticks refHost 7
      (Z.to_nat (dur (durations (mount emptyStorage))
                     (mode (mount emptyStorage)) * 60))
      (handleStartPause (handleReset (mount emptyStorage))) in
  positiveDurations (durations (mount emptyStorage)) /\
  completedFocusCount final = 0 + 1 /\
  loadEvents (focusEventsItem (localStorage final))
  = [] ++ [JObj [("ts"%string, JNum 7); ("category"%string, JStr "Genel");
                 ("minutes"%string, JNum 25)]].
Proof.
  intros final.
  assert (Hd : positiveDurations (durations (mount emptyStorage))).
  { unfold positiveDurations. simpl. lia. }
  split; [exact Hd |].
  destruct (@C2_countdown_runs_out refHost 7 (mount emptyStorage) Hd)
    as (_ & _ & _ & _ & Hfocus & _).
  destruct (Hfocus eq_refl) as (Hc & _ & _ & Hlog).
  split; [exact Hc |].
  assert (Hobj : forall l,
            loadMap (categoryMinutesItem (localStorage (mount emptyStorage)))
            = JArr l ->
            @trim refHost (selectedCategory (mount emptyStorage))
            <> "length"%string) by (intros l; discriminate).
  destruct (Hlog Hobj) as (_ & _ & _ & _ & Hshort & _).
  apply Hshort. simpl. lia.
Defined.

(** C4 on a full log. *)
Lemma C4_full_log :
  List.length (JNum 0 :: repeat (JNum 1) 999) = 1000%nat /\
  pushEvent (JNum 0 :: repeat (JNum 1) 999) (JNum 2)
  = repeat (JNum 1) 999 ++ [JNum 2].
Proof.
  assert (Hl : List.length (JNum 0 :: repeat (JNum 1) 999) = 1000%nat).
  { reflexivity. }
  split; [exact Hl |].
  destruct (@C4_event_log_cap refHost) as (_ & _ & _ & Hfull & _).
  exact (proj1 (Hfull (JNum 0) (repeat (JNum 1) 999) (JNum 2) Hl)).
Defined.

(** C5 after two completed focus intervals. *)
Lemma C5_two_completions :
  let cs := [ {| completedAt := 1; completedCategory := "Genel";
                 completedMinutes := 25 |};
              {| completedAt := 2; completedCategory := "Okuma";
                 completedMinutes := 25 |} ] in
  Forall (fun c => 0 <= completedMinutes c) cs /\
  @cacheMinutes refHost (@recordAll refHost cs emptyStorage) "Okuma"
  = @replay refHost (eventLog (@recordAll refHost cs emptyStorage)) "Okuma".
Proof.
  intros cs.
  assert (Hall : Forall (fun c => 0 <= completedMinutes c) cs).
  { repeat constructor; simpl; lia. }
  split; [exact Hall |].
  destruct (@C5_cache_and_log refHost cs Hall) as (_ & _ & Hsmall).
  apply Hsmall; [simpl; lia | discriminate].
Defined.

(** C6 on the freshly mounted page: 500 typed into the focus input. *)
Lemma C6_typed_500 :
  withinLimits (durations (mount emptyStorage)) /\
  withinLimits
    (durations (@step refHost (ChangeFocus (Typed 500)) (mount emptyStorage))).
Proof.
  assert (Hw : withinLimits (durations (mount emptyStorage))).
  { unfold withinLimits. simpl. lia. }
  split; [exact Hw |].
  destruct (@C6_load_does_not_clamp refHost) as (_ & Hstep & _).
  exact (Hstep (ChangeFocus (Typed 500)) (mount emptyStorage) Hw).
Defined.

(** C7 on the text "abc": as a counter it is treated as absent, as a stored
    focus length it makes the countdown of the focus mode not a number. *)
Lemma C7_counter_text :
  @StringToNumber refHost "abc" = None /\
  @loadNumber refHost (Some "abc"%string) 0 = 0 /\
  @secondsOf refHost (loadDurations textFocusItem) focus = None.
Proof.
  assert (Hn : @StringToNumber refHost "abc" = None) by reflexivity.
  split; [exact Hn |].
  destruct (@C7_wrong_shape_is_merged refHost)
    as (_ & Hnum & _ & _ & _ & _ & _ & _ & _ & Hnan).
  destruct (Hnum 0) as (_ & _ & Htext).
  split; [exact (Htext "abc"%string Hn) | exact (Hnan Hn)].
Defined.

(** C9 on the cache whose first key is "Yazilim". *)
Lemma C9_second_position :
  nth_error (@allCategories refHost yazilimFirst []) 1 = Some "Yazilim"%string /\
  @categoryColor refHost yazilimFirst [] "Yazilim" = "var(--chart-2)"%string.
Proof.
  assert (Hi : nth_error (@allCategories refHost yazilimFirst []) 1
               = Some "Yazilim"%string) by reflexivity.
  split; [exact Hi |].
  destruct (@C9_color_by_sorted_position refHost yazilimFirst [])
    as (_ & _ & _ & Hcolor & _).
  exact (Hcolor 1%nat "Yazilim"%string Hi).
Defined.

(** C10 on a running focus countdown: editing the short break restarts the
    25 minutes of focus. *)
Lemma C10_short_edit_in_focus :
  let s := withRemainingSeconds 300 (handleStartPause (mount emptyStorage)) in
  mode s <> short /\
  remainingSeconds (onChangeShort (Typed 7) s) = 25 * 60.
Proof.
  intros s.
  assert (Hm : mode s <> short) by discriminate.
  split; [exact Hm |].
  destruct C10_duration_edit_restarts_countdown as (_ & _ & _ & Hshort & _).
  exact (Hshort (Typed 7) s Hm).
Defined.

(** The weekly view in Istanbul, which has no clock changes: a focus
    interval on Saturday 24 October 2026 is counted in the sixth row. *)
Lemma weekly_view_in_istanbul :
  let saturday := {| ts := 1792836000000; category := "Okuma";
                     minutes := 50 |} in
  let now := 1792850000000 in
  @lawfulZone (fixedZone 10800000) /\
  @wholeDays (fixedZone 10800000) now /\
  forall row,
    nth_error (fst (@weeklyTotals (fixedZone 10800000) now [saturday])) 5
    = Some row ->
    total row
    = @minutesOn (fixedZone 10800000) [saturday]
        (@mondayOf (fixedZone 10800000) now + 5).
Proof.
  intros saturday now.
  split; [apply fixedZone_lawful |]. split; [apply fixedZone_wholeDays |].
  intros row Hrow.
  destruct (@weekly_view_with_whole_days (fixedZone 10800000) now
              (fixedZone_lawful _) (fixedZone_wholeDays _ _) [saturday])
    as (_ & _ & Hrows & _).
  exact (proj1 (proj2 (proj2 (Hrows 5%nat row Hrow)))).
Defined.

(** ** Further properties of the timer page *)

Section TimerInvariants.
Context `{JsHost}.

Lemma positiveDurations_step (e : Event) (s : Home) :
  positiveDurations (durations s) -> positiveDurations (durations (step e s)).
Proof.
  intros Hd. destruct e; simpl.
  - rewrite tick_durations. exact Hd.
  - unfold handleStartPause. simpl. destruct (negb (isRunning s)); exact Hd.
  - exact Hd.
  - rewrite handleSkip_eq. exact Hd.
  - destruct Hd as (Hf & Hs & Hl). unfold positiveDurations. simpl.
    pose proof (clampMinutes_range (NumberOfInput v)). lia.
  - destruct Hd as (Hf & Hs & Hl). unfold positiveDurations. simpl.
    pose proof (clampMinutes_range (NumberOfInput v)). lia.
  - destruct Hd as (Hf & Hs & Hl). unfold positiveDurations. simpl.
    pose proof (clampMinutes_range (NumberOfInput v)). lia.
  - exact Hd.
Qed.

Lemma positive_countdown (d : Durations) (m : TimerMode) :
  positiveDurations d -> 1 <= dur d m * 60.
Proof. intros (Hf & Hs & Hl). destruct m; simpl; lia. Qed.

Lemma countdownInRange_step (e : Event) (s : Home) :
  scopeInSync s -> positiveDurations (durations s) -> countdownInRange s ->
  countdownInRange (step e s).
Proof.
  unfold countdownInRange. intros Hs Hd Hc. destruct e; simpl.
  - unfold tick. destruct (isRunning s) eqn:Hr; [| exact Hc].
    destruct (Z.leb_spec (remainingSeconds s) 1) as [Hle | Hgt].
    + destruct (Hs Hr) as (Hm & _).
      pose proof (tick_finishes now s Hr Hle Hm) as Ht.
      unfold tick in Ht. rewrite Hr in Ht.
      destruct (Z.leb_spec (remainingSeconds s) 1); [| lia].
      rewrite Ht. unfold resetEffect. simpl.
      match goal with
      | |- 0 < dur ?d ?m * 60 <= _ =>
          pose proof (positive_countdown d m) as Hp
      end.
      unfold onFinish in *. simpl in *.
      destruct (scopeMode (intervalScope s)); simpl in *; specialize (Hp Hd); lia.
    + unfold countdown. destruct (Z.leb_spec (remainingSeconds s) 1); [lia |].
      simpl. lia.
  - unfold handleStartPause. simpl. destruct (negb (isRunning s)); exact Hc.
  - simpl. pose proof (positive_countdown _ (mode s) Hd). lia.
  - rewrite handleSkip_eq. simpl.
    pose proof (positive_countdown _
                  (nextMode (completedFocusCount s) (mode s)) Hd). lia.
  - pose proof (positive_countdown _ (mode s)
                  (positiveDurations_step (ChangeFocus v) s Hd)) as Hp.
    simpl in Hp. lia.
  - pose proof (positive_countdown _ (mode s)
                  (positiveDurations_step (ChangeShort v) s Hd)) as Hp.
    simpl in Hp. lia.
  - pose proof (positive_countdown _ (mode s)
                  (positiveDurations_step (ChangeLong v) s Hd)) as Hp.
    simpl in Hp. lia.
  - exact Hc.
Qed.

(** A property every event keeps holds after every run. *)
Lemma run_keeps (P : Home -> Prop) :
  (forall e s, P s -> P (step e s)) ->
  forall es s, P s -> P (run es s).
Proof.
  intros Hstep es. unfold run.
  induction es as [| e es IH]; intros s Hs; simpl; [exact Hs |].
  apply IH. apply Hstep. exact Hs.
Qed.

(** X1.  In every state the page reaches from a paused one, the countdown is
    positive and at most the full length of the current mode, and every
    duration stays at least one minute. *)
Theorem countdown_stays_in_range (s0 : Home) (es : list Event) :
  isRunning s0 = false ->
  positiveDurations (durations s0) ->
  countdownInRange s0 ->
  countdownInRange (run es s0) /\ positiveDurations (durations (run es s0)).
Proof.
  intros Hp Hd Hc.
  assert (Hs : scopeInSync s0) by (intro E; congruence).
  pose proof (run_keeps
                (fun s => scopeInSync s /\ positiveDurations (durations s) /\
                          countdownInRange s)) as Hrun.
  destruct (Hrun
              (fun e s '(conj Hs' (conj Hd' Hc')) =>
                 conj (step_keeps_sync e s Hs')
                   (conj (positiveDurations_step e s Hd')
                      (countdownInRange_step e s Hs' Hd' Hc')))
              es s0 (conj Hs (conj Hd Hc)))
    as (_ & Hd1 & Hc1).
  split; assumption.
Qed.

(** What an event other than a firing leaves alone. *)
Lemma user_event_frame (e : Event) (s : Home) :
  isUserEvent e ->
  completedFocusCount (step e s) = completedFocusCount s /\
  totalMinutes (step e s) = totalMinutes s /\
  localStorage (step e s) = localStorage s.
Proof.
  intros He. destruct e; simpl in He |- *; try contradiction;
    try (repeat split; reflexivity).
  - unfold handleStartPause. simpl.
    destruct (negb (isRunning s)); repeat split; reflexivity.
  - rewrite handleSkip_eq. repeat split; reflexivity.
Qed.

(** X2.  Starting, pausing, resetting, skipping, editing the settings and
    choosing a category change neither counter nor the stored statistics: only
    a firing of the interval can. *)
Theorem user_events_keep_statistics (e : Event) (s : Home) :
  isUserEvent e ->
  completedFocusCount (step e s) = completedFocusCount s /\
  totalMinutes (step e s) = totalMinutes s /\
  localStorage (step e s) = localStorage s.
Proof. exact (user_event_frame e s). Qed.

Lemma withinLimits_step (e : Event) (s : Home) :
  withinLimits (durations s) -> withinLimits (durations (step e s)).
Proof.
  intros Hw. destruct e; simpl.
  - rewrite tick_durations. exact Hw.
  - unfold handleStartPause. simpl. destruct (negb (isRunning s)); exact Hw.
  - exact Hw.
  - rewrite handleSkip_eq. exact Hw.
  - destruct Hw as (Hf & Hs & Hl). unfold withinLimits. simpl.
    pose proof (clampMinutes_range (NumberOfInput v)). lia.
  - destruct Hw as (Hf & Hs & Hl). unfold withinLimits. simpl.
    pose proof (clampMinutes_range (NumberOfInput v)). lia.
  - destruct Hw as (Hf & Hs & Hl). unfold withinLimits. simpl.
    pose proof (clampMinutes_range (NumberOfInput v)). lia.
  - exact Hw.
Qed.

Lemma scope_limits_step (e : Event) (s : Home) :
  withinLimits (durations s) ->
  withinLimits (scopeDurations (intervalScope s)) ->
  withinLimits (scopeDurations (intervalScope (step e s))).
Proof.
  intros Hw Hsc. destruct e; simpl; try exact Hsc.
  - unfold tick. destruct (isRunning s); [| exact Hsc].
    destruct (remainingSeconds s <=? 1); [| exact Hsc].
    unfold afterModeUpdate, onFinish. simpl.
    destruct (TimerMode_eqb _ _); destruct (scopeMode (intervalScope s));
      exact Hsc.
  - unfold handleStartPause. simpl.
    destruct (negb (isRunning s)); [exact Hw | exact Hsc].
  - rewrite handleSkip_eq. exact Hsc.
Qed.

(** What one event does to the counters: nothing, or one more completed
    focus interval with the focus length the interval was started with. *)
Lemma counters_step (e : Event) (s : Home) :
  (completedFocusCount (step e s) = completedFocusCount s /\
   totalMinutes (step e s) = totalMinutes s) \/
  (completedFocusCount (step e s) = completedFocusCount s + 1 /\
   totalMinutes (step e s)
   = totalMinutes s + Durations.focus (scopeDurations (intervalScope s))).
Proof.
  destruct e;
    try (left;
         match goal with
         | |- completedFocusCount (step ?e s) = _ /\ _ =>
             destruct (user_event_frame e s I) as (A & B & _);
             split; assumption
         end).
  simpl. unfold tick. destruct (isRunning s); [| left; split; reflexivity].
  destruct (remainingSeconds s <=? 1); [| left; split; reflexivity].
  unfold afterModeUpdate, onFinish. simpl.
  destruct (TimerMode_eqb _ _); destruct (scopeMode (intervalScope s));
    simpl; (left; split; reflexivity) || (right; split; reflexivity).
Qed.

(** X3.  With durations within the limits, the counters never go down, and
    every completed focus interval adds between 1 and 180 minutes to the
    total. *)
Theorem counters_grow_together (s0 : Home) (es : list Event) :
  withinLimits (durations s0) ->
  withinLimits (scopeDurations (intervalScope s0)) ->
  let completed := completedFocusCount (run es s0) - completedFocusCount s0 in
  let added := totalMinutes (run es s0) - totalMinutes s0 in
  0 <= completed /\ completed <= added <= 180 * completed.
Proof.
  intros Hw Hsc.
  pose proof (run_keeps
    (fun s => withinLimits (durations s) /\
              withinLimits (scopeDurations (intervalScope s)) /\
              0 <= completedFocusCount s - completedFocusCount s0 /\
              completedFocusCount s - completedFocusCount s0
              <= totalMinutes s - totalMinutes s0
              <= 180 * (completedFocusCount s - completedFocusCount s0)))
    as Hrun.
  cbv zeta. apply Hrun; [| split; [exact Hw | split; [exact Hsc | lia]]].
  clear Hrun. intros e s (Hw' & Hsc' & Hc & Ht).
  split; [apply withinLimits_step; exact Hw' |].
  split; [apply scope_limits_step; assumption |].
  destruct Hsc' as ((Hf1 & Hf2) & _).
  destruct (counters_step e s) as [(Ec & Et) | (Ec & Et)];
    rewrite Ec, Et; lia.
Qed.

Lemma leaveBreak_fields (now : Z) (skip : bool) (b : Home) :
  mode b <> focus -> isRunning b = false -> 1 <= remainingSeconds b ->
  let a := leaveBreak now skip b in
  mode a = focus /\ isRunning a = false /\
  durations a = durations b /\
  selectedCategory a = selectedCategory b /\
  remainingSeconds a = Durations.focus (durations b) * 60 /\
  completedFocusCount a = completedFocusCount b /\
  totalMinutes a = totalMinutes b /\
  localStorage a = localStorage b.
Proof.
  intros Hm Hp Hr. unfold leaveBreak. destruct skip.
  - rewrite handleSkip_eq. simpl.
    destruct (mode b); [congruence | |]; repeat split; reflexivity.
  - destruct (runOut_fields now b Hp Hr) as (M & R & D & SC & S & C & T & L).
    destruct (mode b); [congruence | |]; simpl in *;
      rewrite M in S; simpl in S; repeat split; assumption.
Qed.

(** X4.  After [k + 1] focus intervals in a row that ran out, with no edit in
    between, the counter of completed intervals is up by [k + 1] and the total
    by [k + 1] times the focus length, however the breaks were left. *)
Theorem focus_row_totals (now : Z) (skips : nat -> bool) (s : Home) (k : nat) :
  mode s = focus -> isRunning s = false -> 1 <= remainingSeconds s ->
  positiveDurations (durations s) ->
  let f := afterFocus now skips k s in
  completedFocusCount f = completedFocusCount s + (Z.of_nat k + 1) /\
  totalMinutes f
  = totalMinutes s + (Z.of_nat k + 1) * Durations.focus (durations s) /\
  durations f = durations s /\
  selectedCategory f = selectedCategory s.
Proof.
  intros Hm Hp Hr Hd. cbv zeta.
  induction k as [| k IH].
  - cbn [afterFocus].
    destruct (runOut_fields now s Hp Hr) as (_ & _ & D & SC & _ & C & T & _).
    rewrite Hm in C, T. change (Z.of_nat 0) with 0.
    repeat split; try assumption; lia.
  - destruct IH as (C & T & D & SC).
    destruct (afterFocus_fields now skips s k Hm Hp Hr Hd)
      as (M & _ & R & _ & RS).
    cbn [afterFocus].
    set (b := afterFocus now skips k s) in *.
    assert (Hb : mode b <> focus) by (rewrite M; apply nextMode_changes).
    assert (Hrb : 1 <= remainingSeconds b).
    { rewrite RS. apply positive_countdown. exact Hd. }
    destruct (leaveBreak_fields now (skips k) b Hb R Hrb)
      as (LM & LR & LD & LSC & LS & LC & LT & _).
    set (a := leaveBreak now (skips k) b) in *.
    assert (Hra : 1 <= remainingSeconds a).
    { rewrite LS, D. apply (positive_countdown _ focus Hd). }
    destruct (runOut_fields now a LR Hra) as (_ & _ & D' & SC' & _ & C' & T' & _).
    rewrite LM in C', T'.
    replace (Z.of_nat (S k)) with (Z.of_nat k + 1) by lia.
    repeat split.
    + rewrite C', LC, C. lia.
    + rewrite T', LT, T, LD, D. lia.
    + rewrite D', LD. exact D.
    + rewrite SC', LSC. exact SC.
Qed.

(** X5.  A paused countdown with [r] seconds left, whether fresh or
    interrupted, needs exactly [r] firings once it is started again: fewer
    leave the mode, the counters and the statistics alone, and firing number
    [r] moves to the next mode. *)
Theorem resumed_countdown_runs_out (now : Z) (s : Home) :
  isRunning s = false -> 1 <= remainingSeconds s ->
  let started := handleStartPause s in
  remainingSeconds started = remainingSeconds s /\
  (forall k : nat, Z.of_nat k < remainingSeconds s ->
     let sk := ticks now k started in
     mode sk = mode s /\ isRunning sk = true /\
     remainingSeconds sk = remainingSeconds s - Z.of_nat k /\
     completedFocusCount sk = completedFocusCount s /\
     totalMinutes sk = totalMinutes s /\
     localStorage sk = localStorage s) /\
  mode (ticks now (Z.to_nat (remainingSeconds s)) started)
  = nextMode (completedFocusCount s) (mode s) /\
  mode (ticks now (Z.to_nat (remainingSeconds s)) started) <> mode s /\
  isRunning (ticks now (Z.to_nat (remainingSeconds s)) started) = false.
Proof.
  intros Hp Hr started.
  assert (Hs : isRunning started = true).
  { subst started. unfold handleStartPause. simpl. rewrite Hp. reflexivity. }
  assert (Hrem : remainingSeconds started = remainingSeconds s).
  { subst started. unfold handleStartPause. simpl. rewrite Hp. reflexivity. }
  split; [exact Hrem |]. split.
  - intros k Hk sk. subst sk.
    rewrite ticks_before_zero; [| exact Hs | rewrite Hrem; exact Hk].
    subst started. unfold handleStartPause. simpl. rewrite Hp. simpl.
    repeat split; reflexivity.
  - destruct (runOut_fields now s Hp Hr) as (M & R & _).
    fold started in M, R. unfold runOut in M, R. fold started in M, R.
    split; [exact M |]. split; [| exact R].
    rewrite M. apply nextMode_changes.
Qed.

(** A running countdown whose interval was created in the current mode
    ends at the firing that counts its last second. *)
Lemma running_runs_out (now : Z) (x : Home) :
  isRunning x = true -> 1 <= remainingSeconds x ->
  scopeMode (intervalScope x) = mode x ->
  ticks now (Z.to_nat (remainingSeconds x)) x
  = resetEffect (onFinish now (withIsRunning false (withRemainingSeconds 1 x))).
Proof.
  intros Hr Hp Hm.
  replace (Z.to_nat (remainingSeconds x))
    with (S (Z.to_nat (remainingSeconds x - 1))) by lia.
  rewrite ticks_succ, ticks_before_zero; [| exact Hr | lia].
  replace (remainingSeconds x - Z.of_nat (Z.to_nat (remainingSeconds x - 1)))
    with 1 by lia.
  apply tick_finishes; [exact Hr | simpl; lia | exact Hm].
Qed.

(** What a row of edits leaves of a running focus countdown. *)
Lemma edits_keep_interval (s : Home) (es : list Event) (x : Home) :
  Forall isEdit es ->
  isRunning x = true /\ intervalScope x = render s /\ mode x = mode s /\
  completedFocusCount x = completedFocusCount s /\
  totalMinutes x = totalMinutes s /\ localStorage x = localStorage s /\
  positiveDurations (durations x) /\ 1 <= remainingSeconds x ->
  isRunning (run es x) = true /\ intervalScope (run es x) = render s /\
  mode (run es x) = mode s /\
  completedFocusCount (run es x) = completedFocusCount s /\
  totalMinutes (run es x) = totalMinutes s /\
  localStorage (run es x) = localStorage s /\
  positiveDurations (durations (run es x)) /\ 1 <= remainingSeconds (run es x).
Proof.
  intros Hes. revert x. unfold run.
  induction Hes as [| e es He _ IH]; intros x Hx; simpl; [exact Hx |].
  apply IH. destruct Hx as (R & I & M & C & T & L & D & P).
  pose proof (positiveDurations_step e x D) as D'.
  destruct e; simpl in He; try contradiction;
    refine (conj R (conj I (conj M (conj C (conj T (conj L (conj D' _)))))));
    [exact (positive_countdown _ (mode x) D') ..| exact P].
Qed.

(** X6.  The minutes and the category recorded for a focus interval are those
    in force when the timer was started: edits of the settings and of the
    category made while it runs restart the countdown or change the selection,
    but the interval's callback still adds the old focus length under the old
    category. *)
Theorem edits_while_running_are_not_recorded (now : Z) (s : Home)
  (es : list Event) :
  mode s = focus -> isRunning s = false -> 1 <= remainingSeconds s ->
  positiveDurations (durations s) ->
  Forall isEdit es ->
  let edited := run es (handleStartPause s) in
  let final := ticks now (Z.to_nat (remainingSeconds edited)) edited in
  completedFocusCount final = completedFocusCount s + 1 /\
  totalMinutes final = totalMinutes s + Durations.focus (durations s) /\
  localStorage final
  = recordCompletion now (selectedCategory s)
      (Durations.focus (durations s)) (localStorage s) /\
  mode final = nextMode (completedFocusCount s) focus /\
  isRunning final = false /\
  durations final = durations edited /\
  selectedCategory final = selectedCategory edited /\
  remainingSeconds final = dur (durations edited) (mode final) * 60.
Proof.
  intros Hm Hp Hr Hd Hes edited final.
  assert (Hstart : isRunning (handleStartPause s) = true /\
                   intervalScope (handleStartPause s) = render s /\
                   mode (handleStartPause s) = mode s /\
                   completedFocusCount (handleStartPause s)
                   = completedFocusCount s /\
                   totalMinutes (handleStartPause s) = totalMinutes s /\
                   localStorage (handleStartPause s) = localStorage s /\
                   positiveDurations (durations (handleStartPause s)) /\
                   1 <= remainingSeconds (handleStartPause s)).
  { unfold handleStartPause. simpl. rewrite Hp. simpl.
    refine (conj eq_refl (conj eq_refl (conj eq_refl (conj eq_refl
             (conj eq_refl (conj eq_refl (conj Hd Hr))))))). }
  destruct (edits_keep_interval s es _ Hes Hstart)
    as (R & I & M & C & T & L & D & P).
  fold edited in R, I, M, C, T, L, D, P.
  assert (Hsm : scopeMode (intervalScope edited) = mode edited).
  { rewrite I, M. reflexivity. }
  subst final. rewrite (running_runs_out now edited R P Hsm).
  unfold resetEffect, onFinish. simpl. rewrite I. simpl. rewrite Hm. simpl.
  rewrite C, T, L. repeat split; reflexivity.
Qed.

End TimerInvariants.

(** ** Further properties of the statistics block *)

Section CompletionFacts.
Context `{JsHost}.



(** X9.  Two kinds of label the cache cannot hold. Under the category
    ["__proto__"] an object cache stays as it is, and under a category that is
    neither an array index nor ["length"] a cache that is a JSON array stays
    as it is; in both cases the event is still logged with its minutes, so the
    cache misses what the log has. *)
Theorem completion_the_cache_cannot_hold (now : Z) (category0 : string)
  (minutes0 : Z) (st : Storage) :
  let st' := recordCompletion now category0 minutes0 st in
  (forall props,
     categoryMinutesItem st = Some (Json (JObj props)) ->
     trim category0 = "__proto__"%string ->
     lookup "__proto__" props = None ->
     categoryMinutesItem st' = categoryMinutesItem st /\
     cacheMinutes st' (trim category0) = 0 /\
     eventLog st'
     = pushEvent (eventLog st) (newEvent now (trim category0) minutes0)) /\
  (forall l,
     categoryMinutesItem st = Some (Json (JArr l)) ->
     arrayIndex (trim category0) = None ->
     trim category0 <> "length"%string ->
     categoryMinutesItem st' = categoryMinutesItem st /\
     cacheMinutes st' (trim category0) = 0 /\
     eventLog st'
     = pushEvent (eventLog st) (newEvent now (trim category0) minutes0)).
Proof.
  intros st'. subst st'. split.
  - intros props Hc Hp Hown. unfold recordCompletion, cacheMinutes, eventLog.
    rewrite Hc, Hp. simpl. rewrite setObjProp_proto by exact Hown.
    simpl. rewrite Hown. repeat split; reflexivity.
  - intros l Hc Hi Hl. unfold recordCompletion, cacheMinutes, eventLog.
    rewrite Hc. simpl. unfold setArrProp.
    destruct (String.eqb_spec (trim category0) "length"); [contradiction |].
    rewrite Hi. simpl.
    destruct (String.eqb_spec (trim category0) "length"); [contradiction |].
    rewrite Hi. repeat split; reflexivity.
Qed.

End CompletionFacts.

(** ** Properties of the category list *)

Section CategoryList.
Context `{JsHost}.

Lemma hasKey_In (key : string) (categories : list string) :
  hasKey key categories = true <-> In key (map labelKey categories).
Proof.
  unfold hasKey. rewrite existsb_exists, in_map_iff. split.
  - intros (c & Hc & He). exists c. split; [| exact Hc].
    apply String.eqb_eq. exact He.
  - intros (c & He & Hc). exists c. split; [exact Hc |].
    apply String.eqb_eq. exact He.
Qed.

Lemma hasKey_app (key : string) (a b : list string) :
  hasKey key (a ++ b) = hasKey key a || hasKey key b.
Proof. unfold hasKey. apply existsb_app. Qed.

Lemma hasKey_self (label : string) (categories : list string) :
  In label categories -> hasKey (labelKey label) categories = true.
Proof. intros Hi. apply hasKey_In. apply in_map. exact Hi. Qed.

Lemma NoDup_snoc {A : Type} (l : list A) (x : A) :
  NoDup l -> ~ In x l -> NoDup (l ++ [x]).
Proof.
  intros Hn Hx. apply NoDup_rev in Hn.
  rewrite <- (rev_involutive (l ++ [x])). apply NoDup_rev.
  rewrite rev_app_distr. simpl. constructor; [| exact Hn].
  intros Hi. apply Hx. apply in_rev. exact Hi.
Qed.

(** What creating a category does to the list. *)
Lemma handleCreateCategory_spec (newLabel : string) (prev : list string) :
  let next := handleCreateCategory newLabel prev in
  (trim newLabel = ""%string -> next = prev) /\
  (next = prev \/ next = prev ++ [trim newLabel]) /\
  (hasKey (labelKey newLabel) prev = true -> next = prev) /\
  (trim newLabel <> ""%string -> trim (trim newLabel) = trim newLabel ->
   hasKey (labelKey newLabel) next = true /\
   handleCreateCategory newLabel next = next /\
   (NoDup (map labelKey prev) -> NoDup (map labelKey next))).
Proof.
  intros next. subst next. unfold handleCreateCategory.
  fold (labelKey newLabel).
  split; [| split; [| split]].
  - intros ->. reflexivity.
  - destruct (String.eqb (trim newLabel) ""); [left; reflexivity |].
    destruct (hasKey (labelKey newLabel) prev); [left | right]; reflexivity.
  - intros ->. destruct (String.eqb (trim newLabel) ""); reflexivity.
  - intros Hne Hidem.
    destruct (String.eqb_spec (trim newLabel) "") as [E | _]; [contradiction |].
    assert (Hk : labelKey (trim newLabel) = labelKey newLabel).
    { unfold labelKey. rewrite Hidem. reflexivity. }
    destruct (hasKey (labelKey newLabel) prev) eqn:Ek.
    + rewrite Ek. split; [reflexivity |]. split; [reflexivity |].
      intros Hn. exact Hn.
    + assert (Hin : hasKey (labelKey newLabel) (prev ++ [trim newLabel]) = true).
      { rewrite hasKey_app. unfold hasKey at 2. simpl. rewrite Hk.
        rewrite String.eqb_refl. apply orb_true_r. }
      rewrite Hin. split; [reflexivity |]. split; [reflexivity |].
      intros Hn. rewrite map_app. simpl. rewrite Hk.
      apply NoDup_snoc; [exact Hn |].
      intros Hi. apply hasKey_In in Hi. congruence.
Qed.

(** X10.  Creating a category: a blank label changes nothing; otherwise the
    list only grows, by at most the trimmed label at its end, and not at all
    when a category with the same key is there. For a label whose trimmed text
    is stable under trimming, the key of the label is in the list afterwards,
    creating it again changes nothing, and a list with distinct keys keeps
    distinct keys. *)
Theorem create_category_once (newLabel : string) (prev : list string) :
  let next := handleCreateCategory newLabel prev in
  (trim newLabel = ""%string -> next = prev) /\
  (next = prev \/ next = prev ++ [trim newLabel]) /\
  (hasKey (labelKey newLabel) prev = true -> next = prev) /\
  (trim newLabel <> ""%string -> trim (trim newLabel) = trim newLabel ->
   hasKey (labelKey newLabel) next = true /\
   handleCreateCategory newLabel next = next /\
   (NoDup (map labelKey prev) -> NoDup (map labelKey next))).
Proof. exact (handleCreateCategory_spec newLabel prev). Qed.

Lemma ensureSelected_grows (sel : string) (categories : list string) :
  exists more, ensureSelected sel categories = categories ++ more.
Proof.
  unfold ensureSelected. destruct (String.eqb sel "").
  - exists []. symmetry. apply app_nil_r.
  - destruct (hasKey (labelKey sel) categories).
    + exists []. symmetry. apply app_nil_r.
    + exists [sel]. reflexivity.
Qed.

Lemma ensureSelected_listed (sel : string) (categories : list string) :
  sel <> ""%string ->
  hasKey (labelKey sel) (ensureSelected sel categories) = true.
Proof.
  intros Hne. unfold ensureSelected.
  destruct (String.eqb_spec sel "") as [E | _]; [contradiction |].
  destruct (hasKey (labelKey sel) categories) eqn:Ek; [exact Ek |].
  rewrite hasKey_app. unfold hasKey at 2. simpl.
  rewrite String.eqb_refl. apply orb_true_r.
Qed.

Lemma handleCreateCategory_grows (newLabel : string) (prev : list string) :
  exists more, handleCreateCategory newLabel prev = prev ++ more.
Proof.
  destruct (handleCreateCategory_spec newLabel prev) as (_ & [E | E] & _).
  - exists []. rewrite E. symmetry. apply app_nil_r.
  - exists [trim newLabel]. exact E.
Qed.

(** What the filter of the load effect keeps: labels with pairwise distinct
    keys, none of them seen before, and for every label of the input a label
    with its key unless that key was seen before. *)
Lemma uniqueLabels_spec (labels seen : list string) :
  NoDup (map labelKey (uniqueLabels seen labels)) /\
  (forall c, In c (uniqueLabels seen labels) ->
     In c labels /\ ~ In (labelKey c) seen) /\
  (forall c, In c labels ->
     In (labelKey c) seen \/
     hasKey (labelKey c) (uniqueLabels seen labels) = true).
Proof.
  revert seen. induction labels as [| label r IH]; intros seen; simpl.
  - split; [constructor |]. split; [intros c [] | intros c []].
  - destruct (existsb (String.eqb (toLocaleLowerCase_tr (trim label))) seen)
      eqn:Es.
    + destruct (IH seen) as (Hn & Hin & Hrep).
      split; [exact Hn |]. split.
      * intros c Hc. destruct (Hin c Hc) as (Hc1 & Hc2).
        split; [right; exact Hc1 | exact Hc2].
      * intros c [E | Hc]; [| apply Hrep; exact Hc].
        subst c. left. apply existsb_exists in Es.
        destruct Es as (k & Hk & He). apply String.eqb_eq in He.
        unfold labelKey. rewrite He. exact Hk.
    + destruct (IH (toLocaleLowerCase_tr (trim label) :: seen))
        as (Hn & Hin & Hrep).
      fold (labelKey label) in *.
      split; [| split].
      * simpl. constructor; [| exact Hn].
        intros Hi. apply in_map_iff in Hi. destruct Hi as (c & Ek & Hc).
        destruct (Hin c Hc) as (_ & Hns). apply Hns. left. symmetry. exact Ek.
      * intros c [E | Hc].
        -- subst c. split; [left; reflexivity |].
           intros Hi. assert (Ht : existsb (String.eqb (labelKey label)) seen = true).
           { apply existsb_exists. exists (labelKey label).
             split; [exact Hi | apply String.eqb_refl]. }
           congruence.
        -- destruct (Hin c Hc) as (Hc1 & Hc2).
           split; [right; exact Hc1 |].
           intros Hi. apply Hc2. right. exact Hi.
      * intros c [E | Hc].
        -- subst c. right. apply hasKey_self. left. reflexivity.
        -- destruct (Hrep c Hc) as [[E | Hs] | Hk].
           ++ right. apply hasKey_In. simpl. left. exact E.
           ++ left. exact Hs.
           ++ right. apply hasKey_In. simpl. right.
              apply hasKey_In. exact Hk.
Qed.

(** What the load effect makes of a stored array. *)
Lemma loadCategories_spec (parsed : list json) :
  let loaded := loadCategories (Some (Json (JArr parsed))) in
  NoDup (map labelKey loaded) /\
  (forall c, In c loaded -> In c (DEFAULT_CATEGORIES ++ onlyStrings parsed)) /\
  (forall c, In c (DEFAULT_CATEGORIES ++ onlyStrings parsed) ->
     hasKey (labelKey c) loaded = true).
Proof.
  intros loaded. subst loaded. unfold loadCategories.
  destruct (uniqueLabels_spec (DEFAULT_CATEGORIES ++ onlyStrings parsed) [])
    as (Hn & Hin & Hrep).
  split; [exact Hn |]. split.
  - intros c Hc. exact (proj1 (Hin c Hc)).
  - intros c Hc. destruct (Hrep c Hc) as [[] | Hk]. exact Hk.
Qed.

(** X11.  The categories loaded from a stored array: their keys are pairwise
    distinct, each of them is a default or a string of the array, and every
    default and every string of the array has a category with its key in the
    list. *)
Theorem loaded_categories_are_unique (parsed : list json) :
  let loaded := loadCategories (Some (Json (JArr parsed))) in
  NoDup (map labelKey loaded) /\
  (forall c, In c loaded -> In c (DEFAULT_CATEGORIES ++ onlyStrings parsed)) /\
  (forall c, In c (DEFAULT_CATEGORIES ++ onlyStrings parsed) ->
     hasKey (labelKey c) loaded = true).
Proof. exact (loadCategories_spec parsed). Qed.

Lemma loadCategories_has_default (it : option item) (c : string) :
  In c DEFAULT_CATEGORIES -> hasKey (labelKey c) (loadCategories it) = true.
Proof.
  intros Hc.
  assert (Hd : hasKey (labelKey c) DEFAULT_CATEGORIES = true)
    by (apply hasKey_self; exact Hc).
  destruct it as [[| | j] |]; try exact Hd.
  destruct j; try exact Hd.
  apply (proj2 (proj2 (loadCategories_spec items))).
  apply in_or_app. left. exact Hc.
Qed.

(** X12.  The selected category is always in the list, by its key: when the
    page has mounted, whatever texts were stored, and after every choice of a
    non-empty value in the category select. *)
Theorem selected_category_is_listed :
  (forall it stored, selectedListed (mountPicker it stored)) /\
  (forall v p,
     v <> ""%string -> selectedListed p ->
     selectedListed (handleSelectChange v p)).
Proof.
  split.
  - intros it stored. unfold selectedListed, mountPicker.
    assert (Hg : hasKey (labelKey "Genel") (loadCategories it) = true).
    { apply loadCategories_has_default. left. reflexivity. }
    destruct stored as [text |]; [| exact Hg].
    destruct (String.eqb_spec text "") as [E | Hne]; [exact Hg |].
    simpl. destruct (String.eqb_spec text "Genel") as [E | _].
    + subst text. exact Hg.
    + apply ensureSelected_listed. exact Hne.
  - intros v p Hne Hp. unfold selectedListed, handleSelectChange in *. simpl.
    destruct (String.eqb_spec v (Picker.selectedCategory p)) as [E | _].
    + subst v.
      destruct (existsb (String.eqb (Picker.selectedCategory p))
                  (Picker.categories p)); [exact Hp |].
      destruct (handleCreateCategory_grows (Picker.selectedCategory p)
                  (Picker.categories p)) as (more & ->).
      rewrite hasKey_app, Hp. reflexivity.
    + apply ensureSelected_listed. exact Hne.
Qed.

(** X13.  Choosing the same value twice in the category select leaves the
    state as the first choice did: a new label is added once. *)
Theorem selecting_twice_adds_once (v : string) (p : Picker.t) :
  trim (trim v) = trim v ->
  handleSelectChange v (handleSelectChange v p) = handleSelectChange v p.
Proof.
  intros Hidem.
  set (p1 := handleSelectChange v p).
  assert (Hsel : Picker.selectedCategory p1 = v) by reflexivity.
  assert (Hkey : trim v <> ""%string ->
                 existsb (String.eqb v) (Picker.categories p1) = false ->
                 hasKey (labelKey v) (Picker.categories p1) = true).
  { intros Hne Hex. subst p1. unfold handleSelectChange in *. simpl in *.
    set (created := if existsb (String.eqb v) (Picker.categories p)
                    then Picker.categories p
                    else handleCreateCategory v (Picker.categories p)) in *.
    assert (Hc : hasKey (labelKey v) created = true).
    { subst created.
      destruct (existsb (String.eqb v) (Picker.categories p)) eqn:Ee.
      - apply existsb_exists in Ee. destruct Ee as (c & Hc & He).
        apply String.eqb_eq in He. subst c. apply hasKey_self. exact Hc.
      - apply (handleCreateCategory_spec v (Picker.categories p)); assumption. }
    destruct (String.eqb v (Picker.selectedCategory p)); [exact Hc |].
    destruct (ensureSelected_grows v created) as (more & ->).
    rewrite hasKey_app, Hc. reflexivity. }
  unfold handleSelectChange at 1. rewrite Hsel, String.eqb_refl.
  destruct (existsb (String.eqb v) (Picker.categories p1)) eqn:Ee.
  - reflexivity.
  - destruct (String.eqb_spec (trim v) "") as [Eb | Hne].
    + rewrite (proj1 (handleCreateCategory_spec v (Picker.categories p1)) Eb).
      reflexivity.
    + rewrite (proj1 (proj2 (proj2 (handleCreateCategory_spec v
                                      (Picker.categories p1))))
                 (Hkey Hne eq_refl)).
      reflexivity.
Qed.

End CategoryList.

(** ** The clock text *)

Lemma toDecimal_digits (n : Z) :
  0 <= n ->
  exists d, d <> Decimal.Nil /\
            toDecimal n = DecimalString.NilEmpty.string_of_uint d /\
            Z.of_uint d = n.
Proof.
  intros Hn. destruct n as [| p | p]; [| | lia].
  - exists (Decimal.D0 Decimal.Nil). repeat split. discriminate.
  - pose proof (DecimalZ.of_to (Z.pos p)) as Hp. simpl in Hp.
    exists (Pos.to_uint p).
    assert (Hnil : Pos.to_uint p <> Decimal.Nil).
    { intros E. rewrite E in Hp. discriminate. }
    split; [exact Hnil |]. split; [| exact Hp].
    unfold toDecimal. simpl.
    destruct (Pos.to_uint p); [contradiction | reflexivity ..].
Qed.

Lemma padStart2_digits (d : Decimal.uint) :
  d <> Decimal.Nil ->
  exists d', padStart2 (DecimalString.NilEmpty.string_of_uint d)
             = DecimalString.NilEmpty.string_of_uint d' /\
             Z.of_uint d' = Z.of_uint d.
Proof.
  intros Hd.
  destruct d as [| r | r | r | r | r | r | r | r | r | r];
    try contradiction;
    (destruct r; [eexists (Decimal.D0 _); split; reflexivity
                 | eexists; split; reflexivity ..]).
Qed.

Lemma splitAtColon_digits (d : Decimal.uint) (rest : string) :
  splitAtColon (DecimalString.NilEmpty.string_of_uint d ++ String ":" rest)
  = Some (DecimalString.NilEmpty.string_of_uint d, rest).
Proof.
  induction d; simpl; try rewrite IHd; reflexivity.
Qed.

Lemma readDigits_digits (d : Decimal.uint) :
  readDigits (DecimalString.NilEmpty.string_of_uint d) = Some (Z.of_uint d).
Proof.
  unfold readDigits. rewrite DecimalString.NilEmpty.usu. reflexivity.
Qed.

(** X14.  For a countdown that is not negative, the clock text has the minutes
    before its first colon and the seconds, below 60, after it; so it reads
    back as the countdown, and two different countdowns never show the same
    text. *)
Theorem clock_text_reads_back :
  (forall t, 0 <= t ->
     exists m sec,
       splitAtColon (secondsToClock t) = Some (m, sec) /\
       readDigits m = Some (t / 60) /\
       readDigits sec = Some (t mod 60) /\
       readClock (secondsToClock t) = Some t) /\
  (forall a b, 0 <= a -> 0 <= b ->
     secondsToClock a = secondsToClock b -> a = b).
Proof.
  assert (Hread : forall t, 0 <= t ->
            exists m sec,
              splitAtColon (secondsToClock t) = Some (m, sec) /\
              readDigits m = Some (t / 60) /\
              readDigits sec = Some (t mod 60) /\
              readClock (secondsToClock t) = Some t).
  { intros t Ht.
    assert (Hq : 0 <= t / 60) by (apply Z.div_pos; lia).
    assert (Hrem : Z.rem t 60 = t mod 60) by (apply Z.rem_mod_nonneg; lia).
    assert (Hr : 0 <= t mod 60) by (apply Z.mod_pos_bound; lia).
    destruct (toDecimal_digits (t / 60) Hq) as (dm & Hdm & Em & Vm).
    destruct (toDecimal_digits (t mod 60) Hr) as (ds & Hds & Es & Vs).
    destruct (padStart2_digits dm Hdm) as (dm' & Pm & Wm).
    destruct (padStart2_digits ds Hds) as (ds' & Ps & Ws).
    assert (Hsplit : splitAtColon (secondsToClock t)
                     = Some (DecimalString.NilEmpty.string_of_uint dm',
                             DecimalString.NilEmpty.string_of_uint ds')).
    { unfold secondsToClock. rewrite Hrem, Em, Es, Pm, Ps.
      apply splitAtColon_digits. }
    exists (DecimalString.NilEmpty.string_of_uint dm'),
           (DecimalString.NilEmpty.string_of_uint ds').
    split; [exact Hsplit |].
    split; [rewrite readDigits_digits, Wm, Vm; reflexivity |].
    split; [rewrite readDigits_digits, Ws, Vs; reflexivity |].
    unfold readClock. rewrite Hsplit, !readDigits_digits, Wm, Vm, Ws, Vs.
    f_equal. pose proof (Z.div_mod t 60). lia. }
  split; [exact Hread |].
  intros a b Ha Hb E.
  destruct (Hread a Ha) as (_ & _ & _ & _ & _ & Ra).
  destruct (Hread b Hb) as (_ & _ & _ & _ & _ & Rb).
  rewrite E in Ra. congruence.
Qed.

(** ** The category select *)

Lemma prefix_refl (s : string) : String.prefix s s = true.
Proof.
  induction s as [| a s IH]; simpl; [reflexivity |].
  destruct (ascii_dec a a); [exact IH | contradiction].
Qed.

Lemma includes_refl (s : string) : includes s s = true.
Proof. destruct s; simpl; [reflexivity |].
  destruct (ascii_dec a a); [| contradiction].
  rewrite prefix_refl. reflexivity.
Qed.

Section CategorySelect.
Context `{JsHost}.

(** X15.  What the open select shows for the text typed into its search box.
    With nothing typed it lists every option; otherwise it lists options only,
    among them every option whose lower-case form is the lower-case form of
    the trimmed text. The item that adds the typed label is shown exactly when
    the trimmed text is not empty and no option has its lower-case form; then
    the trimmed text is not one of the options. So for a text that is not
    blank the select offers to add the label or lists an option that matches
    it. *)
Theorem select_lists_or_offers (query : string) (options : list string) :
  (toLocaleLowerCase_tr (trim query) = ""%string ->
   filtered query options = options) /\
  (forall o, In o (filtered query options) -> In o options) /\
  (forall o, In o options ->
     toLocaleLowerCase_tr o = toLocaleLowerCase_tr (trim query) ->
     In o (filtered query options)) /\
  (shouldShowCreate query options = true <->
   trim query <> ""%string /\
   forall o, In o options ->
     toLocaleLowerCase_tr o <> toLocaleLowerCase_tr (trim query)) /\
  (shouldShowCreate query options = true ->
   existsb (String.eqb (trim query)) options = false) /\
  (trim query <> ""%string ->
   shouldShowCreate query options = true \/
   exists o, In o (filtered query options) /\
             toLocaleLowerCase_tr o = toLocaleLowerCase_tr (trim query)).
Proof.
  assert (Hexact : forall o, In o options ->
            toLocaleLowerCase_tr o = toLocaleLowerCase_tr (trim query) ->
            In o (filtered query options)).
  { intros o Ho Ek. unfold filtered.
    destruct (String.eqb (toLocaleLowerCase_tr (trim query)) "");
      [exact Ho |].
    apply filter_In. split; [exact Ho |]. rewrite Ek. apply includes_refl. }
  assert (Hshow : shouldShowCreate query options = true <->
            trim query <> ""%string /\
            forall o, In o options ->
              toLocaleLowerCase_tr o <> toLocaleLowerCase_tr (trim query)).
  { unfold shouldShowCreate, hasExactMatch.
    rewrite andb_true_iff, !negb_true_iff. split.
    - intros (Hq & Hm). split.
      + apply String.eqb_neq. exact Hq.
      + intros o Ho Ek.
        assert (Ht : existsb
                       (fun o0 => String.eqb (toLocaleLowerCase_tr o0)
                                    (toLocaleLowerCase_tr (trim query)))
                       options = true).
        { apply existsb_exists. exists o. split; [exact Ho |].
          apply String.eqb_eq. exact Ek. }
        congruence.
    - intros (Hq & Hm). split.
      + apply String.eqb_neq. exact Hq.
      + destruct (existsb _ options) eqn:Ee; [| reflexivity].
        apply existsb_exists in Ee. destruct Ee as (o & Ho & Ek).
        apply String.eqb_eq in Ek. exfalso. exact (Hm o Ho Ek). }
  split; [| split; [| split; [| split; [| split]]]].
  - intros Hq. unfold filtered. rewrite Hq. reflexivity.
  - intros o Ho. unfold filtered in Ho.
    destruct (String.eqb (toLocaleLowerCase_tr (trim query)) "");
      [exact Ho |].
    apply filter_In in Ho. exact (proj1 Ho).
  - exact Hexact.
  - exact Hshow.
  - intros Hs. apply Hshow in Hs. destruct Hs as (_ & Hm).
    destruct (existsb (String.eqb (trim query)) options) eqn:Ee;
      [| reflexivity].
    apply existsb_exists in Ee. destruct Ee as (o & Ho & Ek).
    apply String.eqb_eq in Ek. subst o. exfalso. exact (Hm _ Ho eq_refl).
  - intros Hq.
    destruct (shouldShowCreate query options) eqn:Es; [left; reflexivity |].
    right. unfold shouldShowCreate, hasExactMatch in Es.
    apply andb_false_iff in Es. destruct Es as [Es | Es].
    + apply negb_false_iff, String.eqb_eq in Es. contradiction.
    + apply negb_false_iff, existsb_exists in Es.
      destruct Es as (o & Ho & Ek). apply String.eqb_eq in Ek.
      exists o. split; [apply Hexact; assumption | exact Ek].
Qed.

End CategorySelect.

(** ** Further properties of the statistics page *)

(** X16.  The day shown by the daily view is never after today: from today, no
    row of presses of the two buttons leads to a positive offset; the next
    button undoes the previous button, and does nothing on today. *)
Theorem day_offset_never_positive :
  (forall presses d, d <= 0 ->
     fold_left (fun acc b => pressDay b acc) presses d <= 0) /\
  (forall d, d <= 0 -> nextDay (previousDay d) = d) /\
  nextDay 0 = 0.
Proof.
  split; [| split; [| reflexivity]].
  - intros presses. induction presses as [| b presses IH]; intros d Hd; simpl.
    + exact Hd.
    + apply IH. destruct b; unfold pressDay, previousDay, nextDay; lia.
  - intros d Hd. unfold nextDay, previousDay. lia.
Qed.

Lemma insertSorted_descending (x : string * Z) (l : list (string * Z)) :
  descending l ->
  descending (insertSorted (fun a b => snd b - snd a) x l).
Proof.
  unfold descending. induction 1 as [| y r Hr IH Hy]; simpl.
  - constructor; constructor.
  - destruct (Z.ltb_spec 0 (snd y - snd x)) as [Hlt | Hge].
    + constructor; [exact IH |].
      apply (Permutation_Forall (Permutation_sym (insertSorted_perm _ x r))).
      constructor; [lia | exact Hy].
    + constructor; [constructor; assumption |].
      constructor; [lia |].
      apply (Forall_impl _ (P := fun b => snd b <= snd y)); [| exact Hy].
      intros b Hb. lia.
Qed.

(** X17.  Every row of the weekly view lists its categories by minutes, the
    largest first, whatever the calendar and the events. *)
Theorem weekly_breakdown_is_descending `{Zone} (now : Z)
  (events : list FocusEvent) (row : DayRow) :
  In row (fst (weeklyTotals now events)) -> descending (breakdown row).
Proof.
  unfold weeklyTotals.
  destruct (fold_left _ events _) as [days totalsByCat]. simpl.
  intros Hin. apply in_map_iff in Hin. destruct Hin as (row0 & <- & _).
  simpl. unfold sortBy.
  induction (breakdown row0) as [| x r IH]; simpl.
  - constructor.
  - apply insertSorted_descending. exact IH.
Qed.

Section DailyView.
Context `{Zone}.
Variable now : Z.
Variable dayOffset : Z.

Lemma minutesBetweenFor_snoc (events : list FocusEvent) (ev : FocusEvent)
  (from upto : Z) (label : string) :
  minutesBetweenFor (events ++ [ev]) from upto label
  = minutesBetweenFor events from upto label
    + (if (from <=? ts ev) && (ts ev <? upto) && String.eqb (category ev) label
       then minutesOrZero (minutes ev) else 0).
Proof. unfold minutesBetweenFor. rewrite sumIf_app, sumIf_one. reflexivity. Qed.

(** The loop over the events adds up, by category, the events inside the
    window. *)
Lemma daily_fold (from upto : Z) (events done : list FocusEvent)
  (acc : list (string * Z)) :
  NoDup (map fst acc) ->
  (forall label, minutesIn label acc = minutesBetweenFor done from upto label) ->
  let totals :=
    fold_left
      (fun totalsByCat ev =>
         if (from <=? ts ev) && (ts ev <? upto)
         then addMinutes (category ev) (minutesOrZero (minutes ev)) totalsByCat
         else totalsByCat)
      events acc in
  NoDup (map fst totals) /\
  (forall label,
     minutesIn label totals = minutesBetweenFor (done ++ events) from upto label).
Proof.
  revert done acc. induction events as [| ev events IH];
    intros done acc Hn Hacc; cbn [fold_left].
  - rewrite app_nil_r. split; assumption.
  - replace (done ++ ev :: events) with ((done ++ [ev]) ++ events)
      by (rewrite <- app_assoc; reflexivity).
    apply IH.
    + destruct ((from <=? ts ev) && (ts ev <? upto)); [| exact Hn].
      apply mapSet_keys_NoDup. exact Hn.
    + intros label. rewrite minutesBetweenFor_snoc.
      destruct ((from <=? ts ev) && (ts ev <? upto)); cbn [andb].
      * rewrite minutesIn_addMinutes, Hacc.
        rewrite (String.eqb_sym label). reflexivity.
      * rewrite Hacc. lia.
Qed.

(** The daily aggregate counts the events from the start of the selected
    day up to the instant [setDate] gives for the next day. *)
Lemma daily_window (events : list FocusEvent) :
  NoDup (map fst (dailyTotalsByCategory now dayOffset events)) /\
  (forall label,
     minutesIn label (dailyTotalsByCategory now dayOffset events)
     = minutesBetweenFor events (dayStart (dayOf now + dayOffset))
         (setDate (dayStart (dayOf now + dayOffset)) 1) label).
Proof.
  apply (daily_fold _ _ events [] []); [constructor | reflexivity].
Qed.

Lemma sumIf_ext (p q : FocusEvent -> bool) (events : list FocusEvent) :
  (forall ev, p ev = q ev) -> sumIf p events = sumIf q events.
Proof.
  intros Hpq. unfold sumIf. induction events as [| ev r IH]; simpl;
    [reflexivity |]. rewrite IH, Hpq. reflexivity.
Qed.

(** In a consistent calendar the instants from the start of a day up to the
    start of the next are the instants of that day. *)
Lemma day_window (d t : Z) :
  lawfulZone ->
  (dayStart d <=? t) && (t <? dayStart (d + 1)) = (dayOf t =? d).
Proof.
  intros lawful.
  destruct (Z.eqb_spec (dayOf t) d) as [E | E].
  - apply lawful in E.
    apply andb_true_iff. split; [apply Z.leb_le | apply Z.ltb_lt]; lia.
  - apply andb_false_iff.
    destruct (Z.leb_spec (dayStart d) t) as [Hlo | Hlo]; [| left; reflexivity].
    destruct (Z.ltb_spec t (dayStart (d + 1))) as [Hhi | Hhi];
      [| right; reflexivity].
    exfalso. apply E. apply lawful. lia.
Qed.

(** The daily aggregate of a day after which the next day begins at the same
    time of day. *)
Lemma daily_counted (events : list FocusEvent) :
  lawfulZone ->
  setDate (dayStart (dayOf now + dayOffset)) 1
  = dayStart (dayOf now + dayOffset + 1) ->
  forall label,
    minutesIn label (dailyTotalsByCategory now dayOffset events)
    = minutesOnFor events (dayOf now + dayOffset) label.
Proof.
  intros lawful Hend label.
  rewrite (proj2 (daily_window events) label), Hend.
  unfold minutesBetweenFor, minutesOnFor. apply sumIf_ext.
  intros ev. rewrite day_window by exact lawful. reflexivity.
Qed.


End DailyView.

(** X20.  In a week without a clock change, each row of the weekly view holds
    for every category what the daily view of that day holds, the day after
    which begins at the instant [setDate] gives for one day later. *)
Theorem weekly_row_is_the_daily_view `{Zone} (now : Z)
  (events : list FocusEvent) (i : nat) (row : DayRow) (label : string) :
  lawfulZone -> wholeDays now ->
  setDate (dayStart (mondayOf now + Z.of_nat i)) 1
  = dayStart (mondayOf now + Z.of_nat i + 1) ->
  nth_error (fst (weeklyTotals now events)) i = Some row ->
  minutesIn label (breakdown row)
  = minutesIn label
      (dailyTotalsByCategory now (mondayOf now + Z.of_nat i - dayOf now) events).
Proof.
  intros lawful whole Hend Hrow.
  destruct (weekly_rows_counted now lawful whole events) as (_ & Hlen & Hrows & _).
  destruct (Hrows i row Hrow) as (_ & _ & _ & Hb).
  rewrite Hb.
  rewrite (daily_counted now (mondayOf now + Z.of_nat i - dayOf now) events
             lawful).
  - f_equal. lia.
  - replace (dayOf now + (mondayOf now + Z.of_nat i - dayOf now))
      with (mondayOf now + Z.of_nat i) by lia.
    exact Hend.
Qed.

Lemma daily_adds_inside `{Zone} (now dayOffset : Z)
  (events : list FocusEvent) (ev : FocusEvent) :
  dayStart (dayOf now + dayOffset) <= ts ev
  < setDate (dayStart (dayOf now + dayOffset)) 1 ->
  minutesIn (category ev) (dailyTotalsByCategory now dayOffset (events ++ [ev]))
  = minutesIn (category ev) (dailyTotalsByCategory now dayOffset events)
    + minutesOrZero (minutes ev).
Proof.
  intros Hin.
  rewrite !(proj2 (daily_window now dayOffset _)), minutesBetweenFor_snoc.
  replace (dayStart (dayOf now + dayOffset) <=? ts ev) with true
    by (symmetry; apply Z.leb_le; lia).
  replace (ts ev <? setDate (dayStart (dayOf now + dayOffset)) 1) with true
    by (symmetry; apply Z.ltb_lt; lia).
  rewrite String.eqb_refl. reflexivity.
Qed.

(** X23.  The daily view reaches past the selected day when the next day
    begins before the instant [setDate] gives, as it does when the selected
    day begins at 01:00 because summer time began at midnight: an event
    between the start of the next day and that instant is not an event of
    the selected day, and the daily view of the selected day adds its
    minutes all the same. *)
Theorem daily_view_reaches_past_midnight `{Zone} (now dayOffset : Z)
  (events : list FocusEvent) (ev : FocusEvent) :
  lawfulZone ->
  dayStart (dayOf now + dayOffset + 1) <= ts ev
  < setDate (dayStart (dayOf now + dayOffset)) 1 ->
  dayStart (dayOf now + dayOffset) <= dayStart (dayOf now + dayOffset + 1) ->
  dayOf (ts ev) <> dayOf now + dayOffset /\
  minutesIn (category ev) (dailyTotalsByCategory now dayOffset (events ++ [ev]))
  = minutesIn (category ev) (dailyTotalsByCategory now dayOffset events)
    + minutesOrZero (minutes ev).
Proof.
  intros lawful Hin Hle. split.
  - intros Hd. apply lawful in Hd. lia.
  - apply daily_adds_inside. lia.
Qed.

(** ** Reloading the page *)

Section Reload.
Context `{JsHost}.

Lemma onlyStrings_JStr (l : list string) : onlyStrings (map JStr l) = l.
Proof. induction l as [| x r IH]; simpl; [reflexivity | now rewrite IH]. Qed.

Lemma existsb_eqb_In (k : string) (seen : list string) :
  existsb (String.eqb k) seen = true <-> In k seen.
Proof.
  rewrite existsb_exists. split.
  - intros (x & Hx & He). apply String.eqb_eq in He. now subst x.
  - intros Hi. exists k. split; [exact Hi | apply String.eqb_refl].
Qed.

(** Labels with distinct keys, none of them seen, pass the filter of the
    load effect, and their keys are seen from then on. *)
Lemma uniqueLabels_app_fresh (a b seen : list string) :
  NoDup (map labelKey a) ->
  (forall c, In c a -> ~ In (labelKey c) seen) ->
  uniqueLabels seen (a ++ b)
  = a ++ uniqueLabels (rev (map labelKey a) ++ seen) b.
Proof.
  revert seen. induction a as [| x a IH]; intros seen Hn Hf.
  - reflexivity.
  - cbn [app uniqueLabels]. fold (labelKey x).
    destruct (existsb (String.eqb (labelKey x)) seen) eqn:Es.
    + apply existsb_eqb_In in Es. exfalso. apply (Hf x); [now left | exact Es].
    + cbn [map] in Hn. inversion Hn as [| k ks Hk Hn']; subst.
      rewrite (IH (labelKey x :: seen) Hn').
      * cbn [map rev]. rewrite <- app_assoc. reflexivity.
      * intros c Hc [E | Hi].
        -- apply Hk. rewrite E. apply in_map. exact Hc.
        -- apply (Hf c); [now right | exact Hi].
Qed.

(** Labels whose keys were all seen are dropped by the filter. *)
Lemma uniqueLabels_app_seen (a b seen : list string) :
  (forall c, In c a -> In (labelKey c) seen) ->
  uniqueLabels seen (a ++ b) = uniqueLabels seen b.
Proof.
  induction a as [| x a IH]; intros Hs; [reflexivity |].
  cbn [app uniqueLabels]. fold (labelKey x).
  destruct (existsb (String.eqb (labelKey x)) seen) eqn:Es.
  - apply IH. intros c Hc. apply Hs. now right.
  - exfalso. assert (Hi : In (labelKey x) seen) by (apply Hs; now left).
    apply existsb_eqb_In in Hi. congruence.
Qed.

Lemma NoDup_app_disjoint {A : Type} (l1 l2 : list A) :
  NoDup (l1 ++ l2) -> forall a, In a l1 -> ~ In a l2.
Proof.
  induction l1 as [| x l1 IH]; intros Hn a Ha; [destruct Ha |].
  cbn [app] in Hn. inversion Hn as [| y ys Hx Hn']; subst.
  destruct Ha as [E | Ha].
  - subst a. intros Hi. apply Hx. apply in_or_app. now right.
  - apply IH; assumption.
Qed.

Lemma loadCategories_stored (categories : list string) :
  startsWithDefaults categories ->
  loadCategories (storedCategories categories) = categories.
Proof.
  intros (Hn & rest & E). subst categories.
  unfold storedCategories, loadCategories. rewrite onlyStrings_JStr.
  rewrite map_app in Hn.
  pose proof (NoDup_app_remove_r _ _ Hn) as Hd.
  pose proof (NoDup_app_remove_l _ _ Hn) as Hr.
  rewrite uniqueLabels_app_fresh; [| exact Hd | intros c _ []].
  f_equal. rewrite uniqueLabels_app_seen.
  - rewrite <- (app_nil_r rest) at 1.
    rewrite uniqueLabels_app_fresh; [cbn [uniqueLabels]; apply app_nil_r
                                    | exact Hr |].
    intros c Hc Hi. rewrite app_nil_r in Hi. apply in_rev in Hi.
    apply (NoDup_app_disjoint _ _ Hn (labelKey c) Hi).
    apply in_map. exact Hc.
  - intros c Hc. rewrite app_nil_r. apply -> in_rev. apply in_map. exact Hc.
Qed.

Lemma loadCategories_startsWithDefaults (it : option item) :
  NoDup (map labelKey DEFAULT_CATEGORIES) ->
  startsWithDefaults (loadCategories it).
Proof.
  intros Hd.
  assert (Hdef : startsWithDefaults DEFAULT_CATEGORIES).
  { split; [exact Hd |]. exists []. symmetry. apply app_nil_r. }
  destruct it as [[| | j] |]; try exact Hdef.
  destruct j; try exact Hdef.
  split.
  - exact (proj1 (loadCategories_spec items)).
  - unfold loadCategories.
    rewrite uniqueLabels_app_fresh; [| exact Hd | intros c _ []].
    eexists. reflexivity.
Qed.

Lemma ensureSelected_startsWithDefaults (sel : string) (categories : list string) :
  startsWithDefaults categories ->
  startsWithDefaults (ensureSelected sel categories).
Proof.
  intros (Hn & rest & E). unfold ensureSelected.
  destruct (String.eqb sel ""); [split; [exact Hn | exists rest; exact E] |].
  destruct (hasKey (labelKey sel) categories) eqn:Ek;
    [split; [exact Hn | exists rest; exact E] |].
  split.
  - rewrite map_app. cbn [map]. apply NoDup_snoc; [exact Hn |].
    intros Hi. apply hasKey_In in Hi. congruence.
  - exists (rest ++ [sel]). rewrite E, app_assoc. reflexivity.
Qed.

Lemma handleCreateCategory_startsWithDefaults (v : string)
  (categories : list string) :
  trim (trim v) = trim v ->
  startsWithDefaults categories ->
  startsWithDefaults (handleCreateCategory v categories).
Proof.
  intros Ht (Hn & rest & E).
  destruct (handleCreateCategory_spec v categories) as (Hb & Hg & _ & Hc).
  destruct (String.eqb_spec (trim v) "") as [Eb | Eb].
  - rewrite (Hb Eb). split; [exact Hn | exists rest; exact E].
  - split.
    + exact (proj2 (proj2 (Hc Eb Ht)) Hn).
    + destruct Hg as [Eg | Eg]; rewrite Eg.
      * exists rest. exact E.
      * exists (rest ++ [trim v]). rewrite E, app_assoc. reflexivity.
Qed.

Lemma reload_spec :
  NoDup (map labelKey DEFAULT_CATEGORIES) ->
  (forall it stored,
     startsWithDefaults (Picker.categories (mountPicker it stored))) /\
  (forall v p,
     trim (trim v) = trim v ->
     startsWithDefaults (Picker.categories p) ->
     startsWithDefaults (Picker.categories (handleSelectChange v p))) /\
  (forall p,
     startsWithDefaults (Picker.categories p) ->
     selectedListed p ->
     Picker.selectedCategory p <> ""%string ->
     mountPicker (storedCategories (Picker.categories p))
       (Some (Picker.selectedCategory p)) = p).
Proof.
  intros Hd. split; [| split].
  - intros it stored. unfold mountPicker.
    pose proof (loadCategories_startsWithDefaults it Hd) as Hl.
    destruct stored as [text |]; [| exact Hl].
    destruct (String.eqb text ""); [exact Hl |]. cbn [Picker.categories].
    destruct (String.eqb text "Genel"); [exact Hl |].
    apply ensureSelected_startsWithDefaults. exact Hl.
  - intros v p Ht Hp. unfold handleSelectChange. cbn [Picker.categories].
    assert (Hc : startsWithDefaults
                   (if existsb (String.eqb v) (Picker.categories p)
                    then Picker.categories p
                    else handleCreateCategory v (Picker.categories p))).
    { destruct (existsb (String.eqb v) (Picker.categories p)); [exact Hp |].
      apply handleCreateCategory_startsWithDefaults; assumption. }
    destruct (String.eqb v (Picker.selectedCategory p)); [exact Hc |].
    apply ensureSelected_startsWithDefaults. exact Hc.
  - intros [cats sel] Hp Hs Hne. cbn [Picker.categories Picker.selectedCategory] in *.
    unfold mountPicker. rewrite (loadCategories_stored cats Hp).
    destruct (String.eqb_spec sel "") as [E | _]; [contradiction |].
    destruct (String.eqb sel "Genel"); [reflexivity |].
    unfold ensureSelected.
    destruct (String.eqb_spec sel "") as [E | _]; [contradiction |].
    unfold selectedListed in Hs. cbn [Picker.categories Picker.selectedCategory] in Hs.
    rewrite Hs. reflexivity.
Qed.

(** X21.  The categories survive a reload.  On a host on which the four
    default categories have distinct keys, the list of the mounted page
    always starts with the defaults and holds no two labels with the same
    key, whatever was stored and whatever is chosen in the select; and such
    a list, stored by the persist effect together with a selected category
    that is listed and not empty, is read back by the load effect as it
    was. *)
Theorem reload_keeps_the_categories :
  NoDup (map labelKey DEFAULT_CATEGORIES) ->
  (forall it stored,
     startsWithDefaults (Picker.categories (mountPicker it stored))) /\
  (forall v p,
     trim (trim v) = trim v ->
     startsWithDefaults (Picker.categories p) ->
     startsWithDefaults (Picker.categories (handleSelectChange v p))) /\
  (forall p,
     startsWithDefaults (Picker.categories p) ->
     selectedListed p ->
     Picker.selectedCategory p <> ""%string ->
     mountPicker (storedCategories (Picker.categories p))
       (Some (Picker.selectedCategory p)) = p).
Proof. exact reload_spec. Qed.

Lemma keepLast_map {A B : Type} (f : A -> B) (n : nat) (l : list A) :
  keepLast n (map f l) = map f (keepLast n l).
Proof. unfold keepLast. rewrite length_map. apply skipn_map. Qed.

Lemma recordAll_log (cs : list Completion) :
  (exists props,
     loadMap (categoryMinutesItem (recordAll cs emptyStorage)) = JObj props) /\
  eventLog (recordAll cs emptyStorage) = keepLast 1000 (map eventOf cs).
Proof.
  induction cs as [| c cs IH] using rev_ind.
  - split; [exists []; reflexivity | reflexivity].
  - destruct IH as ((props & Hmap) & Hlog).
    rewrite recordAll_snoc, map_app. cbn [map].
    unfold recordCompletion. rewrite Hmap. cbn [storeLabel].
    cbv iota beta zeta. unfold eventLog in *.
    cbn [categoryMinutesItem focusEventsItem loadMap loadEvents].
    split.
    + eexists. reflexivity.
    + rewrite Hlog, pushEvent_keepLast. apply keepLast_snoc.
Qed.

(** X22.  What the timer page logs, the statistics page reads.  From an
    empty store, after any completed focus intervals, the stored log read
    at the type of the statistics page is the last 1000 completions, oldest
    first, each with its time, its trimmed category and its minutes: no
    entry of the log fails to have that type. *)
Theorem statistics_page_reads_the_log (cs : list Completion) :
  map asFocusEvent (loadEvents (focusEventsItem (recordAll cs emptyStorage)))
  = map Some (keepLast 1000 (map focusEventOf cs)).
Proof.
  pose proof (proj2 (recordAll_log cs)) as Hlog. unfold eventLog in Hlog.
  rewrite Hlog, !keepLast_map. f_equal. f_equal.
  rewrite !map_map. apply map_ext. intros c. reflexivity.
Qed.

End Reload.

(** ** The further properties at concrete inputs *)

Lemma countdown_in_range_after_a_run :
  let s0 := mount emptyStorage in
  let es := [StartPause; Tick 0; ChangeShort (Typed 3); Skip] in
  (isRunning s0 = false /\ positiveDurations (durations s0) /\
   countdownInRange s0) /\
  countdownInRange (@run refHost es s0).
Proof.
  intros s0 es.
  assert (Hp : isRunning s0 = false) by reflexivity.
  assert (Hd : positiveDurations (durations s0)).
  { unfold positiveDurations. simpl. lia. }
  assert (Hc : countdownInRange s0).
  { unfold countdownInRange. simpl. lia. }
  split; [exact (conj Hp (conj Hd Hc)) |].
  exact (proj1 (@countdown_stays_in_range refHost s0 es Hp Hd Hc)).
Defined.

Lemma reset_keeps_statistics :
  isUserEvent Reset /\
  totalMinutes (@step refHost Reset (mount emptyStorage)) = 0.
Proof.
  split; [exact I |].
  exact (proj1 (proj2 (@user_events_keep_statistics refHost Reset
                         (mount emptyStorage) I))).
Defined.

Lemma counters_after_a_run :
  let s0 := mount emptyStorage in
  let es := [StartPause; Tick 0; Skip; Reset] in
  (withinLimits (durations s0) /\
   withinLimits (scopeDurations (intervalScope s0))) /\
  0 <= completedFocusCount (@run refHost es s0) - completedFocusCount s0.
Proof.
  intros s0 es.
  assert (Hw : withinLimits DEFAULT_DURATIONS).
  { unfold withinLimits. simpl. lia. }
  split; [exact (conj Hw Hw) |].
  exact (proj1 (@counters_grow_together refHost s0 es Hw Hw)).
Defined.

(** Four focus intervals of 25 minutes in a row: 100 minutes. *)
Lemma four_focus_intervals :
  positiveDurations (durations (mount emptyStorage)) /\
  totalMinutes (@afterFocus refHost 0 (fun _ => false) 3 (mount emptyStorage))
  = 0 + (Z.of_nat 3 + 1) * 25.
Proof.
  assert (Hd : positiveDurations (durations (mount emptyStorage))).
  { unfold positiveDurations. simpl. lia. }
  split; [exact Hd |].
  assert (Hr : 1 <= remainingSeconds (mount emptyStorage)) by (simpl; lia).
  exact (proj1 (proj2 (@focus_row_totals refHost 0 (fun _ => false)
                         (mount emptyStorage) 3 eq_refl eq_refl Hr Hd))).
Defined.

Lemma resumed_with_five_minutes_left :
  let s := withRemainingSeconds 300 (mount emptyStorage) in
  (isRunning s = false /\ 1 <= remainingSeconds s) /\
  mode (@ticks refHost 0 (Z.to_nat (remainingSeconds s)) (handleStartPause s))
  = nextMode (completedFocusCount s) (mode s).
Proof.
  intros s.
  assert (Hr : 1 <= remainingSeconds s) by (simpl; lia).
  split; [exact (conj eq_refl Hr) |].
  exact (proj1 (proj2 (proj2 (@resumed_countdown_runs_out refHost 0 s
                                eq_refl Hr)))).
Defined.

Lemma edited_while_running :
  let s := mount emptyStorage in
  let es := [ChangeFocus (Typed 50); SelectCategory "Okuma"] in
  (positiveDurations (durations s) /\ Forall isEdit es) /\
  let edited := @run refHost es (handleStartPause s) in
  totalMinutes
    (@ticks refHost 0 (Z.to_nat (remainingSeconds edited)) edited)
  = totalMinutes s + Durations.focus (durations s).
Proof.
  intros s es.
  assert (Hd : positiveDurations (durations s)).
  { unfold positiveDurations. simpl. lia. }
  assert (He : Forall isEdit es) by (repeat constructor).
  assert (Hr : 1 <= remainingSeconds s) by (simpl; lia).
  split; [exact (conj Hd He) |].
  exact (proj1 (proj2 (@edits_while_running_are_not_recorded refHost 0 s es
                         eq_refl eq_refl Hr Hd He))).
Defined.



Lemma completion_on_an_array_cache :
  let st := {| categoryMinutesItem := Some (Json (JArr [JNum 1]));
               focusEventsItem := None |} in
  (arrayIndex (@trim refHost "Genel") = None /\
   @trim refHost "Genel" <> "length"%string) /\
  categoryMinutesItem (@recordCompletion refHost 9 "Genel" 25 st)
  = categoryMinutesItem st.
Proof.
  intros st.
  assert (Hi : arrayIndex (@trim refHost "Genel") = None) by reflexivity.
  assert (Hl : @trim refHost "Genel" <> "length"%string) by discriminate.
  split; [exact (conj Hi Hl) |].
  exact (proj1 (proj2 (@completion_the_cache_cannot_hold refHost 9 "Genel" 25
                         st) [JNum 1] eq_refl Hi Hl)).
Defined.

Lemma kodlama_is_created_once :
  let prev := ["Genel"%string] in
  (@trim refHost " Kodlama " <> ""%string /\
   @trim refHost (@trim refHost " Kodlama ") = @trim refHost " Kodlama ") /\
  @handleCreateCategory refHost " Kodlama "
    (@handleCreateCategory refHost " Kodlama " prev)
  = @handleCreateCategory refHost " Kodlama " prev.
Proof.
  intros prev.
  assert (Hn : @trim refHost " Kodlama " <> ""%string) by discriminate.
  assert (Ht : @trim refHost (@trim refHost " Kodlama ")
               = @trim refHost " Kodlama ") by reflexivity.
  split; [exact (conj Hn Ht) |].
  exact (proj1 (proj2 (proj2 (proj2 (proj2
           (@create_category_once refHost " Kodlama " prev))) Hn Ht))).
Defined.

Lemma loaded_list_with_a_duplicate :
  let parsed := [JStr "genel"; JStr "Kodlama"; JNum 3] in
  In "Kodlama"%string (DEFAULT_CATEGORIES ++ onlyStrings parsed) /\
  @hasKey refHost (@labelKey refHost "Kodlama")
    (@loadCategories refHost (Some (Json (JArr parsed)))) = true.
Proof.
  intros parsed.
  assert (Hi : In "Kodlama"%string (DEFAULT_CATEGORIES ++ onlyStrings parsed)).
  { simpl. tauto. }
  split; [exact Hi |].
  exact (proj2 (proj2 (@loaded_categories_are_unique refHost parsed))
           "Kodlama"%string Hi).
Defined.

Lemma kodlama_selected_is_listed :
  let p := @mountPicker refHost None None in
  ("Kodlama"%string <> ""%string /\ @selectedListed refHost p) /\
  @selectedListed refHost (@handleSelectChange refHost "Kodlama" p).
Proof.
  intros p.
  assert (Hn : "Kodlama"%string <> ""%string) by discriminate.
  assert (Hp : @selectedListed refHost p).
  { exact (proj1 (@selected_category_is_listed refHost) None None). }
  split; [exact (conj Hn Hp) |].
  exact (proj2 (@selected_category_is_listed refHost) "Kodlama"%string p Hn Hp).
Defined.

Lemma kodlama_selected_twice :
  let p := @mountPicker refHost None None in
  @trim refHost (@trim refHost "Kodlama") = @trim refHost "Kodlama" /\
  @handleSelectChange refHost "Kodlama" (@handleSelectChange refHost "Kodlama" p)
  = @handleSelectChange refHost "Kodlama" p.
Proof.
  intros p.
  assert (Ht : @trim refHost (@trim refHost "Kodlama") = @trim refHost "Kodlama")
    by reflexivity.
  split; [exact Ht |].
  exact (@selecting_twice_adds_once refHost "Kodlama"%string p Ht).
Defined.

Lemma clock_of_25_minutes :
  0 <= 1500 /\ readClock (secondsToClock 1500) = Some 1500.
Proof.
  assert (Ht : 0 <= 1500) by lia.
  split; [exact Ht |].
  destruct (proj1 clock_text_reads_back 1500 Ht) as (m & sec & _ & _ & _ & Hr).
  exact Hr.
Defined.

Lemma select_offers_kodlama :
  let options := ["Genel"; "Okuma"]%string in
  (@trim refHost "Kod" <> ""%string /\
   forall o, In o options ->
     @toLocaleLowerCase_tr refHost o
     <> @toLocaleLowerCase_tr refHost (@trim refHost "Kod")) /\
  @shouldShowCreate refHost "Kod" options = true.
Proof.
  intros options.
  assert (Hq : @trim refHost "Kod" <> ""%string) by discriminate.
  assert (Hm : forall o, In o options ->
             @toLocaleLowerCase_tr refHost o
             <> @toLocaleLowerCase_tr refHost (@trim refHost "Kod")).
  { intros o [E | [E | []]]; subst o; discriminate. }
  split; [exact (conj Hq Hm) |].
  exact (proj2 (proj1 (proj2 (proj2 (proj2
           (@select_lists_or_offers refHost "Kod" options)))))
           (conj Hq Hm)).
Defined.

Lemma two_days_back_and_forth :
  0 <= 0 /\
  fold_left (fun acc b => pressDay b acc) [Previous; Previous; Next; Next; Next] 0
  <= 0.
Proof.
  assert (H0 : 0 <= 0) by lia.
  split; [exact H0 |].
  exact (proj1 day_offset_never_positive
           [Previous; Previous; Next; Next; Next] 0 H0).
Defined.

Lemma saturday_breakdown_is_descending :
  let events := [ {| ts := 1792836000000; category := "Okuma"; minutes := 25 |};
                  {| ts := 1792837000000; category := "Genel"; minutes := 50 |} ] in
  let rows := fst (@weeklyTotals (fixedZone 10800000) 1792850000000 events) in
  let row := nth 5 rows {| date := 0; total := 0; breakdown := [] |} in
  In row rows /\ descending (breakdown row).
Proof.
  intros events rows row.
  assert (Hi : In row rows).
  { apply nth_In. vm_compute. lia. }
  split; [exact Hi |].
  exact (@weekly_breakdown_is_descending (fixedZone 10800000) 1792850000000
           events row Hi).
Defined.


Lemma saturday_row_is_the_daily_view :
  let events := [ {| ts := 1792836000000; category := "Okuma"; minutes := 50 |} ] in
  let now := 1792850000000 in
  (@lawfulZone (fixedZone 10800000) /\ @wholeDays (fixedZone 10800000) now /\
   @setDate (fixedZone 10800000)
     (@dayStart (fixedZone 10800000)
        (@mondayOf (fixedZone 10800000) now + Z.of_nat 5)) 1
   = @dayStart (fixedZone 10800000)
       (@mondayOf (fixedZone 10800000) now + Z.of_nat 5 + 1)) /\
  forall row,
    nth_error (fst (@weeklyTotals (fixedZone 10800000) now events)) 5 = Some row ->
    minutesIn "Okuma" (breakdown row)
    = minutesIn "Okuma"
        (@dailyTotalsByCategory (fixedZone 10800000) now
           (@mondayOf (fixedZone 10800000) now + Z.of_nat 5
            - @dayOf (fixedZone 10800000) now) events).
Proof.
  intros events now.
  assert (He : @setDate (fixedZone 10800000)
                 (@dayStart (fixedZone 10800000)
                    (@mondayOf (fixedZone 10800000) now + Z.of_nat 5)) 1
               = @dayStart (fixedZone 10800000)
                   (@mondayOf (fixedZone 10800000) now + Z.of_nat 5 + 1)).
  { vm_compute. reflexivity. }
  split;
    [exact (conj (fixedZone_lawful _) (conj (fixedZone_wholeDays _ _) He)) |].
  intros row Hrow.
  exact (@weekly_row_is_the_daily_view (fixedZone 10800000) now events 5 row
           "Okuma"%string (fixedZone_lawful _) (fixedZone_wholeDays _ _) He Hrow).
Defined.

Lemma kodlama_survives_a_reload :
  let p := @handleSelectChange refHost "Kodlama" (@mountPicker refHost None None) in
  NoDup (map (@labelKey refHost) DEFAULT_CATEGORIES) /\
  @mountPicker refHost (storedCategories (Picker.categories p))
    (Some (Picker.selectedCategory p)) = p.
Proof.
  intros p.
  assert (Hd : NoDup (map (@labelKey refHost) DEFAULT_CATEGORIES)).
  { vm_compute. repeat constructor; simpl; intuition discriminate. }
  split; [exact Hd |].
  destruct (@reload_keeps_the_categories refHost Hd) as (Hm & Hs & Hr).
  apply Hr.
  - apply Hs; [reflexivity | apply Hm].
  - vm_compute. reflexivity.
  - discriminate.
Defined.

(** The daily view of Friday 24 April 2026 in Cairo, the day on which summer
    time begins at midnight, looked at on Saturday: it counts the event of
    Saturday 00:30. *)
Lemma friday_view_counts_saturday_morning :
  (@lawfulZone cairo2026 /\
   @dayStart cairo2026 (@dayOf cairo2026 saturdayNoon + -1 + 1)
   <= ts saturdayEarly
   < @setDate cairo2026
       (@dayStart cairo2026 (@dayOf cairo2026 saturdayNoon + -1)) 1 /\
   @dayStart cairo2026 (@dayOf cairo2026 saturdayNoon + -1)
   <= @dayStart cairo2026 (@dayOf cairo2026 saturdayNoon + -1 + 1)) /\
  @dayOf cairo2026 (ts saturdayEarly) = @dayOf cairo2026 saturdayNoon /\
  minutesIn "Genel"
    (@dailyTotalsByCategory cairo2026 saturdayNoon (-1) ([] ++ [saturdayEarly]))
  = 0 + 25.
Proof.
  assert (Hin : @dayStart cairo2026 (@dayOf cairo2026 saturdayNoon + -1 + 1)
                <= ts saturdayEarly
                < @setDate cairo2026
                    (@dayStart cairo2026 (@dayOf cairo2026 saturdayNoon + -1)) 1).
  { vm_compute. split; [discriminate | reflexivity]. }
  assert (Hle : @dayStart cairo2026 (@dayOf cairo2026 saturdayNoon + -1)
                <= @dayStart cairo2026 (@dayOf cairo2026 saturdayNoon + -1 + 1)).
  { vm_compute. discriminate. }
  split; [exact (conj cairo2026_lawful (conj Hin Hle)) |].
  split; [reflexivity |].
  exact (proj2 (@daily_view_reaches_past_midnight cairo2026 saturdayNoon (-1)
                  [] saturdayEarly cairo2026_lawful Hin Hle)).
Defined.
